(** * SignalAir project-file tooling: identifier generator, project
      synthesizer ([create_xcodeproj.py]) and project patcher
      ([add_autonomous_files.py]).

    Python [str] values are modelled as lists of 8-bit characters, dictionaries
    as [gmap]s, the random source behind [uuid.uuid4] as a stream of 128-bit
    draws indexed by the number of draws made so far, and exceptions as an
    explicit [Raise] result. *)

From Stdlib Require Import Ascii String NArith ZArith Lia List.
From stdpp Require Import base option list gmap strings.

Import ListNotations.

(* ===================================================================== *)
(** * Part I: definitions *)
(* ===================================================================== *)

(** ** Text *)

Abbreviation str := (list ascii).

Definition txt (s : string) : str := list_ascii_of_string s.

Definition tab : ascii := ascii_of_nat 9.
Definition nl : ascii := ascii_of_nat 10.
Definition dq : ascii := ascii_of_nat 34.
Definition bslash : ascii := ascii_of_nat 92.

Definition tabs (n : nat) : str := repeat tab n.

(** A line of a template: [n] leading tabs followed by literal text. *)
Definition L (n : nat) (s : string) : str := tabs n ++ txt s.

(** Text of a list of lines, each terminated by a line feed. *)
Fixpoint unlines (ls : list str) : str :=
  match ls with
  | [] => []
  | l :: ls' => l ++ nl :: unlines ls'
  end.

Definition ascii_eqb (a b : ascii) : bool := Ascii.eqb a b.

Fixpoint str_eqb (a b : str) : bool :=
  match a, b with
  | [], [] => true
  | x :: a', y :: b' => ascii_eqb x y && str_eqb a' b'
  | _, _ => false
  end.

(** [strip_prefix p s] is [Some r] when [s = p ++ r]. *)
Fixpoint strip_prefix (p s : str) : option str :=
  match p with
  | [] => Some s
  | x :: p' =>
      match s with
      | [] => None
      | y :: s' => if ascii_eqb x y then strip_prefix p' s' else None
      end
  end.

(** [sub in s]: Python's [sub in s] for strings. *)
Fixpoint contains (sub s : str) : bool :=
  match strip_prefix sub s with
  | Some _ => true
  | None => match s with
            | [] => false
            | _ :: s' => contains sub s'
            end
  end.

(** ** [str.replace(old, new)]

    Non-overlapping occurrences of [old] are replaced from left to right; an
    empty [old] matches before every character and at the end.  Every step of
    [replace_from] consumes at least one character, so [length s] steps
    suffice. *)
Fixpoint replace_from (fuel : nat) (old new s : str) : str :=
  match fuel with
  | 0 => s
  | S fuel' =>
      match strip_prefix old s with
      | Some rest => new ++ replace_from fuel' old new rest
      | None =>
          match s with
          | [] => []
          | c :: s' => c :: replace_from fuel' old new s'
          end
      end
  end.

Definition replace (old new s : str) : str :=
  match old with
  | [] => new ++ flat_map (fun c => c :: new) s
  | _ :: _ => replace_from (length s) old new s
  end.

(** [str.upper()] on ASCII text. *)
Definition upper_char (c : ascii) : ascii :=
  let n := nat_of_ascii c in
  if (97 <=? n)%nat && (n <=? 122)%nat then ascii_of_nat (n - 32) else c.

Definition upper (s : str) : str := map upper_char s.

(** ** [uuid.uuid4] and its string form *)

Definition hex_digit (d : N) : ascii :=
  if (d <? 10)%N then ascii_of_N (48 + d) else ascii_of_N (87 + d).

(** ['%0wx' % n] for [n < 16^w]: [w] lowercase hexadecimal digits. *)
Fixpoint hex_fixed (w : nat) (n : N) : str :=
  match w with
  | 0 => []
  | S w' => hex_fixed w' (n / 16) ++ [hex_digit (n mod 16)]
  end.

(** [UUID(bytes=..., version=4)]: the variant and version bits are forced. *)
Definition uuid4_int (random_bits : N) : N :=
  let i := (random_bits mod 2 ^ 128)%N in
  let i := N.ldiff i (N.shiftl 0xc000 48) in
  let i := N.lor i (N.shiftl 0x8000 48) in
  let i := N.ldiff i (N.shiftl 0xf000 64) in
  N.lor i (N.shiftl 4 76).

(** [str(UUID)]: 8-4-4-4-12 hexadecimal digits separated by ['-']. *)
Definition uuid_str (i : N) : str :=
  let hex := hex_fixed 32 i in
  take 8 hex ++ txt "-" ++ take 4 (drop 8 hex) ++ txt "-" ++
  take 4 (drop 12 hex) ++ txt "-" ++ take 4 (drop 16 hex) ++ txt "-" ++
  drop 20 hex.

(** [str(uuid.uuid4()).replace('-', '').upper()[:24]] for one draw of the
    random source. *)
Definition uuid_token (random_bits : N) : str :=
  take 24 (upper (replace (txt "-") (txt "") (uuid_str (uuid4_int random_bits)))).

Arguments uuid_token : simpl never.

(** ** Effects: the random source and exceptions *)

Inductive exn : Type :=
| KeyError (key : str)        (* a dictionary lookup of a missing key *)
| TemplateError.              (* [re.error] or [IndexError] for a bad
                                 replacement template *)

Inductive result (A : Type) : Type :=
| Ok (a : A)
| Raise (e : exn).
Arguments Ok {A} a.
Arguments Raise {A} e.

(** The state is the number of draws made from the random source so far. *)
Definition M (A : Type) : Type := nat -> result (A * nat).

Definition ret {A} (a : A) : M A := fun st => Ok (a, st).

Definition bind {A B} (m : M A) (k : A -> M B) : M B :=
  fun st =>
    match m st with
    | Ok (a, st') => k a st'
    | Raise e => Raise e
    end.

Definition raise {A} (e : exn) : M A := fun _ => Raise e.

Notation "x <- m ;; k" := (bind m (fun x => k))
  (at level 100, m at next level, right associativity).

(** [for x in xs: acc = body(acc, x)] *)
Fixpoint for_each {A S} (xs : list A) (body : S -> A -> M S) (acc : S) : M S :=
  match xs with
  | [] => ret acc
  | x :: xs' => acc' <- body acc x ;; for_each xs' body acc'
  end.

(** [d[k]], raising [KeyError] on a missing key. *)
Definition dict_get (d : gmap str str) (k : str) : M str :=
  match d !! k with
  | Some v => ret v
  | None => raise (KeyError k)
  end.

(** ** Templates of [generate_project_pbxproj]

    Each template is the list of lines of one string literal of the source;
    the literal is the text [unlines] of that list. *)

(** Source lines 129-137. *)
Definition pbx_header : list str :=
  [ L 0 "// !$*UTF8*$!";
    L 0 "{";
    L 1 "archiveVersion = 1;";
    L 1 "classes = {";
    L 1 "};";
    L 1 "objectVersion = 56;";
    L 1 "objects = {";
    [];
    L 0 "/* Begin PBXBuildFile section */" ].

(** Source line 146. *)
Definition build_file_line (build_file_uuid file_ref_uuid swift_file : str) : str :=
  tabs 2 ++ build_file_uuid ++ txt " /* " ++ swift_file ++
  txt " in Sources */ = {isa = PBXBuildFile; fileRef = " ++ file_ref_uuid ++
  txt " /* " ++ swift_file ++ txt " */; };".

(** Source lines 148-150. *)
Definition build_file_section_end : list str :=
  [ L 0 "/* End PBXBuildFile section */";
    [];
    L 0 "/* Begin PBXFileReference section */" ].

(** Source line 157. *)
Definition app_ref_line (project_name app_uuid : str) : str :=
  tabs 2 ++ app_uuid ++ txt " /* " ++ project_name ++
  txt ".app */ = {isa = PBXFileReference; explicitFileType = wrapper.application; includeInIndex = 0; path = " ++
  project_name ++ txt ".app; sourceTree = BUILT_PRODUCTS_DIR; };".

(** Source line 158. *)
Definition info_plist_line (info_plist_uuid : str) : str :=
  tabs 2 ++ info_plist_uuid ++
  txt " /* Info.plist */ = {isa = PBXFileReference; lastKnownFileType = text.plist.xml; path = Info.plist; sourceTree = " ++
  [dq] ++ txt "<group>" ++ [dq] ++ txt "; };".

(** Source line 162. *)
Definition file_ref_line (file_ref_uuid swift_file : str) : str :=
  tabs 2 ++ file_ref_uuid ++ txt " /* " ++ swift_file ++
  txt " */ = {isa = PBXFileReference; lastKnownFileType = sourcecode.swift; path = " ++
  [dq] ++ swift_file ++ [dq] ++ txt "; sourceTree = " ++ [dq] ++
  txt "<group>" ++ [dq] ++ txt "; };".

(** Source lines 164-166. *)
Definition file_ref_section_end : list str :=
  [ L 0 "/* End PBXFileReference section */";
    [];
    L 0 "/* Begin PBXFrameworksBuildPhase section */" ].

(** Source lines 170-244: frameworks phase, main group, native target, project
    object and the opening of the sources build phase.  The six identifiers
    after [frameworks_uuid] are the results of the [generate_uuid()] calls
    written inline at source lines 183, 184, 195, 222, 231 and 241. *)
Definition objects_block
    (project_name project_uuid main_group_uuid target_uuid
     build_config_list_uuid app_uuid frameworks_uuid
     group_child_project group_child_products target_sources_ref
     project_config_list_ref product_ref_group sources_phase_uuid : str)
    : list str :=
  [ tabs 2 ++ frameworks_uuid ++ txt " /* Frameworks */ = {";
    L 3 "isa = PBXFrameworksBuildPhase;";
    L 3 "buildActionMask = 2147483647;";
    L 3 "files = (";
    L 3 ");";
    L 3 "runOnlyForDeploymentPostprocessing = 0;";
    L 2 "};";
    L 0 "/* End PBXFrameworksBuildPhase section */";
    [];
    L 0 "/* Begin PBXGroup section */";
    tabs 2 ++ main_group_uuid ++ txt " = {";
    L 3 "isa = PBXGroup;";
    L 3 "children = (";
    tabs 4 ++ group_child_project ++ txt " /* " ++ project_name ++ txt " */,";
    tabs 4 ++ group_child_products ++ txt " /* Products */,";
    L 3 ");";
    tabs 3 ++ txt "sourceTree = " ++ [dq] ++ txt "<group>" ++ [dq] ++ txt ";";
    L 2 "};";
    L 0 "/* End PBXGroup section */";
    [];
    L 0 "/* Begin PBXNativeTarget section */";
    tabs 2 ++ target_uuid ++ txt " /* " ++ project_name ++ txt " */ = {";
    L 3 "isa = PBXNativeTarget;";
    tabs 3 ++ txt "buildConfigurationList = " ++ build_config_list_uuid ++
    txt " /* Build configuration list for PBXNativeTarget " ++ [dq] ++
    project_name ++ [dq] ++ txt " */;";
    L 3 "buildPhases = (";
    tabs 4 ++ target_sources_ref ++ txt " /* Sources */,";
    tabs 4 ++ frameworks_uuid ++ txt " /* Frameworks */,";
    L 3 ");";
    L 3 "buildRules = (";
    L 3 ");";
    L 3 "dependencies = (";
    L 3 ");";
    tabs 3 ++ txt "name = " ++ project_name ++ txt ";";
    tabs 3 ++ txt "productName = " ++ project_name ++ txt ";";
    tabs 3 ++ txt "productReference = " ++ app_uuid ++ txt " /* " ++
    project_name ++ txt ".app */;";
    tabs 3 ++ txt "productType = " ++ [dq] ++
    txt "com.apple.product-type.application" ++ [dq] ++ txt ";";
    L 2 "};";
    L 0 "/* End PBXNativeTarget section */";
    [];
    L 0 "/* Begin PBXProject section */";
    tabs 2 ++ project_uuid ++ txt " /* Project object */ = {";
    L 3 "isa = PBXProject;";
    L 3 "attributes = {";
    L 4 "BuildIndependentTargetsInParallel = 1;";
    L 4 "LastSwiftUpdateCheck = 1500;";
    L 4 "LastUpgradeCheck = 1500;";
    L 4 "TargetAttributes = {";
    tabs 5 ++ target_uuid ++ txt " = {";
    L 6 "CreatedOnToolsVersion = 15.0;";
    L 5 "};";
    L 4 "};";
    L 3 "};";
    tabs 3 ++ txt "buildConfigurationList = " ++ project_config_list_ref ++
    txt " /* Build configuration list for PBXProject " ++ [dq] ++
    project_name ++ [dq] ++ txt " */;";
    tabs 3 ++ txt "compatibilityVersion = " ++ [dq] ++ txt "Xcode 14.0" ++
    [dq] ++ txt ";";
    L 3 "developmentRegion = en;";
    L 3 "hasScannedForEncodings = 0;";
    L 3 "knownRegions = (";
    L 4 "en,";
    L 4 "Base,";
    L 3 ");";
    tabs 3 ++ txt "mainGroup = " ++ main_group_uuid ++ txt ";";
    tabs 3 ++ txt "productRefGroup = " ++ product_ref_group ++
    txt " /* Products */;";
    tabs 3 ++ txt "projectDirPath = " ++ [dq] ++ [dq] ++ txt ";";
    tabs 3 ++ txt "projectRoot = " ++ [dq] ++ [dq] ++ txt ";";
    L 3 "targets = (";
    tabs 4 ++ target_uuid ++ txt " /* " ++ project_name ++ txt " */,";
    L 3 ");";
    L 2 "};";
    L 0 "/* End PBXProject section */";
    [];
    L 0 "/* Begin PBXSourcesBuildPhase section */";
    tabs 2 ++ sources_phase_uuid ++ txt " /* Sources */ = {";
    L 3 "isa = PBXSourcesBuildPhase;";
    L 3 "buildActionMask = 2147483647;";
    L 3 "files = (" ].

(** Source line 250. *)
Definition sources_line (build_file_uuid swift_file : str) : str :=
  tabs 4 ++ build_file_uuid ++ txt " /* " ++ swift_file ++
  txt " in Sources */,".

(** Source lines 252-257. *)
Definition sources_phase_end : list str :=
  [ L 3 ");";
    L 3 "runOnlyForDeploymentPostprocessing = 0;";
    L 2 "};";
    L 0 "/* End PBXSourcesBuildPhase section */";
    [];
    L 0 "/* Begin XCBuildConfiguration section */" ].

(** Source lines 264-382: project-level Debug and Release configurations. *)
Definition project_configs (debug_config_uuid release_config_uuid : str)
    : list str :=
  [ tabs 2 ++ debug_config_uuid ++ txt " /* Debug */ = {";
    L 3 "isa = XCBuildConfiguration;";
    L 3 "buildSettings = {";
    L 4 "ALWAYS_SEARCH_USER_PATHS = NO;";
    L 4 "ASSETCATALOG_COMPILER_GENERATE_SWIFT_ASSET_SYMBOL_EXTENSIONS = YES;";
    L 4 "CLANG_ANALYZER_NONNULL = YES;";
    L 4 "CLANG_ANALYZER_NUMBER_OBJECT_CONVERSION = YES_AGGRESSIVE;";
    tabs 4 ++ txt "CLANG_CXX_LANGUAGE_STANDARD = " ++ [dq] ++
    txt "gnu++20" ++ [dq] ++ txt ";";
    L 4 "CLANG_ENABLE_MODULES = YES;";
    L 4 "CLANG_ENABLE_OBJC_ARC = YES;";
    L 4 "CLANG_ENABLE_OBJC_WEAK = YES;";
    L 4 "CLANG_WARN_BLOCK_CAPTURE_AUTORELEASING = YES;";
    L 4 "CLANG_WARN_BOOL_CONVERSION = YES;";
    L 4 "CLANG_WARN_COMMA = YES;";
    L 4 "CLANG_WARN_CONSTANT_CONVERSION = YES;";
    L 4 "CLANG_WARN_DEPRECATED_OBJC_IMPLEMENTATIONS = YES;";
    L 4 "CLANG_WARN_DIRECT_OBJC_ISA_USAGE = YES_ERROR;";
    L 4 "CLANG_WARN_DOCUMENTATION_COMMENTS = YES;";
    L 4 "CLANG_WARN_EMPTY_BODY = YES;";
    L 4 "CLANG_WARN_ENUM_CONVERSION = YES;";
    L 4 "CLANG_WARN_INFINITE_RECURSION = YES;";
    L 4 "CLANG_WARN_INT_CONVERSION = YES;";
    L 4 "CLANG_WARN_NON_LITERAL_NULL_CONVERSION = YES;";
    L 4 "CLANG_WARN_OBJC_IMPLICIT_RETAIN_SELF = YES;";
    L 4 "CLANG_WARN_OBJC_LITERAL_CONVERSION = YES;";
    L 4 "CLANG_WARN_OBJC_ROOT_CLASS = YES_ERROR;";
    L 4 "CLANG_WARN_QUOTED_INCLUDE_IN_FRAMEWORK_HEADER = YES;";
    L 4 "CLANG_WARN_RANGE_LOOP_ANALYSIS = YES;";
    L 4 "CLANG_WARN_STRICT_PROTOTYPES = YES;";
    L 4 "CLANG_WARN_SUSPICIOUS_MOVE = YES;";
    L 4 "CLANG_WARN_UNGUARDED_AVAILABILITY = YES_AGGRESSIVE;";
    L 4 "CLANG_WARN_UNREACHABLE_CODE = YES;";
    L 4 "CLANG_WARN__DUPLICATE_METHOD_MATCH = YES;";
    L 4 "COPY_PHASE_STRIP = NO;";
    L 4 "DEBUG_INFORMATION_FORMAT = dwarf;";
    L 4 "ENABLE_STRICT_OBJC_MSGSEND = YES;";
    L 4 "ENABLE_TESTABILITY = YES;";
    L 4 "ENABLE_USER_SCRIPT_SANDBOXING = YES;";
    L 4 "GCC_C_LANGUAGE_STANDARD = gnu17;";
    L 4 "GCC_DYNAMIC_NO_PIC = NO;";
    L 4 "GCC_NO_COMMON_BLOCKS = YES;";
    L 4 "GCC_OPTIMIZATION_LEVEL = 0;";
    L 4 "GCC_PREPROCESSOR_DEFINITIONS = (";
    tabs 5 ++ [dq] ++ txt "DEBUG=1" ++ [dq] ++ txt ",";
    tabs 5 ++ [dq] ++ txt "$(inherited)" ++ [dq] ++ txt ",";
    L 4 ");";
    L 4 "GCC_WARN_64_TO_32_BIT_CONVERSION = YES;";
    L 4 "GCC_WARN_ABOUT_RETURN_TYPE = YES_ERROR;";
    L 4 "GCC_WARN_UNDECLARED_SELECTOR = YES;";
    L 4 "GCC_WARN_UNINITIALIZED_AUTOS = YES_AGGRESSIVE;";
    L 4 "GCC_WARN_UNUSED_FUNCTION = YES;";
    L 4 "GCC_WARN_UNUSED_VARIABLE = YES;";
    L 4 "IPHONEOS_DEPLOYMENT_TARGET = 15.0;";
    L 4 "LOCALIZATION_PREFERS_STRING_CATALOGS = YES;";
    L 4 "MTL_ENABLE_DEBUG_INFO = INCLUDE_SOURCE;";
    L 4 "MTL_FAST_MATH = YES;";
    L 4 "ONLY_ACTIVE_ARCH = YES;";
    L 4 "SDKROOT = iphoneos;";
    tabs 4 ++ txt "SWIFT_ACTIVE_COMPILATION_CONDITIONS = " ++ [dq] ++
    txt "DEBUG $(inherited)" ++ [dq] ++ txt ";";
    tabs 4 ++ txt "SWIFT_OPTIMIZATION_LEVEL = " ++ [dq] ++ txt "-Onone" ++
    [dq] ++ txt ";";
    L 3 "};";
    L 3 "name = Debug;";
    L 2 "};";
    tabs 2 ++ release_config_uuid ++ txt " /* Release */ = {";
    L 3 "isa = XCBuildConfiguration;";
    L 3 "buildSettings = {";
    L 4 "ALWAYS_SEARCH_USER_PATHS = NO;";
    L 4 "ASSETCATALOG_COMPILER_GENERATE_SWIFT_ASSET_SYMBOL_EXTENSIONS = YES;";
    L 4 "CLANG_ANALYZER_NONNULL = YES;";
    L 4 "CLANG_ANALYZER_NUMBER_OBJECT_CONVERSION = YES_AGGRESSIVE;";
    tabs 4 ++ txt "CLANG_CXX_LANGUAGE_STANDARD = " ++ [dq] ++
    txt "gnu++20" ++ [dq] ++ txt ";";
    L 4 "CLANG_ENABLE_MODULES = YES;";
    L 4 "CLANG_ENABLE_OBJC_ARC = YES;";
    L 4 "CLANG_ENABLE_OBJC_WEAK = YES;";
    L 4 "CLANG_WARN_BLOCK_CAPTURE_AUTORELEASING = YES;";
    L 4 "CLANG_WARN_BOOL_CONVERSION = YES;";
    L 4 "CLANG_WARN_COMMA = YES;";
    L 4 "CLANG_WARN_CONSTANT_CONVERSION = YES;";
    L 4 "CLANG_WARN_DEPRECATED_OBJC_IMPLEMENTATIONS = YES;";
    L 4 "CLANG_WARN_DIRECT_OBJC_ISA_USAGE = YES_ERROR;";
    L 4 "CLANG_WARN_DOCUMENTATION_COMMENTS = YES;";
    L 4 "CLANG_WARN_EMPTY_BODY = YES;";
    L 4 "CLANG_WARN_ENUM_CONVERSION = YES;";
    L 4 "CLANG_WARN_INFINITE_RECURSION = YES;";
    L 4 "CLANG_WARN_INT_CONVERSION = YES;";
    L 4 "CLANG_WARN_NON_LITERAL_NULL_CONVERSION = YES;";
    L 4 "CLANG_WARN_OBJC_IMPLICIT_RETAIN_SELF = YES;";
    L 4 "CLANG_WARN_OBJC_LITERAL_CONVERSION = YES;";
    L 4 "CLANG_WARN_OBJC_ROOT_CLASS = YES_ERROR;";
    L 4 "CLANG_WARN_QUOTED_INCLUDE_IN_FRAMEWORK_HEADER = YES;";
    L 4 "CLANG_WARN_RANGE_LOOP_ANALYSIS = YES;";
    L 4 "CLANG_WARN_STRICT_PROTOTYPES = YES;";
    L 4 "CLANG_WARN_SUSPICIOUS_MOVE = YES;";
    L 4 "CLANG_WARN_UNGUARDED_AVAILABILITY = YES_AGGRESSIVE;";
    L 4 "CLANG_WARN_UNREACHABLE_CODE = YES;";
    L 4 "CLANG_WARN__DUPLICATE_METHOD_MATCH = YES;";
    L 4 "COPY_PHASE_STRIP = NO;";
    tabs 4 ++ txt "DEBUG_INFORMATION_FORMAT = " ++ [dq] ++
    txt "dwarf-with-dsym" ++ [dq] ++ txt ";";
    L 4 "ENABLE_NS_ASSERTIONS = NO;";
    L 4 "ENABLE_STRICT_OBJC_MSGSEND = YES;";
    L 4 "ENABLE_USER_SCRIPT_SANDBOXING = YES;";
    L 4 "GCC_C_LANGUAGE_STANDARD = gnu17;";
    L 4 "GCC_NO_COMMON_BLOCKS = YES;";
    L 4 "GCC_WARN_64_TO_32_BIT_CONVERSION = YES;";
    L 4 "GCC_WARN_ABOUT_RETURN_TYPE = YES_ERROR;";
    L 4 "GCC_WARN_UNDECLARED_SELECTOR = YES;";
    L 4 "GCC_WARN_UNINITIALIZED_AUTOS = YES_AGGRESSIVE;";
    L 4 "GCC_WARN_UNUSED_FUNCTION = YES;";
    L 4 "GCC_WARN_UNUSED_VARIABLE = YES;";
    L 4 "IPHONEOS_DEPLOYMENT_TARGET = 15.0;";
    L 4 "LOCALIZATION_PREFERS_STRING_CATALOGS = YES;";
    L 4 "MTL_ENABLE_DEBUG_INFO = NO;";
    L 4 "MTL_FAST_MATH = YES;";
    L 4 "SDKROOT = iphoneos;";
    L 4 "SWIFT_COMPILATION_MODE = wholemodule;";
    L 4 "VALIDATE_PRODUCT = YES;";
    L 3 "};";
    L 3 "name = Release;";
    L 2 "};" ].

(** Source lines 389-471: target-level configurations, the two configuration
    lists and the root object.  [project_config_list_uuid] is the result of
    the [generate_uuid()] call written inline at source line 459. *)
Definition target_configs_block
    (project_name bundle_id project_uuid build_config_list_uuid
     debug_config_uuid release_config_uuid target_debug_uuid
     target_release_uuid project_config_list_uuid : str) : list str :=
  [ tabs 2 ++ target_debug_uuid ++ txt " /* Debug */ = {";
    L 3 "isa = XCBuildConfiguration;";
    L 3 "buildSettings = {";
    L 4 "ASSETCATALOG_COMPILER_APPICON_NAME = AppIcon;";
    L 4 "ASSETCATALOG_COMPILER_GLOBAL_ACCENT_COLOR_NAME = AccentColor;";
    L 4 "CODE_SIGN_STYLE = Automatic;";
    L 4 "CURRENT_PROJECT_VERSION = 1;";
    tabs 4 ++ txt "DEVELOPMENT_ASSET_PATHS = " ++ [dq] ++ [dq] ++ txt ";";
    L 4 "ENABLE_PREVIEWS = YES;";
    L 4 "GENERATE_INFOPLIST_FILE = NO;";
    tabs 4 ++ txt "INFOPLIST_FILE = " ++ project_name ++ txt "/Info.plist;";
    L 4 "INFOPLIST_KEY_UIApplicationSceneManifest_Generation = YES;";
    L 4 "INFOPLIST_KEY_UIApplicationSupportsIndirectInputEvents = YES;";
    L 4 "INFOPLIST_KEY_UILaunchScreen_Generation = YES;";
    tabs 4 ++ txt "INFOPLIST_KEY_UISupportedInterfaceOrientations_iPad = " ++
    [dq] ++
    txt "UIInterfaceOrientationPortrait UIInterfaceOrientationPortraitUpsideDown UIInterfaceOrientationLandscapeLeft UIInterfaceOrientationLandscapeRight" ++
    [dq] ++ txt ";";
    tabs 4 ++
    txt "INFOPLIST_KEY_UISupportedInterfaceOrientations_iPhone = " ++ [dq] ++
    txt "UIInterfaceOrientationPortrait UIInterfaceOrientationLandscapeLeft UIInterfaceOrientationLandscapeRight" ++
    [dq] ++ txt ";";
    L 4 "LD_RUNPATH_SEARCH_PATHS = (";
    tabs 5 ++ [dq] ++ txt "$(inherited)" ++ [dq] ++ txt ",";
    tabs 5 ++ [dq] ++ txt "@executable_path/Frameworks" ++ [dq] ++ txt ",";
    L 4 ");";
    L 4 "MARKETING_VERSION = 1.0;";
    tabs 4 ++ txt "PRODUCT_BUNDLE_IDENTIFIER = " ++ bundle_id ++ txt ";";
    tabs 4 ++ txt "PRODUCT_NAME = " ++ [dq] ++ txt "$(TARGET_NAME)" ++
    [dq] ++ txt ";";
    L 4 "SWIFT_EMIT_LOC_STRINGS = YES;";
    L 4 "SWIFT_VERSION = 5.0;";
    tabs 4 ++ txt "TARGETED_DEVICE_FAMILY = " ++ [dq] ++ txt "1,2" ++ [dq] ++
    txt ";";
    L 3 "};";
    L 3 "name = Debug;";
    L 2 "};";
    tabs 2 ++ target_release_uuid ++ txt " /* Release */ = {";
    L 3 "isa = XCBuildConfiguration;";
    L 3 "buildSettings = {";
    L 4 "ASSETCATALOG_COMPILER_APPICON_NAME = AppIcon;";
    L 4 "ASSETCATALOG_COMPILER_GLOBAL_ACCENT_COLOR_NAME = AccentColor;";
    L 4 "CODE_SIGN_STYLE = Automatic;";
    L 4 "CURRENT_PROJECT_VERSION = 1;";
    tabs 4 ++ txt "DEVELOPMENT_ASSET_PATHS = " ++ [dq] ++ [dq] ++ txt ";";
    L 4 "ENABLE_PREVIEWS = YES;";
    L 4 "GENERATE_INFOPLIST_FILE = NO;";
    tabs 4 ++ txt "INFOPLIST_FILE = " ++ project_name ++ txt "/Info.plist;";
    L 4 "INFOPLIST_KEY_UIApplicationSceneManifest_Generation = YES;";
    L 4 "INFOPLIST_KEY_UIApplicationSupportsIndirectInputEvents = YES;";
    L 4 "INFOPLIST_KEY_UILaunchScreen_Generation = YES;";
    tabs 4 ++ txt "INFOPLIST_KEY_UISupportedInterfaceOrientations_iPad = " ++
    [dq] ++
    txt "UIInterfaceOrientationPortrait UIInterfaceOrientationPortraitUpsideDown UIInterfaceOrientationLandscapeLeft UIInterfaceOrientationLandscapeRight" ++
    [dq] ++ txt ";";
    tabs 4 ++
    txt "INFOPLIST_KEY_UISupportedInterfaceOrientations_iPhone = " ++ [dq] ++
    txt "UIInterfaceOrientationPortrait UIInterfaceOrientationLandscapeLeft UIInterfaceOrientationLandscapeRight" ++
    [dq] ++ txt ";";
    L 4 "LD_RUNPATH_SEARCH_PATHS = (";
    tabs 5 ++ [dq] ++ txt "$(inherited)" ++ [dq] ++ txt ",";
    tabs 5 ++ [dq] ++ txt "@executable_path/Frameworks" ++ [dq] ++ txt ",";
    L 4 ");";
    L 4 "MARKETING_VERSION = 1.0;";
    tabs 4 ++ txt "PRODUCT_BUNDLE_IDENTIFIER = " ++ bundle_id ++ txt ";";
    tabs 4 ++ txt "PRODUCT_NAME = " ++ [dq] ++ txt "$(TARGET_NAME)" ++
    [dq] ++ txt ";";
    L 4 "SWIFT_EMIT_LOC_STRINGS = YES;";
    L 4 "SWIFT_VERSION = 5.0;";
    tabs 4 ++ txt "TARGETED_DEVICE_FAMILY = " ++ [dq] ++ txt "1,2" ++ [dq] ++
    txt ";";
    L 3 "};";
    L 3 "name = Release;";
    L 2 "};";
    L 0 "/* End XCBuildConfiguration section */";
    [];
    L 0 "/* Begin XCConfigurationList section */";
    tabs 2 ++ build_config_list_uuid ++
    txt " /* Build configuration list for PBXNativeTarget " ++ [dq] ++
    project_name ++ [dq] ++ txt " */ = {";
    L 3 "isa = XCConfigurationList;";
    L 3 "buildConfigurations = (";
    tabs 4 ++ target_debug_uuid ++ txt " /* Debug */,";
    tabs 4 ++ target_release_uuid ++ txt " /* Release */,";
    L 3 ");";
    L 3 "defaultConfigurationIsVisible = 0;";
    L 3 "defaultConfigurationName = Release;";
    L 2 "};";
    tabs 2 ++ project_config_list_uuid ++
    txt " /* Build configuration list for PBXProject " ++ [dq] ++
    project_name ++ [dq] ++ txt " */ = {";
    L 3 "isa = XCConfigurationList;";
    L 3 "buildConfigurations = (";
    tabs 4 ++ debug_config_uuid ++ txt " /* Debug */,";
    tabs 4 ++ release_config_uuid ++ txt " /* Release */,";
    L 3 ");";
    L 3 "defaultConfigurationIsVisible = 0;";
    L 3 "defaultConfigurationName = Release;";
    L 2 "};";
    L 0 "/* End XCConfigurationList section */";
    L 1 "};";
    tabs 1 ++ txt "rootObject = " ++ project_uuid ++
    txt " /* Project object */;";
    L 0 "}" ].

#[local] Set Warnings "-register-all".

(** ** Discovery: [os.walk] restricted to what the synthesizer observes

    A directory holds file names and named sub-directories, both in the order
    the operating system lists them.  [os.walk] visits a directory before its
    sub-directories; the synthesizer keeps the files whose name ends in
    [.swift], as paths relative to the walked root. *)
Inductive dir_tree : Type :=
| Dir (files : list str) (dirs : list (str * dir_tree)).

Definition endswith (s suffix : str) : bool :=
  str_eqb (drop (length s - length suffix) s) suffix
  && (length suffix <=? length s)%nat.

Fixpoint walk_swift (rel : str) (t : dir_tree) : list str :=
  match t with
  | Dir files dirs =>
      map (fun file => rel ++ file)
          (filter (fun file => endswith file (txt ".swift") = true) files)
      ++ (fix walk_dirs (ds : list (str * dir_tree)) : list str :=
            match ds with
            | [] => []
            | (d, sub) :: ds' =>
                walk_swift (rel ++ d ++ txt "/") sub ++ walk_dirs ds'
            end) dirs
  end.

Section RandomSource.

(** [urandom k]: the 128 bits delivered by the [k]-th draw. *)
Variable urandom : nat -> N.

Definition uuid_at (k : nat) : str := uuid_token (urandom k).

Definition generate_uuid : M str := fun st => Ok (uuid_at st, S st).

(** ** [XcodeprojGenerator.generate_project_pbxproj] *)

(** State threaded through the first loop: the text so far and the two
    dictionaries [self.build_file_refs] and [self.file_refs]. *)
Record synth_acc : Type := SynthAcc {
  acc_content : str;
  acc_build_file_refs : gmap str str;
  acc_file_refs : gmap str str
}.

(** Source lines 141-146. *)
Definition add_build_file (acc : synth_acc) (swift_file : str) : M synth_acc :=
  build_file_uuid <- generate_uuid ;;
  file_ref_uuid <- generate_uuid ;;
  ret {| acc_content :=
           acc_content acc
           ++ unlines [build_file_line build_file_uuid file_ref_uuid swift_file];
         acc_build_file_refs :=
           <[swift_file := build_file_uuid]> (acc_build_file_refs acc);
         acc_file_refs := <[swift_file := file_ref_uuid]> (acc_file_refs acc) |}.

(** Source lines 160-162. *)
Definition add_file_ref (file_refs : gmap str str) (content swift_file : str)
    : M str :=
  file_ref_uuid <- dict_get file_refs swift_file ;;
  ret (content ++ unlines [file_ref_line file_ref_uuid swift_file]).

(** Source lines 248-250. *)
Definition add_source (build_file_refs : gmap str str)
    (content swift_file : str) : M str :=
  build_file_uuid <- dict_get build_file_refs swift_file ;;
  ret (content ++ unlines [sources_line build_file_uuid swift_file]).

(** Source lines 122-474, for the list [swift_files] collected at lines
    115-120. *)
Definition assemble_pbxproj (project_name bundle_id : str)
    (swift_files : list str) : M str :=
  project_uuid <- generate_uuid ;;
  main_group_uuid <- generate_uuid ;;
  target_uuid <- generate_uuid ;;
  build_config_list_uuid <- generate_uuid ;;
  let content := unlines pbx_header in
  acc <- for_each swift_files add_build_file
           {| acc_content := content;
              acc_build_file_refs := ∅;
              acc_file_refs := ∅ |} ;;
  let content := acc_content acc ++ unlines build_file_section_end in
  app_uuid <- generate_uuid ;;
  info_plist_uuid <- generate_uuid ;;
  let content := content ++ unlines [app_ref_line project_name app_uuid] in
  let content := content ++ unlines [info_plist_line info_plist_uuid] in
  content <- for_each swift_files (add_file_ref (acc_file_refs acc)) content ;;
  let content := content ++ unlines file_ref_section_end in
  frameworks_uuid <- generate_uuid ;;
  group_child_project <- generate_uuid ;;
  group_child_products <- generate_uuid ;;
  target_sources_ref <- generate_uuid ;;
  project_config_list_ref <- generate_uuid ;;
  product_ref_group <- generate_uuid ;;
  sources_phase_uuid <- generate_uuid ;;
  let content :=
    content
    ++ unlines (objects_block project_name project_uuid main_group_uuid
                  target_uuid build_config_list_uuid app_uuid frameworks_uuid
                  group_child_project group_child_products target_sources_ref
                  project_config_list_ref product_ref_group
                  sources_phase_uuid) in
  content <- for_each swift_files
               (add_source (acc_build_file_refs acc)) content ;;
  let content := content ++ unlines sources_phase_end in
  debug_config_uuid <- generate_uuid ;;
  release_config_uuid <- generate_uuid ;;
  let content :=
    content ++ unlines (project_configs debug_config_uuid release_config_uuid) in
  target_debug_uuid <- generate_uuid ;;
  target_release_uuid <- generate_uuid ;;
  project_config_list_uuid <- generate_uuid ;;
  let content :=
    content
    ++ unlines (target_configs_block project_name bundle_id project_uuid
                  build_config_list_uuid debug_config_uuid release_config_uuid
                  target_debug_uuid target_release_uuid
                  project_config_list_uuid) in
  ret content.

(** [generate_project_pbxproj] on the directory tree found under the
    directory named [project_name]. *)
Definition generate_project_pbxproj (project_name bundle_id : str)
    (tree : dir_tree) : M str :=
  let swift_files := walk_swift [] tree in
  assemble_pbxproj project_name bundle_id swift_files.

End RandomSource.

(** ** Regular expressions: the fragment of [re] used by the patcher

    Matching is Python's: backtracking, alternatives tried in priority order,
    the first success wins.  [rmatch r fuel s k] matches [r] at the start of
    [s] and hands the unconsumed rest to the continuation [k]; [fuel] bounds
    the iterations of a repetition and is the length of the searched text
    (every iteration of the repetitions used here consumes a character). *)
Inductive regex : Type :=
| RLit (s : str)                 (* literal text *)
| RSet (p : ascii -> bool)       (* one character of a class *)
| RSeq (r1 r2 : regex)           (* r1 r2 *)
| RStar (r : regex)              (* r*   greedy *)
| RLazyStar (r : regex).         (* r*?  lazy *)

(** [r+] is [r] followed by [r*]. *)
Definition RPlus (r : regex) : regex := RSeq r (RStar r).

(** One repetition loop for [r*] and one for [r*?]: [body] matches [r] once,
    [k] takes over after the repetition, [n] bounds the iterations left.  An
    iteration that consumes nothing is not repeated. *)
Definition star_loop (body : str -> (str -> option str) -> option str)
    (k : str -> option str) : nat -> str -> option str :=
  fix star (n : nat) (s : str) {struct n} : option str :=
    match n with
    | 0 => k s
    | S n' =>
        match body s (fun s' => if (length s' <? length s)%nat then star n' s'
                                else None) with
        | Some rest => Some rest
        | None => k s
        end
    end.

Definition lazy_loop (body : str -> (str -> option str) -> option str)
    (k : str -> option str) : nat -> str -> option str :=
  fix lazy (n : nat) (s : str) {struct n} : option str :=
    match n with
    | 0 => k s
    | S n' =>
        match k s with
        | Some rest => Some rest
        | None =>
            body s (fun s' => if (length s' <? length s)%nat then lazy n' s'
                              else None)
        end
    end.

Fixpoint rmatch (r : regex) (fuel : nat) (s : str) (k : str -> option str)
    {struct r} : option str :=
  match r with
  | RLit l =>
      match strip_prefix l s with
      | Some rest => k rest
      | None => None
      end
  | RSet p =>
      match s with
      | c :: s' => if p c then k s' else None
      | [] => None
      end
  | RSeq r1 r2 => rmatch r1 fuel s (fun s' => rmatch r2 fuel s' k)
  | RStar r1 => star_loop (rmatch r1 fuel) k fuel s
  | RLazyStar r1 => lazy_loop (rmatch r1 fuel) k fuel s
  end.

(** A match of a pattern in a text: the text before it, the matched text and
    the text after it. *)
Record re_match : Type := ReMatch {
  m_before : str;
  m_text : str;
  m_after : str
}.

(** [re.search]: the match at the leftmost position where the pattern
    matches.  [before] holds the characters already passed, reversed. *)
Fixpoint search_from (r : regex) (fuel : nat) (before s : str)
    : option re_match :=
  match rmatch r fuel s Some with
  | Some rest =>
      Some {| m_before := rev before;
              m_text := take (length s - length rest) s;
              m_after := rest |}
  | None =>
      match s with
      | [] => None
      | c :: s' => search_from r fuel (c :: before) s'
      end
  end.

Definition re_search (r : regex) (s : str) : option re_match :=
  search_from r (length s) [] s.

(** *** Replacement templates

    The replacement string of [re.sub] is parsed before the search: a
    backslash followed by digits is a group reference (or an octal escape),
    [\g<n>] a group reference, [\a \b \f \n \r \t \v \\] character escapes,
    a backslash before any other ASCII letter or at the end of the template
    an error, and a backslash before anything else stays as it is.  The
    patterns here have exactly one group. *)
Inductive tpl_item : Type :=
| TChar (c : ascii)
| TGroup (n : nat).

Definition is_digit (c : ascii) : bool :=
  let n := nat_of_ascii c in (48 <=? n)%nat && (n <=? 57)%nat.

Definition is_octdigit (c : ascii) : bool :=
  let n := nat_of_ascii c in (48 <=? n)%nat && (n <=? 55)%nat.

Definition is_ascii_letter (c : ascii) : bool :=
  let n := nat_of_ascii c in
  ((65 <=? n)%nat && (n <=? 90)%nat) || ((97 <=? n)%nat && (n <=? 122)%nat).

Definition digit_val (c : ascii) : nat := nat_of_ascii c - 48.

Definition escape_char (c : ascii) : option ascii :=
  match nat_of_ascii c with
  | 97 => Some (ascii_of_nat 7)      (* \a *)
  | 98 => Some (ascii_of_nat 8)      (* \b *)
  | 102 => Some (ascii_of_nat 12)    (* \f *)
  | 110 => Some (ascii_of_nat 10)    (* \n *)
  | 114 => Some (ascii_of_nat 13)    (* \r *)
  | 116 => Some (ascii_of_nat 9)     (* \t *)
  | 118 => Some (ascii_of_nat 11)    (* \v *)
  | 92 => Some bslash                (* \\ *)
  | _ => None
  end.

(** The group name of [\g<name>]: the characters up to the first ['>']. *)
Fixpoint until_gt (s : str) : option (str * str) :=
  match s with
  | [] => None
  | c :: s' =>
      if ascii_eqb c ">" then Some ([], s')
      else match until_gt s' with
           | Some (n, rest) => Some (c :: n, rest)
           | None => None
           end
  end.

Definition decimal_val (s : str) : nat :=
  fold_left (fun acc c => 10 * acc + digit_val c) s 0.

(** [groups]: the number of groups of the pattern. *)
Fixpoint parse_template (fuel groups : nat) (t : str)
    : option (list tpl_item) :=
  match fuel with
  | 0 => match t with [] => Some [] | _ => None end
  | S fuel' =>
      let continue item rest :=
        match parse_template fuel' groups rest with
        | Some items => Some (item ++ items)
        | None => None
        end in
      let group_ref n rest :=
        if (n <=? groups)%nat then continue [TGroup n] rest else None in
      match t with
      | [] => Some []
      | c :: rest =>
          if negb (ascii_eqb c bslash) then continue [TChar c] rest
          else
            match rest with
            | [] => None
            | e :: rest =>
                if ascii_eqb e "g" then
                  match rest with
                  | lt :: rest =>
                      if ascii_eqb lt "<" then
                        match until_gt rest with
                        | Some (n, rest) =>
                            if negb (forallb is_digit n) then None
                            else match n with
                                 | [] => None
                                 | _ => group_ref (decimal_val n) rest
                                 end
                        | None => None
                        end
                      else None
                  | [] => None
                  end
                else if ascii_eqb e "0" then
                  match rest with
                  | d1 :: rest1 =>
                      if is_octdigit d1 then
                        match rest1 with
                        | d2 :: rest2 =>
                            if is_octdigit d2 then
                              continue
                                [TChar (ascii_of_nat
                                          ((8 * digit_val d1 + digit_val d2)
                                           mod 256))] rest2
                            else
                              continue [TChar (ascii_of_nat (digit_val d1))]
                                rest1
                        | [] =>
                            continue [TChar (ascii_of_nat (digit_val d1))]
                              rest1
                        end
                      else continue [TChar (ascii_of_nat 0)] rest
                  | [] => continue [TChar (ascii_of_nat 0)] rest
                  end
                else if is_digit e then
                  match rest with
                  | d1 :: rest1 =>
                      if is_digit d1 then
                        match rest1 with
                        | d2 :: rest2 =>
                            if is_octdigit e && is_octdigit d1
                               && is_octdigit d2 then
                              let v := 64 * digit_val e + 8 * digit_val d1
                                       + digit_val d2 in
                              if (v <=? 255)%nat then
                                continue [TChar (ascii_of_nat v)] rest2
                              else None
                            else
                              group_ref (10 * digit_val e + digit_val d1) rest1
                        | [] =>
                            group_ref (10 * digit_val e + digit_val d1) rest1
                        end
                      else group_ref (digit_val e) rest
                  | [] => group_ref (digit_val e) rest
                  end
                else
                  match escape_char e with
                  | Some x => continue [TChar x] rest
                  | None =>
                      if is_ascii_letter e then None
                      else continue [TChar bslash; TChar e] rest
                  end
            end
      end
  end.

(** Expansion of a parsed template for a match whose groups 0 and 1 are both
    the whole matched text (the parentheses of each pattern below enclose the
    whole pattern). *)
Definition expand_item (matched : str) (i : tpl_item) : str :=
  match i with
  | TChar c => [c]
  | TGroup _ => matched
  end.

Definition expand_template (items : list tpl_item) (matched : str) : str :=
  flat_map (expand_item matched) items.

(** [re.sub(pattern, repl, string, count=1)] for a pattern with one group
    that encloses the whole pattern. *)
Definition re_sub1 (pattern : regex) (repl s : str) : M str :=
  match parse_template (length repl) 1 repl with
  | None => raise TemplateError
  | Some items =>
      match re_search pattern s with
      | None => ret s
      | Some m =>
          ret (m_before m ++ expand_template items (m_text m) ++ m_after m)
      end
  end.

(** Python's [\s] on 8-bit characters, [[^;]] and [.] (no DOTALL flag). *)
Definition is_space (c : ascii) : bool :=
  let n := nat_of_ascii c in
  ((9 <=? n)%nat && (n <=? 13)%nat) || ((28 <=? n)%nat && (n <=? 32)%nat)
  || (n =? 133)%nat || (n =? 160)%nat.

Definition not_semicolon (c : ascii) : bool := negb (ascii_eqb c ";").

Definition not_newline (c : ascii) : bool := negb (ascii_eqb c nl).

(** ** The patcher, [add_autonomous_files.py] *)

Record file_info : Type := FileInfo {
  name : str;
  path : str
}.

(** Source lines 6-27. *)
Definition files_to_add : list file_info :=
  [ {| name := txt "AutonomousSystemManager.swift";
       path := txt "SignalAir/Core/Services/AutonomousSystemManager.swift" |};
    {| name := txt "AutomaticSecurityMonitor.swift";
       path := txt "SignalAir/Core/Security/AutomaticSecurityMonitor.swift" |};
    {| name := txt "AutomaticBanSystem.swift";
       path := txt "SignalAir/Core/Security/AutomaticBanSystem.swift" |};
    {| name := txt "AutomaticSystemMaintenance.swift";
       path := txt "SignalAir/Core/Services/AutomaticSystemMaintenance.swift" |};
    {| name := txt "SystemHealthMonitor.swift";
       path := txt "SignalAir/Core/Services/SystemHealthMonitor.swift" |} ].

(** [sep.join(parts)] *)
Fixpoint join (sep : str) (parts : list str) : str :=
  match parts with
  | [] => []
  | [p] => p
  | p :: ps => p ++ sep ++ join sep ps
  end.

(** Source line 49 and line 61. *)
Definition file_ref_section : str := txt "/* End PBXFileReference section */".
Definition build_file_section : str := txt "/* End PBXBuildFile section */".

(** Source line 53. *)
Definition patch_file_ref_line (file_ref name : str) : str :=
  tabs 2 ++ file_ref ++ txt " /* " ++ name ++
  txt " */ = {isa = PBXFileReference; lastKnownFileType = sourcecode.swift; path = " ++
  name ++ txt "; sourceTree = " ++ [dq] ++ txt "<group>" ++ [dq] ++ txt "; };".

(** Source line 65. *)
Definition patch_build_file_line (build_file file_ref name : str) : str :=
  tabs 2 ++ build_file ++ txt " /* " ++ name ++
  txt " in Sources */ = {isa = PBXBuildFile; fileRef = " ++ file_ref ++
  txt " /* " ++ name ++ txt " */; };".

(** Source line 76. *)
Definition patch_sources_line (build_file name : str) : str :=
  tabs 4 ++ build_file ++ txt " /* " ++ name ++ txt " in Sources */,".

(** Source lines 84 and 91. *)
Definition patch_group_line (file_ref name : str) : str :=
  tabs 4 ++ file_ref ++ txt " /* " ++ name ++ txt " */,".

(** The repeated group [(?: [^;]+ ; \s* )*] (patterns are written here with
    the layout of [re.VERBOSE]). *)
Definition entries_re : regex :=
  RStar (RSeq (RPlus (RSet not_semicolon))
              (RSeq (RLit (txt ";")) (RStar (RSet is_space)))).

(** Source line 73: [( files\ =\ \( \s* (?: [^;]+ ; \s* )* )] *)
Definition sources_pattern : regex :=
  RSeq (RLit (txt "files = ("))
       (RSeq (RStar (RSet is_space)) entries_re).

(** Source lines 81 and 88:
    [( Core/<group> .*? children\ =\ \( \s* (?: [^;]+ ; \s* )* )] *)
Definition group_pattern (group : str) : regex :=
  RSeq (RLit (txt "Core/" ++ group))
       (RSeq (RLazyStar (RSet not_newline))
             (RSeq (RLit (txt "children = ("))
                   (RSeq (RStar (RSet is_space)) entries_re))).

Definition services_group_pattern : regex := group_pattern (txt "Services").
Definition security_group_pattern : regex := group_pattern (txt "Security").

(** The replacement [r"\1" + line + "\n"]. *)
Definition repl_after_group1 (line : str) : str :=
  bslash :: "1"%char :: line ++ [nl].

Section Patcher.

Variable urandom : nat -> N.

(** Source lines 41-46: the two dictionaries from file name to identifier. *)
Definition mint_ids (files : list file_info)
    : M (gmap str str * gmap str str) :=
  for_each files
    (fun (acc : gmap str str * gmap str str) file_info =>
       file_ref <- generate_uuid urandom ;;
       build_file <- generate_uuid urandom ;;
       ret (<[name file_info := file_ref]> (fst acc),
            <[name file_info := build_file]> (snd acc)))
    (∅, ∅).

(** Source lines 48-58. *)
Definition insert_file_refs (files : list file_info)
    (file_refs : gmap str str) (content : str) : M str :=
  file_ref_insertions <-
    for_each files
      (fun file_ref_insertions file_info =>
         file_ref <- dict_get file_refs (name file_info) ;;
         let file_ref_line := patch_file_ref_line file_ref (name file_info) in
         ret (file_ref_insertions ++ [file_ref_line]))
      [] ;;
  let file_ref_insert_text := join [nl] file_ref_insertions ++ [nl] in
  ret (replace file_ref_section (file_ref_insert_text ++ file_ref_section)
         content).

(** Source lines 60-70. *)
Definition insert_build_files (files : list file_info)
    (file_refs build_files : gmap str str) (content : str) : M str :=
  build_file_insertions <-
    for_each files
      (fun build_file_insertions file_info =>
         build_file <- dict_get build_files (name file_info) ;;
         file_ref <- dict_get file_refs (name file_info) ;;
         let build_file_line :=
           patch_build_file_line build_file file_ref (name file_info) in
         ret (build_file_insertions ++ [build_file_line]))
      [] ;;
  let build_file_insert_text := join [nl] build_file_insertions ++ [nl] in
  ret (replace build_file_section
         (build_file_insert_text ++ build_file_section) content).

(** Source lines 75-77: the body of the loop over the sources build phase. *)
Definition insert_source (build_files : gmap str str)
    (content : str) (file_info : file_info) : M str :=
  build_file <- dict_get build_files (name file_info) ;;
  let sources_line := patch_sources_line build_file (name file_info) in
  re_sub1 sources_pattern (repl_after_group1 sources_line) content.

(** Source lines 82-85 and 89-92: the body of a loop over a group. *)
Definition insert_group_entry (keyword : str) (pattern : regex)
    (file_refs : gmap str str) (content : str) (file_info : file_info)
    : M str :=
  if contains keyword (path file_info) then
    file_ref <- dict_get file_refs (name file_info) ;;
    let group_line := patch_group_line file_ref (name file_info) in
    re_sub1 pattern (repl_after_group1 group_line) content
  else ret content.

(** Source lines 40-92, from the text read at line 38 to the text written at
    line 96, for the descriptor list [files]. *)
Definition patch_text (files : list file_info) (content : str) : M str :=
  ids <- mint_ids files ;;
  let file_refs := fst ids in
  let build_files := snd ids in
  content <- insert_file_refs files file_refs content ;;
  content <- insert_build_files files file_refs build_files content ;;
  content <- for_each files (insert_source build_files) content ;;
  content <- for_each files
               (insert_group_entry (txt "Services") services_group_pattern
                  file_refs) content ;;
  content <- for_each files
               (insert_group_entry (txt "Security") security_group_pattern
                  file_refs) content ;;
  ret content.

(** [add_files_to_xcode_project] as a function of the project file's text. *)
Definition add_files_to_xcode_project (content : str) : M str :=
  patch_text files_to_add content.

End Patcher.

(** ** Reading a project text back

    The properties of the synthesizer are stated on its output text, read
    line by line the way a test of the script would. *)

(** The lines of a text ([str.splitlines] for line feeds). *)
Fixpoint lines (s : str) : list str :=
  match s with
  | [] => []
  | c :: s' =>
      if ascii_eqb c nl then [] :: lines s'
      else match lines s' with
           | [] => [[c]]
           | l :: ls => (c :: l) :: ls
           end
  end.

(** The lines after the first line equal to [marker]. *)
Fixpoint after_line (marker : str) (ls : list str) : list str :=
  match ls with
  | [] => []
  | l :: ls' => if str_eqb l marker then ls' else after_line marker ls'
  end.

(** The lines before the first line equal to [marker]. *)
Fixpoint before_line (marker : str) (ls : list str) : list str :=
  match ls with
  | [] => []
  | l :: ls' => if str_eqb l marker then [] else l :: before_line marker ls'
  end.

Definition lines_between (opening closing : str) (ls : list str) : list str :=
  before_line closing (after_line opening ls).

(** The lines of the section [/* Begin <sect> section */ ... /* End <sect>
    section */] of a project text. *)
Definition section_lines (sect : string) (text : str) : list str :=
  lines_between (txt "/* Begin " ++ txt sect ++ txt " section */")
                (txt "/* End " ++ txt sect ++ txt " section */")
                (lines text).

(** The entries of a parenthesised list [<key> = ( ... );] among [ls]. *)
Definition list_entries (indent : nat) (key : string) (ls : list str)
    : list str :=
  lines_between (tabs indent ++ txt key ++ txt " = (") (L indent ");") ls.

Fixpoint drop_tabs (s : str) : str :=
  match s with
  | c :: s' => if ascii_eqb c tab then drop_tabs s' else s
  | [] => []
  end.

Fixpoint upto_space (s : str) : str :=
  match s with
  | c :: s' => if ascii_eqb c " " then [] else c :: upto_space s'
  | [] => []
  end.

(** The identifier an object or list entry line starts with. *)
Definition entry_id (line : str) : str := upto_space (drop_tabs line).

(** The [files] list of the sources build phase and the entries of the
    build-file section. *)
Definition sources_phase_files (text : str) : list str :=
  list_entries 3 "files" (section_lines "PBXSourcesBuildPhase" text).

Definition build_file_entries (text : str) : list str :=
  section_lines "PBXBuildFile" text.

(** The number of positions of [s] at which [sub] occurs. *)
Fixpoint count_occurrences (sub s : str) : nat :=
  (match strip_prefix sub s with Some _ => 1 | None => 0 end)
  + match s with
    | [] => 0
    | _ :: s' => count_occurrences sub s'
    end.

Definition is_upper_alnum (c : ascii) : bool :=
  let n := nat_of_ascii c in
  ((48 <=? n)%nat && (n <=? 57)%nat) || ((65 <=? n)%nat && (n <=? 90)%nat).

(** Text free of line feeds, and text free of backslashes. *)
Definition one_line (s : str) : Prop := nl ∉ s.
Definition plain (s : str) : bool :=
  forallb (fun c => negb (ascii_eqb c bslash)) s.

(** ** The matches of the patcher's patterns, described directly

    [take_while_b p s] is the longest prefix of [s] whose characters satisfy
    [p], [drop_while_b p s] what follows it. *)
Fixpoint take_while_b (p : ascii -> bool) (s : str) : str :=
  match s with
  | c :: s' => if p c then c :: take_while_b p s' else []
  | [] => []
  end.

Fixpoint drop_while_b (p : ascii -> bool) (s : str) : str :=
  match s with
  | c :: s' => if p c then drop_while_b p s' else s
  | [] => []
  end.

(** The entries after a list opening: as long as the text continues with a
    non-empty run of characters other than [';'] followed by [';'], that run,
    the [';'] and the white space after it belong to the entries.  The result
    is the entries and the text left after them. *)
Fixpoint scan_entries (fuel : nat) (s : str) : str * str :=
  match fuel with
  | 0 => ([], s)
  | S fuel' =>
      let chunk := take_while_b not_semicolon s in
      match chunk, drop_while_b not_semicolon s with
      | _ :: _, semi :: s' =>
          let ws := take_while_b is_space s' in
          let er := scan_entries fuel' (drop_while_b is_space s') in
          (chunk ++ semi :: ws ++ fst er, snd er)
      | _, _ => ([], s)
      end
  end.

(** A list opening at the start of a text: the literal [opening], the white
    space after it and the entries.  The result is the matched text and the
    text after it. *)
Definition list_opening_at (opening s : str) : option (str * str) :=
  match strip_prefix opening s with
  | None => None
  | Some s' =>
      let ws := take_while_b is_space s' in
      let er := scan_entries (length s') (drop_while_b is_space s') in
      Some (opening ++ ws ++ fst er, snd er)
  end.

(** The first [children = (] list opening on the current line: the text
    skipped before it, the matched opening with its entries, and the rest. *)
Fixpoint children_on_line (s : str) : option (str * str) :=
  match list_opening_at (txt "children = (") s with
  | Some mr => Some mr
  | None =>
      match s with
      | [] => None
      | c :: s' =>
          if not_newline c then
            match children_on_line s' with
            | Some (m, r) => Some (c :: m, r)
            | None => None
            end
          else None
      end
  end.

(** A group anchored on [Core/<group>] at the start of a text. *)
Definition group_at (group s : str) : option (str * str) :=
  match strip_prefix (txt "Core/" ++ group) s with
  | None => None
  | Some s' =>
      match children_on_line s' with
      | Some (m, r) => Some (txt "Core/" ++ group ++ m, r)
      | None => None
      end
  end.

(** The leftmost position of [s] at which [at_start] finds something: the
    text before it, what was found and the text after it. *)
Fixpoint first_match (at_start : str -> option (str * str)) (s : str)
    : option (str * str * str) :=
  match at_start s with
  | Some (m, r) => Some ([], m, r)
  | None =>
      match s with
      | [] => None
      | c :: s' =>
          match first_match at_start s' with
          | Some (b, m, r) => Some (c :: b, m, r)
          | None => None
          end
      end
  end.

(** [line] and a line feed inserted right after the first match. *)
Definition insert_after_first (at_start : str -> option (str * str))
    (line s : str) : str :=
  match first_match at_start s with
  | Some (b, m, r) => b ++ m ++ line ++ nl :: r
  | None => s
  end.

(** ** The output of the synthesizer, line by line

    [pbx_lines] lists the lines of a project text in the order in which
    [generate_project_pbxproj] emits them; [fixed_id k] is the [k]-th of the
    identifiers that do not belong to a source file, in the order in which
    they are minted. *)
Definition pbx_lines (project_name bundle_id : str) (fixed_id : nat -> str)
    (build_file_lines file_ref_lines source_lines : list str) : list str :=
  pbx_header
  ++ build_file_lines
  ++ build_file_section_end
  ++ [app_ref_line project_name (fixed_id 4); info_plist_line (fixed_id 5)]
  ++ file_ref_lines
  ++ file_ref_section_end
  ++ objects_block project_name (fixed_id 0) (fixed_id 1) (fixed_id 2)
       (fixed_id 3) (fixed_id 4) (fixed_id 6) (fixed_id 7) (fixed_id 8)
       (fixed_id 9) (fixed_id 10) (fixed_id 11) (fixed_id 12)
  ++ source_lines
  ++ sources_phase_end
  ++ project_configs (fixed_id 13) (fixed_id 14)
  ++ target_configs_block project_name bundle_id (fixed_id 0) (fixed_id 3)
       (fixed_id 13) (fixed_id 14) (fixed_id 15) (fixed_id 16) (fixed_id 17).

(** The identifiers minted by a loop that draws two identifiers per file
    from state [st] on: each file with the first and the second identifier
    drawn for it (the synthesizer draws the build-file identifier first, the
    patcher the file-reference identifier). *)
Fixpoint minted (urandom : nat -> N) (st : nat) (files : list str)
    : list (str * str * str) :=
  match files with
  | [] => []
  | f :: files' =>
      (f, uuid_at urandom st, uuid_at urandom (S st))
      :: minted urandom (S (S st)) files'
  end.

Definition m_file (m : str * str * str) : str := fst (fst m).
Definition m_first (m : str * str * str) : str := snd (fst m).
Definition m_second (m : str * str * str) : str := snd m.

(** The dictionary after the assignments [d[m_file m] = value m] in order. *)
Definition dict_of (value : str * str * str -> str)
    (ms : list (str * str * str)) (d : gmap str str) : gmap str str :=
  fold_left (fun d m => <[m_file m := value m]> d) ms d.

Definition dict_value (d : gmap str str) (k : str) : str := default [] (d !! k).

(** The draw that yields the [k]-th fixed identifier of a run that starts in
    state [st] and finds [n] source files. *)
Definition fixed_draw (st n k : nat) : nat :=
  if (k <? 4)%nat then st + k else st + 2 * n + k.

Definition synth_lines (urandom : nat -> N) (project_name bundle_id : str)
    (swift_files : list str) (st : nat) : list str :=
  let ms := minted urandom (st + 4) swift_files in
  let build_file_refs := dict_of m_first ms ∅ in
  let file_refs := dict_of m_second ms ∅ in
  pbx_lines project_name bundle_id
    (fun k => uuid_at urandom (fixed_draw st (length swift_files) k))
    (map (fun m => build_file_line (m_first m) (m_second m) (m_file m))
         ms)
    (map (fun f => file_ref_line (dict_value file_refs f) f) swift_files)
    (map (fun f => sources_line (dict_value build_file_refs f) f) swift_files).

(** ** A sample run of the synthesizer

    The source tree of the scenario: [A.swift] at the root and [B.swift] in
    the sub-directory [sub]. *)
Definition demo_tree : dir_tree :=
  Dir [txt "A.swift"] [(txt "sub", Dir [txt "B.swift"] [])].

(** A random source whose draws yield pairwise different identifiers. *)
Definition sample_urandom (k : nat) : N := (N.of_nat (S k) * 2 ^ 100)%N.

Definition demo_output : str :=
  match generate_project_pbxproj sample_urandom (txt "Demo")
          (txt "com.demo.app") demo_tree 0 with
  | Ok (content, _) => content
  | Raise _ => []
  end.

(** ** A sample run of the patcher: the identifiers minted for
    [files_to_add] by the sample random source from state [0]. *)
Definition sample_ids : gmap str str * gmap str str :=
  match mint_ids sample_urandom files_to_add 0 with
  | Ok (ids, _) => ids
  | Raise _ => (∅, ∅)
  end.

(** ** A sample run of the patcher on a small project text *)
Definition sample_project : str :=
  unlines
    [ L 0 "// !$*UTF8*$!";
      L 0 "{";
      L 1 "objects = {";
      [];
      L 0 "/* Begin PBXBuildFile section */";
      L 2 "AA0000000000000000000001 /* App.swift in Sources */ = {isa = PBXBuildFile; fileRef = AA0000000000000000000002 /* App.swift */; };";
      L 0 "/* End PBXBuildFile section */";
      [];
      L 0 "/* Begin PBXFileReference section */";
      tabs 2 ++ txt "AA0000000000000000000002 /* App.swift */ = {isa = PBXFileReference; lastKnownFileType = sourcecode.swift; path = App.swift; sourceTree = " ++
      [dq] ++ txt "<group>" ++ [dq] ++ txt "; };";
      L 0 "/* End PBXFileReference section */";
      [];
      L 0 "/* Begin PBXGroup section */";
      L 2 "AA0000000000000000000003 /* Core/Services */ = {isa = PBXGroup; children = (";
      L 3 "); path = Services; };";
      L 2 "AA0000000000000000000004 /* Core/Security */ = {isa = PBXGroup; children = (";
      L 3 "); path = Security; };";
      L 0 "/* End PBXGroup section */";
      [];
      L 0 "/* Begin PBXSourcesBuildPhase section */";
      L 2 "AA0000000000000000000005 /* Sources */ = {";
      L 3 "isa = PBXSourcesBuildPhase;";
      L 3 "files = (";
      L 4 "AA0000000000000000000001 /* App.swift in Sources */,";
      L 3 ");";
      L 2 "};";
      L 0 "/* End PBXSourcesBuildPhase section */";
      L 1 "};";
      L 1 "rootObject = AA0000000000000000000006 /* Project object */;";
      L 0 "}" ].

Definition run_patch (content : str) (st : nat) : str :=
  match add_files_to_xcode_project sample_urandom content st with
  | Ok (content', _) => content'
  | Raise _ => []
  end.

Definition patched_once : str := run_patch sample_project 0.
Definition patched_twice : str := run_patch patched_once 10.

(** The number of registrations of the file [name] in a project text: its
    file-reference lines, build-file lines, sources-phase entries and group
    entries, whatever identifier they carry. *)
Definition registrations (name text : str) : list nat :=
  [ count_occurrences
      (txt " /* " ++ name ++
       txt " */ = {isa = PBXFileReference; lastKnownFileType = sourcecode.swift; path = " ++
       name ++ txt "; sourceTree = " ++ [dq] ++ txt "<group>" ++ [dq] ++
       txt "; };") text;
    count_occurrences
      (txt " /* " ++ name ++
       txt " in Sources */ = {isa = PBXBuildFile; fileRef = ") text;
    count_occurrences (txt " /* " ++ name ++ txt " in Sources */,") text;
    count_occurrences (txt " /* " ++ name ++ txt " */,") text ].

(** The identifier of draw [k] of the sample random source, the name of the
    [i]-th descriptor of [files_to_add], and the last line of the objects
    dictionary of [sample_project]. *)
Definition sample_id (k : nat) : str := uuid_at sample_urandom k.

Definition sample_name (i : nat) : str :=
  match files_to_add !! i with
  | Some fi => name fi
  | None => []
  end.

Definition root_object_line : str :=
  L 1 "rootObject = AA0000000000000000000006 /* Project object */;".

(** The children of the group whose one-line header carries [label], and
    the lines that follow the root-object line. *)
Definition group_children (ident label path_value : string) (text : str)
    : list str :=
  lines_between
    (tabs 2 ++ txt ident ++ txt " /* " ++ txt label ++
     txt " */ = {isa = PBXGroup; children = (")
    (tabs 3 ++ txt "); path = " ++ txt path_value ++ txt "; };")
    (lines text).

Definition trailing_lines (text : str) : list str :=
  map drop_tabs (after_line root_object_line (lines text)).

(** ** Predicates and continuations used in the statements *)

(** The digits of [format(n, "x")]. *)
Definition is_lower_hex (c : ascii) : bool :=
  let n := nat_of_ascii c in
  ((48 <=? n)%nat && (n <=? 57)%nat) || ((97 <=? n)%nat && (n <=? 102)%nat).

(** ** Identifiers as tokens *)

Definition token (s : str) : Prop :=
  length s = 24 /\ Forall (fun c => is_upper_alnum c = true) s.

(** Lines that start with a tab, and lines indented like a list entry. *)
Definition tabbed (l : str) : Prop := one_line l /\ exists r, l = tab :: r.
Definition entry_line (l : str) : Prop :=
  one_line l /\ exists r, l = tabs 4 ++ r.

(** The matcher of one character of a class, and the bodies of the
    repetitions of the patterns, as [rmatch] unfolds them. *)
Definition set_body (p : ascii -> bool) (s : str) (k : str -> option str)
    : option str :=
  match s with
  | c :: s' => if p c then k s' else None
  | [] => None
  end.

Definition entry_body (fuel : nat) : str -> (str -> option str) -> option str :=
  rmatch (RSeq (RPlus (RSet not_semicolon))
               (RSeq (RLit (txt ";")) (RStar (RSet is_space)))) fuel.

Definition children_k (fuel : nat) (s : str) : option str :=
  rmatch (RSeq (RLit (txt "children = ("))
               (RSeq (RStar (RSet is_space)) entries_re)) fuel s Some.

(** Descriptors whose names hold no backslash, the only character a
    replacement template treats specially. *)
Definition plain_names (files : list file_info) : Prop :=
  Forall (fun file_info => plain (name file_info) = true) files.

(** ** Further readings of identifiers *)

(** The digits of an upper-cased hexadecimal numeral. *)
Definition is_upper_hex (c : ascii) : bool :=
  let n := nat_of_ascii c in
  ((48 <=? n)%nat && (n <=? 57)%nat) || ((65 <=? n)%nat && (n <=? 70)%nat).

(** ** The patched text, described directly

    What [patch_text] returns, written with [str.replace] and the direct
    description of the matches; [refs] and [builds] give the file-reference
    and the build-file identifier minted for a file name. *)
Definition patched_text (refs builds : str -> str) (files : list file_info)
    (content : str) : str :=
  let content :=
    replace file_ref_section
      ((join [nl]
          (map (fun fi => patch_file_ref_line (refs (name fi)) (name fi))
               files) ++ [nl]) ++ file_ref_section) content in
  let content :=
    replace build_file_section
      ((join [nl]
          (map (fun fi => patch_build_file_line (builds (name fi))
                            (refs (name fi)) (name fi))
               files) ++ [nl]) ++ build_file_section) content in
  let content :=
    fold_left
      (fun text fi =>
         insert_after_first (list_opening_at (txt "files = ("))
           (patch_sources_line (builds (name fi)) (name fi)) text)
      files content in
  let content :=
    fold_left
      (fun text fi =>
         if contains (txt "Services") (path fi)
         then insert_after_first (group_at (txt "Services"))
                (patch_group_line (refs (name fi)) (name fi)) text
         else text)
      files content in
  fold_left
    (fun text fi =>
       if contains (txt "Security") (path fi)
       then insert_after_first (group_at (txt "Security"))
              (patch_group_line (refs (name fi)) (name fi)) text
       else text)
    files content.

(** The position of a name in [files_to_add]: the descriptor at position
    [i] gets the draws [2 * i] and [2 * i + 1] of a run. *)
Fixpoint index_of (nm : str) (names : list str) : nat :=
  match names with
  | [] => 0
  | n :: names' => if str_eqb n nm then 0 else S (index_of nm names')
  end.

Definition file_index (nm : str) : nat := index_of nm (map name files_to_add).

(** The texts of the sample run, evaluated. *)
Definition patched_once_text : str :=
  Eval vm_compute in
    patched_text (fun nm => uuid_at sample_urandom (0 + 2 * file_index nm))
                 (fun nm => uuid_at sample_urandom (S (0 + 2 * file_index nm)))
                 files_to_add sample_project.

Definition patched_twice_text : str :=
  Eval vm_compute in
    patched_text (fun nm => uuid_at sample_urandom (10 + 2 * file_index nm))
                 (fun nm => uuid_at sample_urandom (S (10 + 2 * file_index nm)))
                 files_to_add patched_once_text.

(** ** The rest of the synthesizer script: [generate_scheme], the fallback
    chain of [create_project], and the environment they act on *)

Definition quoted (s : str) : str := dq :: s ++ [dq].

(** The bytes of a text that is not ASCII, in UTF-8. *)
Definition utf8 (bytes : list nat) : str := map ascii_of_nat bytes.

(** Source lines 28-58: the text written to [project.yml]. *)
Definition project_spec (project_name bundle_id : str) : list str :=
  [ [];
    txt "name: " ++ project_name;
    txt "options:";
    txt "  bundleIdPrefix: com.signalair";
    txt "  deploymentTarget:";
    txt "    iOS: " ++ quoted (txt "15.0");
    txt "targets:";
    txt "  " ++ project_name ++ txt ":";
    txt "    type: application";
    txt "    platform: iOS";
    txt "    sources:";
    txt "      - path: " ++ project_name;
    txt "        excludes:";
    txt "          - " ++ quoted (txt "*.md");
    txt "    settings:";
    txt "      base:";
    txt "        PRODUCT_BUNDLE_IDENTIFIER: " ++ bundle_id;
    txt "        SWIFT_VERSION: 5.9";
    txt "        TARGETED_DEVICE_FAMILY: " ++ quoted (txt "1,2");
    txt "        IPHONEOS_DEPLOYMENT_TARGET: 15.0";
    txt "        ENABLE_BITCODE: false";
    txt "        SWIFT_EMIT_LOC_STRINGS: true";
    txt "        GENERATE_INFOPLIST_FILE: false";
    txt "        INFOPLIST_FILE: " ++ project_name ++ txt "/Info.plist";
    txt "        ASSETCATALOG_COMPILER_APPICON_NAME: AppIcon";
    txt "        ASSETCATALOG_COMPILER_GLOBAL_ACCENT_COLOR_NAME: AccentColor";
    txt "      debug:";
    txt "        SWIFT_ACTIVE_COMPILATION_CONDITIONS: DEBUG";
    txt "      release:";
    txt "        SWIFT_COMPILATION_MODE: wholemodule" ].

(** Source lines 477-555.  The three identifiers are the results of the
    [generate_uuid()] calls written inline at lines 493, 523 and 540. *)
Definition scheme_lines
    (project_name blueprint_build blueprint_launch blueprint_profile : str)
    : list str :=
  [ txt "<?xml version=" ++ quoted (txt "1.0") ++ txt " encoding=" ++
    quoted (txt "UTF-8") ++ txt "?>";
    txt "<Scheme";
    txt "   LastUpgradeVersion = " ++ quoted (txt "1500");
    txt "   version = " ++ quoted (txt "1.3") ++ txt ">";
    txt "   <BuildAction";
    txt "      parallelizeBuildables = " ++ quoted (txt "YES");
    txt "      buildImplicitDependencies = " ++ quoted (txt "YES") ++ txt ">";
    txt "      <BuildActionEntries>";
    txt "         <BuildActionEntry";
    txt "            buildForTesting = " ++ quoted (txt "YES");
    txt "            buildForRunning = " ++ quoted (txt "YES");
    txt "            buildForProfiling = " ++ quoted (txt "YES");
    txt "            buildForArchiving = " ++ quoted (txt "YES");
    txt "            buildForAnalyzing = " ++ quoted (txt "YES") ++ txt ">";
    txt "            <BuildableReference";
    txt "               BuildableIdentifier = " ++ quoted (txt "primary");
    txt "               BlueprintIdentifier = " ++ [dq] ++ blueprint_build ++
    [dq];
    txt "               BuildableName = " ++ [dq] ++ project_name ++
    txt ".app" ++ [dq];
    txt "               BlueprintName = " ++ [dq] ++ project_name ++ [dq];
    txt "               ReferencedContainer = " ++ [dq] ++ txt "container:" ++
    project_name ++ txt ".xcodeproj" ++ [dq] ++ txt ">";
    txt "            </BuildableReference>";
    txt "         </BuildActionEntry>";
    txt "      </BuildActionEntries>";
    txt "   </BuildAction>";
    txt "   <TestAction";
    txt "      buildConfiguration = " ++ quoted (txt "Debug");
    txt "      selectedDebuggerIdentifier = " ++
    quoted (txt "Xcode.DebuggerFoundation.Debugger.LLDB");
    txt "      selectedLauncherIdentifier = " ++
    quoted (txt "Xcode.DebuggerFoundation.Launcher.LLDB");
    txt "      shouldUseLaunchSchemeArgsEnv = " ++ quoted (txt "YES") ++
    txt ">";
    txt "      <Testables>";
    txt "      </Testables>";
    txt "   </TestAction>";
    txt "   <LaunchAction";
    txt "      buildConfiguration = " ++ quoted (txt "Debug");
    txt "      selectedDebuggerIdentifier = " ++
    quoted (txt "Xcode.DebuggerFoundation.Debugger.LLDB");
    txt "      selectedLauncherIdentifier = " ++
    quoted (txt "Xcode.DebuggerFoundation.Launcher.LLDB");
    txt "      launchStyle = " ++ quoted (txt "0");
    txt "      useCustomWorkingDirectory = " ++ quoted (txt "NO");
    txt "      ignoresPersistentStateOnLaunch = " ++ quoted (txt "NO");
    txt "      debugDocumentVersioning = " ++ quoted (txt "YES");
    txt "      debugServiceExtension = " ++ quoted (txt "internal");
    txt "      allowLocationSimulation = " ++ quoted (txt "YES") ++ txt ">";
    txt "      <BuildableProductRunnable";
    txt "         runnableDebuggingMode = " ++ quoted (txt "0") ++ txt ">";
    txt "         <BuildableReference";
    txt "            BuildableIdentifier = " ++ quoted (txt "primary");
    txt "            BlueprintIdentifier = " ++ [dq] ++ blueprint_launch ++
    [dq];
    txt "            BuildableName = " ++ [dq] ++ project_name ++ txt ".app" ++
    [dq];
    txt "            BlueprintName = " ++ [dq] ++ project_name ++ [dq];
    txt "            ReferencedContainer = " ++ [dq] ++ txt "container:" ++
    project_name ++ txt ".xcodeproj" ++ [dq] ++ txt ">";
    txt "         </BuildableReference>";
    txt "      </BuildableProductRunnable>";
    txt "   </LaunchAction>";
    txt "   <ProfileAction";
    txt "      buildConfiguration = " ++ quoted (txt "Release");
    txt "      shouldUseLaunchSchemeArgsEnv = " ++ quoted (txt "YES");
    txt "      savedToolIdentifier = " ++ quoted [];
    txt "      useCustomWorkingDirectory = " ++ quoted (txt "NO");
    txt "      debugDocumentVersioning = " ++ quoted (txt "YES") ++ txt ">";
    txt "      <BuildableProductRunnable";
    txt "         runnableDebuggingMode = " ++ quoted (txt "0") ++ txt ">";
    txt "         <BuildableReference";
    txt "            BuildableIdentifier = " ++ quoted (txt "primary");
    txt "            BlueprintIdentifier = " ++ [dq] ++ blueprint_profile ++
    [dq];
    txt "            BuildableName = " ++ [dq] ++ project_name ++ txt ".app" ++
    [dq];
    txt "            BlueprintName = " ++ [dq] ++ project_name ++ [dq];
    txt "            ReferencedContainer = " ++ [dq] ++ txt "container:" ++
    project_name ++ txt ".xcodeproj" ++ [dq] ++ txt ">";
    txt "         </BuildableReference>";
    txt "      </BuildableProductRunnable>";
    txt "   </ProfileAction>";
    txt "   <AnalyzeAction";
    txt "      buildConfiguration = " ++ quoted (txt "Debug") ++ txt ">";
    txt "   </AnalyzeAction>";
    txt "   <ArchiveAction";
    txt "      buildConfiguration = " ++ quoted (txt "Release");
    txt "      revealArchiveInOrganizer = " ++ quoted (txt "YES") ++ txt ">";
    txt "   </ArchiveAction>";
    txt "</Scheme>" ].

(** [XcodeprojGenerator.generate_scheme] *)
Definition generate_scheme (urandom : nat -> N) (project_name : str) : M str :=
  blueprint_build <- generate_uuid urandom ;;
  blueprint_launch <- generate_uuid urandom ;;
  blueprint_profile <- generate_uuid urandom ;;
  ret (unlines (scheme_lines project_name blueprint_build blueprint_launch
                  blueprint_profile)).

(** The attributes [key] of a scheme text, in order: the lines that, after
    their indentation, start with [key = ]. *)
Fixpoint drop_spaces (s : str) : str :=
  match s with
  | c :: s' => if ascii_eqb c " " then drop_spaces s' else s
  | [] => []
  end.

Definition has_prefix (prefix s : str) : bool :=
  match strip_prefix prefix s with
  | Some _ => true
  | None => false
  end.

Definition attribute_lines (key : string) (text : str) : list str :=
  List.filter (has_prefix (txt key ++ txt " = "))
              (map drop_spaces (lines text)).

(** *** The environment

    What the scripts do to the outside world is recorded as a history of
    events; how the outside world answers is an [environment]: whether a
    file operation or a [print] succeeds or raises, the text a read returns,
    the exit code of a child process (or that it cannot be started), and the
    directory tree [os.walk] finds.  Every answer may depend on the history
    so far. *)
Inductive io_event : Type :=
| Ev_write (path content : str)     (* [open(path, 'w')] and [f.write] *)
| Ev_read (path : str)              (* [open(path, 'r')] and [f.read] *)
| Ev_run (argv : list str)          (* [subprocess.run] *)
| Ev_remove (path : str)            (* [os.remove] *)
| Ev_makedirs (path : str)          (* [os.makedirs(path, exist_ok=True)] *)
| Ev_print (text : str)
| Ev_walk (top : str).              (* [os.walk] *)

Record environment : Type := {
  write_ok : list io_event -> str -> str -> bool;
  read_result : list io_event -> str -> option str;
  run_result : list io_event -> list str -> option Z;
  remove_ok : list io_event -> str -> bool;
  makedirs_ok : list io_event -> str -> bool;
  print_ok : list io_event -> str -> bool;
  walk_result : list io_event -> str -> dir_tree
}.

(** The state of a run: the events so far, oldest first, and the number of
    draws made from the random source. *)
Record world : Type := {
  history : list io_event;
  draws : nat
}.

Inductive failure : Type :=
| Env_error (ev : io_event)     (* the operation [ev] raised *)
| Xcodegen_failed               (* [Exception("xcodegen failed")] *)
| Script_error (e : exn).

Inductive outcome (A : Type) : Type :=
| Returned (a : A)
| Raised (f : failure).
Arguments Returned {A} a.
Arguments Raised {A} f.

(** A raised exception does not undo what was done before it. *)
Definition IO (A : Type) : Type := world -> outcome A * world.

Definition io_ret {A} (a : A) : IO A := fun w => (Returned a, w).

Definition io_bind {A B} (m : IO A) (k : A -> IO B) : IO B :=
  fun w =>
    match m w with
    | (Returned a, w') => k a w'
    | (Raised f, w') => (Raised f, w')
    end.

Definition io_raise {A} (f : failure) : IO A := fun w => (Raised f, w).

(** [try: body / except: handler] *)
Definition try_except {A} (body handler : IO A) : IO A :=
  fun w =>
    match body w with
    | (Returned a, w') => (Returned a, w')
    | (Raised _, w') => handler w'
    end.

Notation "x <~ m ;; k" := (io_bind m (fun x => k))
  (at level 100, m at next level, right associativity).

Definition record (ev : io_event) (w : world) : world :=
  {| history := history w ++ [ev]; draws := draws w |}.

Definition attempt (ev : io_event) (ok : bool) : IO unit :=
  fun w => (if ok then Returned tt else Raised (Env_error ev), record ev w).

(** The computations of the monad [M] draw identifiers and touch nothing
    else.  An exception of such a computation carries no counter, so the
    draws made before it are not recorded; the computations run below
    ([generate_project_pbxproj], [generate_scheme],
    [add_files_to_xcode_project]) are shown never to raise. *)
Definition draw {A} (m : M A) : IO A :=
  fun w =>
    match m (draws w) with
    | Ok (a, st) => (Returned a, {| history := history w; draws := st |})
    | Raise e => (Raised (Script_error e), w)
    end.

Fixpoint io_for_each {A} (xs : list A) (body : A -> IO unit) : IO unit :=
  match xs with
  | [] => io_ret tt
  | x :: xs' => _ <~ body x ;; io_for_each xs' body
  end.

Section Scripts.

Variable env : environment.
Variable urandom : nat -> N.

Definition write_file (path content : str) : IO unit :=
  fun w =>
    attempt (Ev_write path content) (write_ok env (history w) path content) w.

Definition read_file (path : str) : IO str :=
  fun w =>
    match read_result env (history w) path with
    | Some content => (Returned content, record (Ev_read path) w)
    | None => (Raised (Env_error (Ev_read path)), record (Ev_read path) w)
    end.

Definition subprocess_run (argv : list str) : IO Z :=
  fun w =>
    match run_result env (history w) argv with
    | Some returncode => (Returned returncode, record (Ev_run argv) w)
    | None => (Raised (Env_error (Ev_run argv)), record (Ev_run argv) w)
    end.

Definition os_remove (path : str) : IO unit :=
  fun w => attempt (Ev_remove path) (remove_ok env (history w) path) w.

Definition os_makedirs (path : str) : IO unit :=
  fun w => attempt (Ev_makedirs path) (makedirs_ok env (history w) path) w.

Definition print (text : str) : IO unit :=
  fun w => attempt (Ev_print text) (print_ok env (history w) text) w.

Definition os_walk (top : str) : IO dir_tree :=
  fun w => (Returned (walk_result env (history w) top), record (Ev_walk top) w).

Definition xcodegen_done : str :=
  utf8 [226; 156; 133] ++ txt " Xcode project generated with xcodegen".
Definition creating_manually : str :=
  utf8 [240; 159; 147; 177] ++ txt " Creating Xcode project manually...".
Definition creating_basic : str :=
  utf8 [240; 159; 147; 177] ++
  txt " Creating basic Xcode project structure...".
Definition created_successfully : str :=
  utf8 [226; 156; 133] ++ txt " Xcode project created successfully!".

(** Source lines 27-71. *)
Definition create_with_xcodegen (project_name bundle_id : str) : IO unit :=
  _ <~ write_file (txt "project.yml")
         (unlines (project_spec project_name bundle_id)) ;;
  returncode <~ subprocess_run [txt "xcodegen"; txt "generate"] ;;
  if (returncode =? 0)%Z then
    _ <~ print xcodegen_done ;;
    os_remove (txt "project.yml")
  else io_raise Xcodegen_failed.

(** Source lines 113-474 with the walk of lines 116-120.  A call assigns
    every key of the two dictionaries before it reads it, so what an
    earlier call left in them does not matter and every call is taken from
    empty dictionaries. *)
Definition generate_project_pbxproj_in (project_name bundle_id : str)
    : IO str :=
  tree <~ os_walk project_name ;;
  draw (generate_project_pbxproj urandom project_name bundle_id tree).

(** Source lines 90-111. *)
Definition create_basic_project (project_name bundle_id : str) : IO unit :=
  _ <~ print creating_basic ;;
  project_content <~ generate_project_pbxproj_in project_name bundle_id ;;
  let xcodeproj_dir := project_name ++ txt ".xcodeproj" in
  _ <~ os_makedirs xcodeproj_dir ;;
  _ <~ write_file (xcodeproj_dir ++ txt "/project.pbxproj") project_content ;;
  _ <~ os_makedirs (xcodeproj_dir ++ txt "/xcshareddata/xcschemes") ;;
  _ <~ os_makedirs (xcodeproj_dir ++ txt "/xcuserdata") ;;
  scheme_content <~ draw (generate_scheme urandom project_name) ;;
  write_file
    (xcodeproj_dir ++ txt "/xcshareddata/xcschemes/" ++ project_name ++
     txt ".xcscheme")
    scheme_content.

Definition swift_package_init (project_name : str) : list str :=
  [ txt "xcrun"; txt "swift"; txt "package"; txt "init"; txt "--type";
    txt "executable"; txt "--name"; project_name ].

(** Source lines 73-88. *)
Definition create_manual_project (project_name bundle_id : str) : IO unit :=
  _ <~ print creating_manually ;;
  try_except
    (returncode <~ subprocess_run (swift_package_init project_name) ;;
     if negb (returncode =? 0)%Z
     then create_basic_project project_name bundle_id
     else io_ret tt)
    (create_basic_project project_name bundle_id).

(** Source lines 18-25. *)
Definition create_project (project_name bundle_id : str) : IO unit :=
  try_except (create_with_xcodegen project_name bundle_id)
             (create_manual_project project_name bundle_id).

(** Source lines 557-560. *)
Definition create_xcodeproj_main : IO unit :=
  _ <~ create_project (txt "SignalAir") (txt "com.signalair.app") ;;
  print created_successfully.

(** [add_autonomous_files.py], lines 33-38 and 94-101 around the
    transformation of the text: the patcher as a whole. *)
Definition project_file : str :=
  txt "SignalAir-iOS/SignalAir Rescue.xcodeproj/project.pbxproj".

Definition files_added : str :=
  utf8 [226; 156; 133] ++ txt " " ++
  utf8 [229; 183; 178; 229; 176; 135; 232; 135; 170; 229; 139; 149; 229; 140;
        150; 231; 179; 187; 231; 181; 177; 230; 170; 148; 230; 161; 136; 230;
        183; 187; 229; 138; 160; 229; 136; 176] ++
  txt "Xcode" ++ utf8 [229; 176; 136; 230; 161; 136].

Definition added_files_heading : str :=
  utf8 [230; 183; 187; 229; 138; 160; 231; 154; 132; 230; 170; 148; 230; 161;
        136] ++ txt ":".

Definition add_autonomous_files_main : IO unit :=
  content <~ read_file project_file ;;
  content <~ draw (add_files_to_xcode_project urandom content) ;;
  _ <~ write_file project_file content ;;
  _ <~ print files_added ;;
  _ <~ print added_files_heading ;;
  io_for_each files_to_add
    (fun file_info => print (txt "  - " ++ name file_info)).

End Scripts.

(** The events a run adds to the history it starts from. *)
Definition new_events (before after : world) : list io_event :=
  drop (length (history before)) (history after).

(** Two ways to bound what a computation does: every event it adds to the
    history satisfies [Q]; and whenever it raises, the exception is the
    failure of the operation recorded last, which satisfies [Q]. *)
Definition adds_only {A} (Q : io_event -> Prop) (m : IO A) : Prop :=
  forall w, exists evs,
    history (snd (m w)) = history w ++ evs /\ Forall Q evs.

Definition raises_only {A} (Q : io_event -> Prop) (m : IO A) : Prop :=
  forall w f w',
    m w = (Raised f, w') ->
    exists ev, f = Env_error ev /\ last (history w') = Some ev /\ Q ev.

Definition is_remove (ev : io_event) : bool :=
  match ev with
  | Ev_remove _ => true
  | _ => false
  end.

(** The operations of [create_basic_project] that can raise. *)
Definition basic_project_step (ev : io_event) : Prop :=
  match ev with
  | Ev_print _ | Ev_makedirs _ | Ev_write _ _ => True
  | _ => False
  end.


Definition swift_only_env : environment :=
  {| write_ok := fun _ _ _ => true;
     read_result := fun _ _ => Some sample_project;
     run_result := fun _ argv => Some (Z.of_nat (length argv) - 8)%Z;
     remove_ok := fun _ _ => true;
     makedirs_ok := fun _ _ => true;
     print_ok := fun _ _ => true;
     walk_result := fun _ _ => demo_tree |}.

Definition fresh_world : world := {| history := []; draws := 0 |}.

(** An environment in which nothing works, and one without the two tools
    in which [os.makedirs] fails. *)
Definition failing_env : environment :=
  {| write_ok := fun _ _ _ => false;
     read_result := fun _ _ => None;
     run_result := fun _ _ => None;
     remove_ok := fun _ _ => false;
     makedirs_ok := fun _ _ => false;
     print_ok := fun _ _ => false;
     walk_result := fun _ _ => Dir [] [] |}.

Definition no_tools_env (code : option Z) (dirs_ok : bool) : environment :=
  {| write_ok := fun _ _ _ => true;
     read_result := fun _ _ => Some sample_project;
     run_result := fun _ _ => code;
     remove_ok := fun _ _ => true;
     makedirs_ok := fun _ _ => dirs_ok;
     print_ok := fun _ _ => true;
     walk_result := fun _ _ => demo_tree |}.

Definition is_print (ev : io_event) : bool :=
  match ev with
  | Ev_print _ => true
  | _ => false
  end.

(** The identifiers under which the build-file and the file-reference
    section of a project text declare their objects. *)
Definition declared_file_ids (text : str) : list str :=
  map entry_id (build_file_entries text ++ section_lines "PBXFileReference" text).

(* ===================================================================== *)
(** * Part II: properties *)
(* ===================================================================== *)

(** ** Text *)

Lemma ascii_eqb_eq (a b : ascii) : ascii_eqb a b = true <-> a = b.
Proof. apply Ascii.eqb_eq. Qed.

Lemma ascii_eqb_neq (a b : ascii) : ascii_eqb a b = false <-> a <> b.
Proof. apply Ascii.eqb_neq. Qed.

Lemma ascii_eqb_refl (a : ascii) : ascii_eqb a a = true.
Proof. apply Ascii.eqb_refl. Qed.

Lemma str_eqb_eq (a b : str) : str_eqb a b = true <-> a = b.
Proof.
  revert b. induction a as [|x a IH]; intros [|y b]; simpl; try easy.
  rewrite andb_true_iff, ascii_eqb_eq, IH. split.
  - intros [-> ->]. reflexivity.
  - intros [= -> ->]. easy.
Qed.

Lemma str_eqb_refl (a : str) : str_eqb a a = true.
Proof. apply str_eqb_eq. reflexivity. Qed.

Lemma strip_prefix_Some (p s r : str) :
  strip_prefix p s = Some r <-> s = p ++ r.
Proof.
  revert s. induction p as [|x p IH]; intros s; simpl.
  - split; [intros [= ->] | intros ->]; reflexivity.
  - destruct s as [|y s]; [easy|].
    destruct (ascii_eqb x y) eqn:E.
    + apply ascii_eqb_eq in E as ->. rewrite IH. split.
      * intros ->. reflexivity.
      * intros [= ->]. reflexivity.
    + apply ascii_eqb_neq in E. split; [easy|]. intros [= <- _]. easy.
Qed.

Lemma strip_prefix_app (p r : str) : strip_prefix p (p ++ r) = Some r.
Proof. apply strip_prefix_Some. reflexivity. Qed.

Lemma unlines_app (a b : list str) : unlines (a ++ b) = unlines a ++ unlines b.
Proof.
  induction a as [|l a IH]; simpl; [reflexivity|].
  rewrite IH, <- app_assoc. reflexivity.
Qed.

(** ** The identifier generator *)

Lemma replace_from_fuel (old new : str) :
  old <> [] ->
  forall f1 f2 s, length s <= f1 -> length s <= f2 ->
    replace_from f1 old new s = replace_from f2 old new s.
Proof.
  intros Hold f1. induction f1 as [|f1 IH]; intros f2 s H1 H2.
  - destruct s; [|simpl in H1; lia]. destruct f2; [reflexivity|].
    simpl. destruct old; [easy | reflexivity].
  - destruct f2 as [|f2].
    + destruct s; [|simpl in H2; lia]. simpl. destruct old; [easy | reflexivity].
    + cbn [replace_from].
      destruct (strip_prefix old s) as [rest|] eqn:E.
      * apply strip_prefix_Some in E.
        assert (length rest < length s) as Hr.
        { apply (f_equal length) in E. rewrite length_app in E.
          destruct old; [easy|]. simpl in E. lia. }
        f_equal. apply IH; lia.
      * destruct s as [|c s]; [reflexivity|]. f_equal.
        simpl in H1, H2. apply IH; lia.
Qed.

Lemma replace_char_remove (c : ascii) (s : str) :
  replace [c] [] s = filter (fun x => x <> c) s.
Proof.
  unfold replace. induction s as [|x s IH]; [reflexivity|].
  cbn [length replace_from strip_prefix].
  destruct (ascii_eqb c x) eqn:E.
  - apply ascii_eqb_eq in E as <-. rewrite filter_cons_False by tauto.
    exact IH.
  - apply ascii_eqb_neq in E. rewrite filter_cons_True by congruence.
    f_equal. exact IH.
Qed.

Lemma hex_fixed_length (w : nat) (n : N) : length (hex_fixed w n) = w.
Proof.
  revert n. induction w as [|w IH]; intros n; simpl; [reflexivity|].
  rewrite length_app, IH. simpl. lia.
Qed.

Lemma hex_digit_lower (d : N) : (d < 16)%N -> is_lower_hex (hex_digit d) = true.
Proof.
  intros H. assert (exists k, d = N.of_nat k /\ k < 16) as (k & -> & Hk).
  { exists (N.to_nat d). split; lia. }
  do 16 (destruct k as [|k]; [reflexivity|]). lia.
Qed.

Lemma hex_fixed_lower (w : nat) (n : N) :
  Forall (fun c => is_lower_hex c = true) (hex_fixed w n).
Proof.
  revert n. induction w as [|w IH]; intros n; simpl; [constructor|].
  apply Forall_app. split; [apply IH|].
  repeat constructor. apply hex_digit_lower. apply N.mod_lt. lia.
Qed.

Lemma lower_hex_cases (c : ascii) :
  is_lower_hex c = true ->
  c <> "-"%char /\ is_upper_alnum (upper_char c) = true.
Proof.
  destruct c as [[] [] [] [] [] [] [] []]; vm_compute; try discriminate;
    intros _; split; try reflexivity; discriminate.
Qed.

Lemma uuid4_int_bound (r : N) : (uuid4_int r < 2 ^ 128)%N.
Proof.
  unfold uuid4_int.
  assert (forall a b, (a < 2 ^ 128 -> b < 2 ^ 128 -> N.lor a b < 2 ^ 128)%N)
    as Hlor.
  { intros a b Ha Hb.
    destruct (N.eq_dec (N.lor a b) 0%N) as [->|Hz]; [lia|].
    apply N.log2_lt_pow2; [lia|]. rewrite N.log2_lor.
    assert (forall x, (x < 2 ^ 128 -> N.log2 x < 128)%N) as Hlog.
    { intros x Hx. destruct (N.eq_dec x 0%N) as [->|Hx0]; [reflexivity|].
      apply N.log2_lt_pow2; lia. }
    apply N.max_lub_lt; apply Hlog; assumption. }
  assert (forall a b, (a < 2 ^ 128 -> N.ldiff a b < 2 ^ 128)%N) as Hldiff.
  { intros a b Ha. eapply N.le_lt_trans; [apply N.ldiff_le_l|exact Ha]. }
  apply Hlor; [|reflexivity].
  apply Hldiff, Hlor; [|reflexivity].
  apply Hldiff, N.mod_lt. lia.
Qed.

Lemma uuid_str_spec (i : N) :
  length (uuid_str i) = 36 /\
  filter (fun c => c <> "-"%char) (uuid_str i) = hex_fixed 32 i.
Proof.
  unfold uuid_str. set (hex := hex_fixed 32 i).
  assert (length hex = 32) as Hlen by apply hex_fixed_length.
  assert (Forall (fun c => c <> "-"%char) hex) as Hhex.
  { eapply Forall_impl; [apply hex_fixed_lower|].
    intros c Hc. apply lower_hex_cases, Hc. }
  split.
  - rewrite !length_app, !length_take, !length_drop, Hlen. reflexivity.
  - assert (forall l : str, Forall (fun c => c <> "-"%char) l ->
                       filter (fun c => c <> "-"%char) l = l) as Hid.
    { intros l Hl. induction Hl as [|x l Hx Hl IH]; [reflexivity|].
      rewrite filter_cons_True by exact Hx. f_equal. exact IH. }
    rewrite !filter_app.
    rewrite (Hid (take 8 hex)) by auto using Forall_take, Forall_drop.
    rewrite (Hid (take 4 (drop 8 hex))) by auto using Forall_take, Forall_drop.
    rewrite (Hid (take 4 (drop 12 hex))) by auto using Forall_take, Forall_drop.
    rewrite (Hid (take 4 (drop 16 hex))) by auto using Forall_take, Forall_drop.
    rewrite (Hid (drop 20 hex)) by auto using Forall_take, Forall_drop.
    change (filter (fun c => c <> "-"%char) (txt "-")) with (@nil ascii).
    rewrite !app_nil_l.
    transitivity (take 8 hex ++ drop 8 hex); [|apply take_drop].
    reflexivity.
Qed.

Lemma uuid_token_spec (r : N) :
  uuid_token r = take 24 (upper (hex_fixed 32 (uuid4_int r))) /\
  length (uuid_token r) = 24 /\
  Forall (fun c => is_upper_alnum c = true) (uuid_token r).
Proof.
  destruct (uuid_str_spec (uuid4_int r)) as [_ Hf].
  assert (uuid_token r = take 24 (upper (hex_fixed 32 (uuid4_int r)))) as E.
  { unfold uuid_token.
    change (txt "-") with ["-"%char]. change (txt "") with (@nil ascii).
    rewrite replace_char_remove, Hf. reflexivity. }
  split; [exact E|]. rewrite E. split.
  - rewrite length_take. unfold upper. rewrite length_map, hex_fixed_length.
    reflexivity.
  - apply Forall_take. unfold upper. apply Forall_map.
    eapply Forall_impl; [apply hex_fixed_lower|].
    intros c Hc. apply lower_hex_cases, Hc.
Qed.

#[global] Opaque uuid_token.

(** ** The monad *)

Lemma bind_Ok {A B} (m : M A) (k : A -> M B) (st st' : nat) (a : A) :
  m st = Ok (a, st') -> bind m k st = k a st'.
Proof. intros H. unfold bind. rewrite H. reflexivity. Qed.

Lemma generate_uuid_run (urandom : nat -> N) (st : nat) :
  generate_uuid urandom st = Ok (uuid_at urandom st, S st).
Proof. reflexivity. Qed.

Lemma dict_get_Some (d : gmap str str) (k v : str) (st : nat) :
  d !! k = Some v -> dict_get d k st = Ok (v, st).
Proof. intros H. unfold dict_get. rewrite H. reflexivity. Qed.

Ltac run_uuid :=
  erewrite bind_Ok by apply generate_uuid_run.

(** ** The synthesizer's loops *)

Section Synth.

Variable urandom : nat -> N.

Lemma for_each_add_build_file (files : list str) (acc : synth_acc) (st : nat) :
  for_each files (add_build_file urandom) acc st =
  Ok ({| acc_content :=
           acc_content acc
           ++ unlines (map (fun m => build_file_line (m_first m)
                                       (m_second m) (m_file m))
                           (minted urandom st files));
         acc_build_file_refs :=
           dict_of m_first (minted urandom st files)
             (acc_build_file_refs acc);
         acc_file_refs :=
           dict_of m_second (minted urandom st files) (acc_file_refs acc) |},
      st + 2 * length files).
Proof.
  revert acc st. induction files as [|f files IH]; intros acc st.
  - cbn [for_each minted map unlines dict_of fold_left length].
    unfold ret. rewrite app_nil_r, Nat.add_0_r.
    destruct acc; reflexivity.
  - cbn [for_each]. unfold add_build_file at 1.
    erewrite bind_Ok; cycle 1.
    { run_uuid. run_uuid. reflexivity. }
    rewrite IH. cbn [acc_content acc_build_file_refs acc_file_refs].
    cbn [minted map unlines dict_of fold_left m_file m_first m_second
         fst snd length].
    f_equal. f_equal; [|lia]. f_equal.
    rewrite <- !app_assoc. reflexivity.
Qed.

Lemma dict_of_lookup_In (value : str * str * str -> str)
    (ms : list (str * str * str)) (d : gmap str str) (f : str) :
  In f (map m_file ms) ->
  exists m, In m ms /\ m_file m = f /\ dict_of value ms d !! f = Some (value m).
Proof.
  revert d. induction ms as [|m ms IH] using rev_ind; intros d Hin.
  - destruct Hin.
  - unfold dict_of in *. rewrite fold_left_app. cbn [fold_left].
    destruct (decide (m_file m = f)) as [<-|Hne].
    + exists m. split; [apply in_or_app; right; left; reflexivity|].
      split; [reflexivity|]. apply lookup_insert_eq.
    + rewrite lookup_insert_ne by exact Hne.
      rewrite map_app in Hin. apply in_app_or in Hin as [Hin|[Hin|[]]];
        [|contradiction].
      destruct (IH d Hin) as (m' & Hm' & Hf & Hl).
      exists m'. split; [apply in_or_app; left; exact Hm'|]. easy.
Qed.

Lemma minted_files (st : nat) (files : list str) :
  map m_file (minted urandom st files) = files.
Proof.
  revert st. induction files as [|f files IH]; intros st;
    cbn [minted map]; [reflexivity|]. rewrite IH. reflexivity.
Qed.

Lemma minted_In (st : nat) (files : list str) (m : str * str * str) :
  In m (minted urandom st files) ->
  exists i, i < length files /\
    m_first m = uuid_at urandom (st + 2 * i) /\
    m_second m = uuid_at urandom (st + 2 * i + 1).
Proof.
  revert st. induction files as [|f files IH]; intros st;
    cbn [minted In length]; [intros []|].
  intros [<-|Hin].
  - exists 0. split; [lia|]. cbn [m_first m_second fst snd].
    rewrite Nat.add_0_r. replace (st + 1) with (S st) by lia.
    split; reflexivity.
  - destruct (IH _ Hin) as (i & Hi & Hb & Hr). exists (S i).
    split; [lia|]. rewrite Hb, Hr.
    replace (st + 2 * S i) with (S (S st) + 2 * i) by lia.
    split; reflexivity.
Qed.

Lemma for_each_add_file_ref (d : gmap str str) (files : list str)
    (content : str) (st : nat) :
  (forall f, In f files -> is_Some (d !! f)) ->
  for_each files (add_file_ref d) content st =
  Ok (content ++ unlines (map (fun f => file_ref_line (dict_value d f) f) files),
      st).
Proof.
  revert content. induction files as [|f files IH]; intros content Hd.
  - cbn [for_each map unlines]. unfold ret. rewrite app_nil_r. reflexivity.
  - cbn [for_each]. destruct (Hd f (or_introl eq_refl)) as [v Hv].
    erewrite bind_Ok; cycle 1.
    { unfold add_file_ref. erewrite bind_Ok by (apply dict_get_Some, Hv).
      reflexivity. }
    rewrite IH by (intros; apply Hd; right; assumption).
    assert (dict_value d f = v) as Hdv
      by (unfold dict_value; rewrite Hv; reflexivity).
    cbn [map unlines]. rewrite Hdv, <- !app_assoc. reflexivity.
Qed.

Lemma for_each_add_source (d : gmap str str) (files : list str)
    (content : str) (st : nat) :
  (forall f, In f files -> is_Some (d !! f)) ->
  for_each files (add_source d) content st =
  Ok (content ++ unlines (map (fun f => sources_line (dict_value d f) f) files),
      st).
Proof.
  revert content. induction files as [|f files IH]; intros content Hd.
  - cbn [for_each map unlines]. unfold ret. rewrite app_nil_r. reflexivity.
  - cbn [for_each]. destruct (Hd f (or_introl eq_refl)) as [v Hv].
    erewrite bind_Ok; cycle 1.
    { unfold add_source. erewrite bind_Ok by (apply dict_get_Some, Hv).
      reflexivity. }
    rewrite IH by (intros; apply Hd; right; assumption).
    assert (dict_value d f = v) as Hdv
      by (unfold dict_value; rewrite Hv; reflexivity).
    cbn [map unlines]. rewrite Hdv, <- !app_assoc. reflexivity.
Qed.

Lemma dict_of_minted_is_Some (value : str * str * str -> str) (st : nat)
    (files : list str) (f : str) :
  In f files -> is_Some (dict_of value (minted urandom st files) ∅ !! f).
Proof.
  intros Hin.
  destruct (dict_of_lookup_In value (minted urandom st files) ∅ f)
    as (m & _ & _ & ->); [|eexists; reflexivity].
  rewrite minted_files. exact Hin.
Qed.

(** The synthesizer never raises, and its output is [synth_lines]. *)
Lemma assemble_pbxproj_run (project_name bundle_id : str)
    (swift_files : list str) (st : nat) :
  assemble_pbxproj urandom project_name bundle_id swift_files st =
  Ok (unlines (synth_lines urandom project_name bundle_id swift_files st),
      st + 2 * length swift_files + 18).
Proof.
  unfold assemble_pbxproj.
  do 4 run_uuid.
  erewrite bind_Ok by apply for_each_add_build_file.
  cbn [acc_content acc_build_file_refs acc_file_refs].
  do 2 run_uuid.
  erewrite bind_Ok
    by (apply for_each_add_file_ref; intros; apply dict_of_minted_is_Some;
        assumption).
  do 7 run_uuid.
  erewrite bind_Ok
    by (apply for_each_add_source; intros; apply dict_of_minted_is_Some;
        assumption).
  do 5 run_uuid.
  unfold ret, synth_lines, pbx_lines, fixed_draw.
  rewrite !unlines_app. cbn [Nat.ltb Nat.leb].
  replace (S (S (S (S st)))) with (st + 4) by lia.
  rewrite <- !app_assoc.
  set (base := st + 4 + 2 * length swift_files).
  replace (st + 0) with st by lia.
  replace (st + 1) with (1 + st) by lia.
  replace (st + 2) with (2 + st) by lia.
  replace (st + 3) with (3 + st) by lia.
  replace (st + 2 * length swift_files + 4) with base by lia.
  replace (st + 2 * length swift_files + 5) with (1 + base) by lia.
  replace (st + 2 * length swift_files + 6) with (2 + base) by lia.
  replace (st + 2 * length swift_files + 7) with (3 + base) by lia.
  replace (st + 2 * length swift_files + 8) with (4 + base) by lia.
  replace (st + 2 * length swift_files + 9) with (5 + base) by lia.
  replace (st + 2 * length swift_files + 10) with (6 + base) by lia.
  replace (st + 2 * length swift_files + 11) with (7 + base) by lia.
  replace (st + 2 * length swift_files + 12) with (8 + base) by lia.
  replace (st + 2 * length swift_files + 13) with (9 + base) by lia.
  replace (st + 2 * length swift_files + 14) with (10 + base) by lia.
  replace (st + 2 * length swift_files + 15) with (11 + base) by lia.
  replace (st + 2 * length swift_files + 16) with (12 + base) by lia.
  replace (st + 2 * length swift_files + 17) with (13 + base) by lia.
  replace (st + 2 * length swift_files + 18) with (14 + base) by lia.
  cbn [Nat.add].
  rewrite (app_assoc (unlines [app_ref_line _ _])), <- (unlines_app [_] [_]).
  reflexivity.
Qed.

End Synth.

(** ** Reading lines back *)

Lemma lines_line (l rest : str) :
  one_line l -> lines (l ++ nl :: rest) = l :: lines rest.
Proof.
  unfold one_line. induction l as [|c l IH]; intros Hl.
  - cbn [app lines]. rewrite ascii_eqb_refl. reflexivity.
  - cbn [app lines]. destruct (ascii_eqb c nl) eqn:E.
    + apply ascii_eqb_eq in E as ->. exfalso. apply Hl. left.
    + rewrite IH; [reflexivity|]. intros H. apply Hl. right. exact H.
Qed.

Lemma lines_unlines_app (ls : list str) (rest : str) :
  Forall one_line ls -> lines (unlines ls ++ rest) = ls ++ lines rest.
Proof.
  induction 1 as [|l ls Hl _ IH]; [reflexivity|].
  cbn [unlines]. rewrite <- app_assoc. cbn [app].
  rewrite lines_line by exact Hl. rewrite IH. reflexivity.
Qed.

Lemma after_line_skip (marker : str) (pre rest : list str) :
  Forall (fun l => str_eqb l marker = false) pre ->
  after_line marker (pre ++ rest) = after_line marker rest.
Proof.
  induction 1 as [|l pre Hl _ IH]; [reflexivity|].
  cbn [app after_line]. rewrite Hl. exact IH.
Qed.

Lemma after_line_hit (marker : str) (rest : list str) :
  after_line marker (marker :: rest) = rest.
Proof. cbn [after_line]. rewrite str_eqb_refl. reflexivity. Qed.

Lemma before_line_body (marker : str) (body rest : list str) :
  Forall (fun l => str_eqb l marker = false) body ->
  before_line marker (body ++ marker :: rest) = body.
Proof.
  induction 1 as [|l body Hl _ IH].
  - cbn [app before_line]. rewrite str_eqb_refl. reflexivity.
  - cbn [app before_line]. rewrite Hl, IH. reflexivity.
Qed.

Lemma one_line_app (a b : str) : one_line a -> one_line b -> one_line (a ++ b).
Proof.
  unfold one_line. intros Ha Hb H. apply elem_of_app in H as [H|H]; tauto.
Qed.

Lemma one_line_forallb (s : str) :
  forallb (fun c => negb (ascii_eqb c nl)) s = true -> one_line s.
Proof.
  unfold one_line. induction s as [|c s IH]; cbn [forallb]; intros H Hin.
  - inversion Hin.
  - apply andb_true_iff in H as [Hc Hs]. apply elem_of_cons in Hin as [<-|Hin].
    + rewrite ascii_eqb_refl in Hc. discriminate.
    + exact (IH Hs Hin).
Qed.

Lemma uuid_at_token (urandom : nat -> N) (k : nat) : token (uuid_at urandom k).
Proof.
  unfold uuid_at. destruct (uuid_token_spec (urandom k)) as (_ & H1 & H2).
  split; assumption.
Qed.

Lemma upper_alnum_cases (c : ascii) :
  is_upper_alnum c = true ->
  ascii_eqb c tab = false /\ ascii_eqb c nl = false /\
  ascii_eqb c " " = false /\ ascii_eqb c bslash = false /\
  ascii_eqb c "/" = false /\ ascii_eqb c ";" = false /\
  is_space c = false /\ is_digit c || is_ascii_letter c = true.
Proof.
  destruct c as [[] [] [] [] [] [] [] []]; vm_compute; try discriminate;
    intros _; repeat split; reflexivity.
Qed.

Lemma token_one_line (s : str) : token s -> one_line s.
Proof.
  intros [_ H]. apply one_line_forallb. apply forallb_forall.
  intros c Hc. rewrite Forall_forall in H.
  apply list_elem_of_In in Hc.
  destruct (upper_alnum_cases c (H c Hc)) as (_ & -> & _). reflexivity.
Qed.

Lemma token_head (s : str) :
  token s -> exists c s', s = c :: s' /\ is_upper_alnum c = true.
Proof.
  intros [Hl H]. destruct s as [|c s']; [discriminate|].
  exists c, s'. split; [reflexivity|]. inversion H; assumption.
Qed.

Lemma drop_tabs_token (n : nat) (u r : str) :
  token u -> drop_tabs (tabs n ++ u ++ r) = u ++ r.
Proof.
  intros Hu. induction n as [|n IH].
  - destruct (token_head u Hu) as (c & u' & -> & Hc).
    cbn [tabs repeat app drop_tabs].
    destruct (upper_alnum_cases c Hc) as (-> & _). reflexivity.
  - cbn [tabs repeat app drop_tabs]. rewrite ascii_eqb_refl. exact IH.
Qed.

Lemma upto_space_token (u r : str) :
  token u -> upto_space (u ++ " "%char :: r) = u.
Proof.
  intros [_ H]. induction H as [|c u Hc _ IH].
  - reflexivity.
  - cbn [app upto_space].
    destruct (upper_alnum_cases c Hc) as (_ & _ & -> & _).
    rewrite IH. reflexivity.
Qed.

Lemma entry_id_token (n : nat) (u r : str) :
  token u -> entry_id (tabs n ++ u ++ " "%char :: r) = u.
Proof.
  intros Hu. unfold entry_id. rewrite drop_tabs_token by exact Hu.
  apply upto_space_token, Hu.
Qed.

Lemma after_line_found (marker : str) (pre rest : list str) :
  existsb (fun l => str_eqb l marker) pre = true ->
  after_line marker (pre ++ rest) = after_line marker pre ++ rest.
Proof.
  induction pre as [|l pre IH]; cbn [existsb app after_line]; [discriminate|].
  destruct (str_eqb l marker); [reflexivity|]. exact IH.
Qed.

Lemma before_line_found (marker : str) (pre rest : list str) :
  existsb (fun l => str_eqb l marker) pre = true ->
  before_line marker (pre ++ rest) = before_line marker pre.
Proof.
  induction pre as [|l pre IH]; cbn [existsb app before_line]; [discriminate|].
  destruct (str_eqb l marker); [reflexivity|].
  intros H. rewrite (IH H). reflexivity.
Qed.

Lemma before_line_skip (marker : str) (pre rest : list str) :
  Forall (fun l => str_eqb l marker = false) pre ->
  before_line marker (pre ++ rest) = pre ++ before_line marker rest.
Proof.
  induction 1 as [|l pre Hl _ IH]; [reflexivity|].
  cbn [app before_line]. rewrite Hl, IH. reflexivity.
Qed.

Ltac one_line_tac :=
  repeat (apply one_line_app);
  first [ assumption
        | apply token_one_line; solve [auto]
        | apply one_line_forallb; vm_compute; reflexivity ].

Ltac all_one_line :=
  repeat (constructor; [one_line_tac|]); try constructor.

Section PbxSections.

Variables (project_name bundle_id : str) (fixed_id : nat -> str).
Variables (build_file_lines file_ref_lines source_lines : list str).

Hypothesis Hname : one_line project_name.
Hypothesis Hid : forall k, token (fixed_id k).
Hypothesis Hbfl : Forall tabbed build_file_lines.
Hypothesis Hfrl : Forall tabbed file_ref_lines.
Hypothesis Hsrcl : Forall entry_line source_lines.

Let ob := objects_block project_name (fixed_id 0) (fixed_id 1) (fixed_id 2)
       (fixed_id 3) (fixed_id 4) (fixed_id 6) (fixed_id 7) (fixed_id 8)
       (fixed_id 9) (fixed_id 10) (fixed_id 11) (fixed_id 12).

Let tail_text : str :=
  unlines (project_configs (fixed_id 13) (fixed_id 14)
  ++ target_configs_block project_name bundle_id (fixed_id 0) (fixed_id 3)
       (fixed_id 13) (fixed_id 14) (fixed_id 15) (fixed_id 16) (fixed_id 17)).

Lemma objects_block_one_line : Forall one_line ob.
Proof.
  pose proof (Hid 0). pose proof (Hid 1). pose proof (Hid 2).
  pose proof (Hid 3). pose proof (Hid 4). pose proof (Hid 6).
  pose proof (Hid 7). pose proof (Hid 8). pose proof (Hid 9).
  pose proof (Hid 10). pose proof (Hid 11). pose proof (Hid 12).
  subst ob. unfold objects_block. all_one_line.
Qed.

Lemma tabbed_one_line (ls : list str) : Forall tabbed ls -> Forall one_line ls.
Proof.
  intros H. eapply Forall_impl; [exact H|]. intros l [Hl _]. exact Hl.
Qed.

Lemma entry_line_one_line (ls : list str) :
  Forall entry_line ls -> Forall one_line ls.
Proof.
  intros H. eapply Forall_impl; [exact H|]. intros l [Hl _]. exact Hl.
Qed.

Lemma pbx_text_lines :
  lines (unlines (pbx_lines project_name bundle_id fixed_id build_file_lines
                    file_ref_lines source_lines)) =
  pbx_header ++ build_file_lines ++ build_file_section_end
  ++ [app_ref_line project_name (fixed_id 4); info_plist_line (fixed_id 5)]
  ++ file_ref_lines ++ file_ref_section_end ++ ob ++ source_lines
  ++ sources_phase_end ++ lines tail_text.
Proof.
  pose proof (Hid 4). pose proof (Hid 5).
  unfold pbx_lines. do 9 rewrite unlines_app. fold ob. fold tail_text.
  rewrite lines_unlines_app by (unfold pbx_header; all_one_line).
  rewrite lines_unlines_app by (apply tabbed_one_line, Hbfl).
  rewrite lines_unlines_app by (unfold build_file_section_end; all_one_line).
  rewrite lines_unlines_app
    by (unfold app_ref_line, info_plist_line; all_one_line).
  rewrite lines_unlines_app by (apply tabbed_one_line, Hfrl).
  rewrite lines_unlines_app by (unfold file_ref_section_end; all_one_line).
  rewrite lines_unlines_app by apply objects_block_one_line.
  rewrite lines_unlines_app by (apply entry_line_one_line, Hsrcl).
  rewrite lines_unlines_app by (unfold sources_phase_end; all_one_line).
  reflexivity.
Qed.

Lemma tabbed_not_marker (marker : str) (ls : list str) :
  (exists c m, marker = c :: m /\ ascii_eqb tab c = false) ->
  Forall tabbed ls -> Forall (fun l => str_eqb l marker = false) ls.
Proof.
  intros (c & m & -> & Hc) H. eapply Forall_impl; [exact H|].
  intros l [_ [r ->]]. cbn [str_eqb]. rewrite Hc. reflexivity.
Qed.

Lemma entry_line_tabbed (ls : list str) :
  Forall entry_line ls -> Forall tabbed ls.
Proof.
  intros H. eapply Forall_impl; [exact H|].
  intros l [Hl [r ->]]. split; [exact Hl|]. eexists. reflexivity.
Qed.

Ltac slash_marker := eexists _, _; split; reflexivity.

Ltac skip_closed :=
  repeat (constructor; [vm_compute; reflexivity|]); constructor.

Lemma pbx_build_file_section :
  section_lines "PBXBuildFile"
    (unlines (pbx_lines project_name bundle_id fixed_id build_file_lines
                file_ref_lines source_lines)) = build_file_lines.
Proof.
  unfold section_lines, lines_between. rewrite pbx_text_lines.
  rewrite after_line_found by (vm_compute; reflexivity).
  match goal with
  | |- context [after_line ?m pbx_header] =>
      replace (after_line m pbx_header) with (@nil str)
        by (vm_compute; reflexivity)
  end.
  rewrite app_nil_l.
  rewrite before_line_skip by (apply tabbed_not_marker; [slash_marker|exact Hbfl]).
  rewrite before_line_found by (vm_compute; reflexivity).
  match goal with
  | |- context [before_line ?m build_file_section_end] =>
      replace (before_line m build_file_section_end) with (@nil str)
        by (vm_compute; reflexivity)
  end.
  apply app_nil_r.
Qed.

Lemma pbx_file_reference_section :
  section_lines "PBXFileReference"
    (unlines (pbx_lines project_name bundle_id fixed_id build_file_lines
                file_ref_lines source_lines)) =
  [app_ref_line project_name (fixed_id 4); info_plist_line (fixed_id 5)]
  ++ file_ref_lines.
Proof.
  unfold section_lines, lines_between. rewrite pbx_text_lines.
  rewrite after_line_skip by (unfold pbx_header; skip_closed).
  rewrite after_line_skip by (apply tabbed_not_marker; [slash_marker|exact Hbfl]).
  rewrite after_line_found by (vm_compute; reflexivity).
  match goal with
  | |- context [after_line ?m build_file_section_end] =>
      replace (after_line m build_file_section_end) with (@nil str)
        by (vm_compute; reflexivity)
  end.
  rewrite app_nil_l.
  rewrite (before_line_skip _ [_; _])
    by (unfold app_ref_line, info_plist_line; skip_closed).
  rewrite before_line_skip by (apply tabbed_not_marker; [slash_marker|exact Hfrl]).
  rewrite before_line_found by (vm_compute; reflexivity).
  match goal with
  | |- context [before_line ?m file_ref_section_end] =>
      replace (before_line m file_ref_section_end) with (@nil str)
        by (vm_compute; reflexivity)
  end.
  rewrite app_nil_r. reflexivity.
Qed.

Lemma id_line_not_indent3 (u r k : str) :
  token u -> str_eqb (tabs 2 ++ u ++ r) (tabs 3 ++ k) = false.
Proof.
  intros Hu. destruct (token_head u Hu) as (c & u' & -> & Hc).
  cbn [tabs repeat app str_eqb]. rewrite !ascii_eqb_refl.
  destruct (upper_alnum_cases c Hc) as (-> & _). reflexivity.
Qed.

Lemma entry_line_not_close (ls : list str) :
  Forall entry_line ls -> Forall (fun l => str_eqb l (L 3 ");") = false) ls.
Proof.
  intros H. eapply Forall_impl; [exact H|].
  intros l [_ [r ->]]. reflexivity.
Qed.

(** The lines of the sources build phase section. *)
Lemma pbx_sources_section :
  section_lines "PBXSourcesBuildPhase"
    (unlines (pbx_lines project_name bundle_id fixed_id build_file_lines
                file_ref_lines source_lines)) =
  [ tabs 2 ++ fixed_id 12 ++ txt " /* Sources */ = {";
    L 3 "isa = PBXSourcesBuildPhase;";
    L 3 "buildActionMask = 2147483647;";
    L 3 "files = (" ]
  ++ source_lines
  ++ [ L 3 ");"; L 3 "runOnlyForDeploymentPostprocessing = 0;"; L 2 "};" ].
Proof.
  unfold section_lines, lines_between. rewrite pbx_text_lines.
  rewrite after_line_skip by (unfold pbx_header; skip_closed).
  rewrite after_line_skip by (apply tabbed_not_marker; [slash_marker|exact Hbfl]).
  rewrite after_line_skip by (unfold build_file_section_end; skip_closed).
  rewrite (after_line_skip _ [_; _])
    by (unfold app_ref_line, info_plist_line; skip_closed).
  rewrite after_line_skip by (apply tabbed_not_marker; [slash_marker|exact Hfrl]).
  rewrite after_line_skip by (unfold file_ref_section_end; skip_closed).
  rewrite after_line_found by (vm_compute; reflexivity).
  match goal with
  | |- context [after_line ?m ob] =>
      replace (after_line m ob) with
        [ tabs 2 ++ fixed_id 12 ++ txt " /* Sources */ = {";
          L 3 "isa = PBXSourcesBuildPhase;";
          L 3 "buildActionMask = 2147483647;";
          L 3 "files = (" ]
        by (vm_compute; reflexivity)
  end.
  rewrite (before_line_skip _ [_; _; _; _]) by skip_closed.
  rewrite before_line_skip
    by (apply tabbed_not_marker;
        [slash_marker | apply entry_line_tabbed, Hsrcl]).
  rewrite before_line_found by (vm_compute; reflexivity).
  match goal with
  | |- context [before_line ?m sources_phase_end] =>
      replace (before_line m sources_phase_end) with
        [ L 3 ");"; L 3 "runOnlyForDeploymentPostprocessing = 0;"; L 2 "};" ]
        by (vm_compute; reflexivity)
  end.
  reflexivity.
Qed.

(** The [files] list of the sources build phase. *)
Lemma pbx_sources_phase_files :
  sources_phase_files
    (unlines (pbx_lines project_name bundle_id fixed_id build_file_lines
                file_ref_lines source_lines)) = source_lines.
Proof.
  unfold sources_phase_files, list_entries, lines_between.
  rewrite pbx_sources_section.
  change ([ tabs 2 ++ fixed_id 12 ++ txt " /* Sources */ = {";
            L 3 "isa = PBXSourcesBuildPhase;";
            L 3 "buildActionMask = 2147483647;";
            L 3 "files = (" ] ++ ?rest)
    with ([ tabs 2 ++ fixed_id 12 ++ txt " /* Sources */ = {";
            L 3 "isa = PBXSourcesBuildPhase;";
            L 3 "buildActionMask = 2147483647;" ]
          ++ L 3 "files = (" :: rest).
  rewrite after_line_skip.
  2:{ constructor; [apply id_line_not_indent3, Hid|]. skip_closed. }
  change (tabs 3 ++ txt "files" ++ txt " = (") with (L 3 "files = (").
  rewrite after_line_hit.
  change (source_lines ++ [L 3 ");"; ?a; ?b])
    with (source_lines ++ L 3 ");" :: [a; b]).
  apply before_line_body, entry_line_not_close, Hsrcl.
Qed.

End PbxSections.

(** ** The synthesizer's output, section by section *)

Section SynthOutput.

Variable urandom : nat -> N.
Variables (project_name bundle_id : str) (swift_files : list str) (st : nat).

Hypothesis Hname : one_line project_name.
Hypothesis Hfiles : Forall one_line swift_files.

Let ms := minted urandom (st + 4) swift_files.
Let build_file_refs := dict_of m_first ms ∅.
Let file_refs := dict_of m_second ms ∅.
Let out := unlines (synth_lines urandom project_name bundle_id swift_files st).

Lemma minted_file_In (m : str * str * str) :
  In m ms -> In (m_file m) swift_files.
Proof.
  intros H. rewrite <- (minted_files urandom (st + 4) swift_files).
  apply in_map, H.
Qed.

Lemma file_one_line (f : str) : In f swift_files -> one_line f.
Proof. intros H. rewrite Forall_forall in Hfiles. apply Hfiles, list_elem_of_In, H. Qed.

Lemma minted_tokens (m : str * str * str) :
  In m ms -> token (m_first m) /\ token (m_second m).
Proof.
  intros H. destruct (minted_In urandom _ _ _ H) as (i & _ & -> & ->).
  split; apply uuid_at_token.
Qed.

Lemma build_file_ref_lookup (f : str) :
  In f swift_files ->
  exists m, In m ms /\ m_file m = f /\
            dict_value build_file_refs f = m_first m.
Proof.
  intros H.
  destruct (dict_of_lookup_In m_first ms ∅ f) as (m & Hm & Hf & Hl).
  { subst ms. rewrite minted_files. exact H. }
  exists m. split; [exact Hm|]. split; [exact Hf|].
  unfold dict_value, build_file_refs. rewrite Hl. reflexivity.
Qed.

Lemma file_ref_lookup (f : str) :
  In f swift_files ->
  exists m, In m ms /\ m_file m = f /\ dict_value file_refs f = m_second m.
Proof.
  intros H.
  destruct (dict_of_lookup_In m_second ms ∅ f) as (m & Hm & Hf & Hl).
  { subst ms. rewrite minted_files. exact H. }
  exists m. split; [exact Hm|]. split; [exact Hf|].
  unfold dict_value, file_refs. rewrite Hl. reflexivity.
Qed.

Lemma build_file_lines_tabbed :
  Forall tabbed
    (map (fun m => build_file_line (m_first m) (m_second m) (m_file m))
         ms).
Proof.
  apply Forall_forall. intros l Hl. apply list_elem_of_In, in_map_iff in Hl.
  destruct Hl as (m & <- & Hm).
  destruct (minted_tokens m Hm) as [Hb Hr].
  pose proof (file_one_line _ (minted_file_In m Hm)) as Hf.
  split; [|eexists; reflexivity].
  unfold build_file_line. one_line_tac.
Qed.

Lemma file_ref_lines_tabbed :
  Forall tabbed
    (map (fun f => file_ref_line (dict_value file_refs f) f) swift_files).
Proof.
  apply Forall_forall. intros l Hl. apply list_elem_of_In, in_map_iff in Hl.
  destruct Hl as (f & <- & Hf).
  destruct (file_ref_lookup f Hf) as (m & Hm & _ & ->).
  destruct (minted_tokens m Hm) as [Hb Hr].
  pose proof (file_one_line _ Hf) as Hf1.
  split; [|eexists; reflexivity].
  unfold file_ref_line. one_line_tac.
Qed.

Lemma source_lines_entry :
  Forall entry_line
    (map (fun f => sources_line (dict_value build_file_refs f) f) swift_files).
Proof.
  apply Forall_forall. intros l Hl. apply list_elem_of_In, in_map_iff in Hl.
  destruct Hl as (f & <- & Hf).
  destruct (build_file_ref_lookup f Hf) as (m & Hm & _ & ->).
  destruct (minted_tokens m Hm) as [Hb Hr].
  pose proof (file_one_line _ Hf) as Hf1.
  split; [|eexists; reflexivity].
  unfold sources_line. one_line_tac.
Qed.

Lemma synth_build_file_entries :
  build_file_entries out =
  map (fun m => build_file_line (m_first m) (m_second m) (m_file m)) ms.
Proof.
  unfold build_file_entries, out, synth_lines.
  apply pbx_build_file_section.
  - exact Hname.
  - intros k. apply uuid_at_token.
  - apply build_file_lines_tabbed.
  - apply file_ref_lines_tabbed.
  - apply source_lines_entry.
Qed.

Lemma synth_file_reference_section :
  section_lines "PBXFileReference" out =
  [ app_ref_line project_name
      (uuid_at urandom (fixed_draw st (length swift_files) 4));
    info_plist_line (uuid_at urandom (fixed_draw st (length swift_files) 5)) ]
  ++ map (fun f => file_ref_line (dict_value file_refs f) f) swift_files.
Proof.
  unfold out, synth_lines.
  apply (pbx_file_reference_section project_name bundle_id
           (fun k => uuid_at urandom (fixed_draw st (length swift_files) k))).
  - exact Hname.
  - intros k. apply uuid_at_token.
  - apply build_file_lines_tabbed.
  - apply file_ref_lines_tabbed.
  - apply source_lines_entry.
Qed.

Lemma synth_sources_phase_files :
  sources_phase_files out =
  map (fun f => sources_line (dict_value build_file_refs f) f) swift_files.
Proof.
  unfold out, synth_lines.
  apply pbx_sources_phase_files.
  - exact Hname.
  - intros k. apply uuid_at_token.
  - apply build_file_lines_tabbed.
  - apply file_ref_lines_tabbed.
  - apply source_lines_entry.
Qed.

End SynthOutput.

(** ** Claims about the identifier generator and the synthesizer *)

(** C4. Every call of [generate_uuid] returns a string of exactly 24
    characters, each an uppercase letter or a digit; the string is obtained
    from the 36-character text of a version-4 UUID (a 128-bit value) by
    removing the ['-'] separators, upper-casing and keeping the first 24
    characters.  The call never fails and consumes one draw. *)
Theorem generate_uuid_token (urandom : nat -> N) (st : nat) :
  exists token,
    generate_uuid urandom st = Ok (token, S st)
    /\ length token = 24
    /\ Forall (fun c => is_upper_alnum c = true) token
    /\ (uuid4_int (urandom st) < 2 ^ 128)%N
    /\ length (uuid_str (uuid4_int (urandom st))) = 36
    /\ token =
       take 24 (upper (filter (fun c => c <> "-"%char)
                         (uuid_str (uuid4_int (urandom st))))).
Proof.
  exists (uuid_at urandom st). split; [reflexivity|].
  destruct (uuid_token_spec (urandom st)) as (E & Hlen & Hall).
  destruct (uuid_str_spec (uuid4_int (urandom st))) as (H36 & Hf).
  unfold uuid_at. repeat split; try assumption.
  - apply uuid4_int_bound.
  - rewrite Hf. exact E.
Qed.

Lemma NoDup_map_In_inj {A B} (f : A -> B) (l : list A) (a b : A) :
  NoDup (map f l) -> In a l -> In b l -> f a = f b -> a = b.
Proof.
  induction l as [|x l IH]; cbn [map In]; [easy|].
  intros Hnd Ha Hb E. apply NoDup_cons in Hnd as [Hx Hnd].
  destruct Ha as [<-|Ha], Hb as [<-|Hb].
  - reflexivity.
  - exfalso. apply Hx. rewrite E. apply list_elem_of_In, in_map, Hb.
  - exfalso. apply Hx. rewrite <- E. apply list_elem_of_In, in_map, Ha.
  - exact (IH Hnd Ha Hb E).
Qed.

Lemma dict_value_NoDup (urandom : nat -> N) (value : str * str * str -> str)
    (st : nat) (files : list str) (m : str * str * str) :
  NoDup files -> In m (minted urandom st files) ->
  dict_value (dict_of value (minted urandom st files) ∅) (m_file m) = value m.
Proof.
  intros Hnd Hm.
  destruct (dict_of_lookup_In value (minted urandom st files) ∅ (m_file m))
    as (m' & Hm' & Hf & Hl); [apply in_map, Hm|].
  assert (m' = m) as ->.
  { apply (NoDup_map_In_inj m_file (minted urandom st files)); try assumption.
    rewrite minted_files. exact Hnd. }
  unfold dict_value. rewrite Hl. reflexivity.
Qed.

Lemma sources_line_inj (b b' f f' : str) :
  length b = length b' -> sources_line b f = sources_line b' f' -> f = f'.
Proof.
  unfold sources_line. intros Hlen E.
  apply app_inv_head in E. apply app_inj_1 in E as [_ E]; [|exact Hlen].
  apply app_inv_head in E. apply app_inv_tail in E. exact E.
Qed.

(** C3. For every list of discovered source files (pairwise different
    relative paths, none containing a line feed), the [files] list of the
    emitted sources build phase holds one entry per file, in discovery
    order: as many entries as files, no entry twice, and the entry of each
    file names that file. *)
Theorem sources_phase_one_entry_per_file (urandom : nat -> N)
    (project_name bundle_id : str) (swift_files : list str) (st : nat) :
  NoDup swift_files ->
  one_line project_name ->
  Forall one_line swift_files ->
  exists out st',
    assemble_pbxproj urandom project_name bundle_id swift_files st
      = Ok (out, st')
    /\ length (sources_phase_files out) = length swift_files
    /\ NoDup (sources_phase_files out)
    /\ Forall2
         (fun entry f =>
            exists id, entry = tabs 4 ++ id ++ txt " /* " ++ f
                               ++ txt " in Sources */,")
         (sources_phase_files out) swift_files.
Proof.
  intros Hnd Hname Hfiles. eexists _, _.
  split; [apply assemble_pbxproj_run|].
  rewrite synth_sources_phase_files by assumption.
  split; [apply length_map|]. split.
  - set (d := dict_of m_first _ _).
    assert (forall f, In f swift_files -> length (dict_value d f) = 24) as Hlen.
    { intros f Hf.
      destruct (build_file_ref_lookup urandom swift_files st f Hf)
        as (m & Hm & _ & E).
      fold d in E. rewrite E.
      apply (minted_tokens urandom swift_files st m Hm). }
    clearbody d. clear Hfiles. induction Hnd as [|f fs Hf Hnd IH]; [constructor|].
    cbn [map]. apply NoDup_cons. split.
    + intros Hin. apply list_elem_of_In, in_map_iff in Hin.
      destruct Hin as (f' & E & Hf').
      apply sources_line_inj in E.
      * subst f'. apply Hf, list_elem_of_In, Hf'.
      * rewrite !Hlen; [reflexivity| left; reflexivity | right; exact Hf'].
    + apply IH. intros f' Hf'. apply Hlen. right. exact Hf'.
  - generalize (dict_of m_first (minted urandom (st + 4) swift_files) ∅).
    intros d. clear. induction swift_files as [|f fs IH]; cbn [map];
      constructor; [|exact IH].
    eexists. reflexivity.
Qed.

Lemma sources_phase_one_entry_per_file_witness :
  let files := [txt "A.swift"; txt "sub/B.swift"] in
  NoDup files /\ one_line (txt "Demo") /\ Forall one_line files /\
  exists out st',
    assemble_pbxproj sample_urandom (txt "Demo") (txt "com.demo.app") files 0
      = Ok (out, st')
    /\ length (sources_phase_files out) = length files
    /\ NoDup (sources_phase_files out)
    /\ Forall2
         (fun entry f =>
            exists id, entry = tabs 4 ++ id ++ txt " /* " ++ f
                               ++ txt " in Sources */,")
         (sources_phase_files out) files.
Proof.
  assert (NoDup [txt "A.swift"; txt "sub/B.swift"]) as Hnd.
  { compute_done. }
  assert (one_line (txt "Demo")) as Hname.
  { compute_done. }
  assert (Forall one_line [txt "A.swift"; txt "sub/B.swift"]) as Hfiles.
  { compute_done. }
  repeat split; try assumption.
  apply (sources_phase_one_entry_per_file sample_urandom (txt "Demo")
           (txt "com.demo.app") [txt "A.swift"; txt "sub/B.swift"] 0);
    assumption.
Defined.

Lemma entry_id_sources_line (b f : str) :
  token b -> entry_id (sources_line b f) = b.
Proof. intros Hb. unfold sources_line. apply (entry_id_token 4), Hb. Qed.

Lemma entry_id_build_file_line (b r f : str) :
  token b -> entry_id (build_file_line b r f) = b.
Proof. intros Hb. unfold build_file_line. apply (entry_id_token 2), Hb. Qed.

(** C2. For every list of discovered source files (none containing a line
    feed), the identifier of every entry of the [files] list of the emitted
    sources build phase was minted during the same run and is the identifier
    of an entry of the build-file section of the same output. *)
Theorem sources_phase_ids_closed (urandom : nat -> N)
    (project_name bundle_id : str) (swift_files : list str) (st : nat) :
  one_line project_name ->
  Forall one_line swift_files ->
  exists out st',
    assemble_pbxproj urandom project_name bundle_id swift_files st
      = Ok (out, st')
    /\ forall entry,
         In entry (sources_phase_files out) ->
         exists k build_file_entry,
           st <= k < st'
           /\ entry_id entry = uuid_at urandom k
           /\ In build_file_entry (build_file_entries out)
           /\ entry_id build_file_entry = entry_id entry.
Proof.
  intros Hname Hfiles. eexists _, _.
  split; [apply assemble_pbxproj_run|].
  rewrite synth_sources_phase_files, synth_build_file_entries by assumption.
  intros entry Hentry. apply in_map_iff in Hentry as (f & <- & Hf).
  destruct (build_file_ref_lookup urandom swift_files st f Hf)
    as (m & Hm & _ & ->).
  destruct (minted_tokens urandom swift_files st m Hm) as [Hb _].
  destruct (minted_In urandom _ _ _ Hm) as (i & Hi & Eb & _).
  exists (st + 4 + 2 * i).
  exists (build_file_line (m_first m) (m_second m) (m_file m)).
  rewrite entry_id_sources_line, entry_id_build_file_line by exact Hb.
  split; [lia|]. split; [exact Eb|]. split; [|reflexivity].
  apply in_map_iff. exists m. split; [reflexivity | exact Hm].
Qed.

Lemma sources_phase_ids_closed_witness :
  let files := [txt "A.swift"; txt "sub/B.swift"] in
  one_line (txt "Demo") /\ Forall one_line files /\
  exists out st',
    assemble_pbxproj sample_urandom (txt "Demo") (txt "com.demo.app") files 0
      = Ok (out, st')
    /\ forall entry,
         In entry (sources_phase_files out) ->
         exists k build_file_entry,
           0 <= k < st'
           /\ entry_id entry = uuid_at sample_urandom k
           /\ In build_file_entry (build_file_entries out)
           /\ entry_id build_file_entry = entry_id entry.
Proof.
  assert (one_line (txt "Demo")) as Hname.
  { compute_done. }
  assert (Forall one_line [txt "A.swift"; txt "sub/B.swift"]) as Hfiles.
  { compute_done. }
  repeat split; try assumption.
  apply (sources_phase_ids_closed sample_urandom (txt "Demo")
           (txt "com.demo.app") [txt "A.swift"; txt "sub/B.swift"] 0);
    assumption.
Defined.

Lemma demo_build_file_lines (bf_a fr_a bf_b fr_b : str) :
  [ build_file_line bf_a fr_a (txt "A.swift");
    build_file_line bf_b fr_b (txt "sub/B.swift") ] =
  [ tabs 2 ++ bf_a
    ++ txt " /* A.swift in Sources */ = {isa = PBXBuildFile; fileRef = "
    ++ fr_a ++ txt " /* A.swift */; };";
    tabs 2 ++ bf_b
    ++ txt " /* sub/B.swift in Sources */ = {isa = PBXBuildFile; fileRef = "
    ++ fr_b ++ txt " /* sub/B.swift */; };" ].
Proof. vm_compute. reflexivity. Qed.

Lemma demo_file_ref_lines (app_id plist_id fr_a fr_b : str) :
  [ app_ref_line (txt "Demo") app_id; info_plist_line plist_id;
    file_ref_line fr_a (txt "A.swift");
    file_ref_line fr_b (txt "sub/B.swift") ] =
  [ tabs 2 ++ app_id
    ++ txt " /* Demo.app */ = {isa = PBXFileReference; explicitFileType = wrapper.application; includeInIndex = 0; path = Demo.app; sourceTree = BUILT_PRODUCTS_DIR; };";
    tabs 2 ++ plist_id
    ++ txt " /* Info.plist */ = {isa = PBXFileReference; lastKnownFileType = text.plist.xml; path = Info.plist; sourceTree = "
    ++ [dq] ++ txt "<group>" ++ [dq] ++ txt "; };";
    tabs 2 ++ fr_a
    ++ txt " /* A.swift */ = {isa = PBXFileReference; lastKnownFileType = sourcecode.swift; path = "
    ++ [dq] ++ txt "A.swift" ++ [dq] ++ txt "; sourceTree = "
    ++ [dq] ++ txt "<group>" ++ [dq] ++ txt "; };";
    tabs 2 ++ fr_b
    ++ txt " /* sub/B.swift */ = {isa = PBXFileReference; lastKnownFileType = sourcecode.swift; path = "
    ++ [dq] ++ txt "sub/B.swift" ++ [dq] ++ txt "; sourceTree = "
    ++ [dq] ++ txt "<group>" ++ [dq] ++ txt "; };" ].
Proof. vm_compute. reflexivity. Qed.

Lemma demo_source_lines (bf_a bf_b : str) :
  [ sources_line bf_a (txt "A.swift"); sources_line bf_b (txt "sub/B.swift") ] =
  [ tabs 4 ++ bf_a ++ txt " /* A.swift in Sources */,";
    tabs 4 ++ bf_b ++ txt " /* sub/B.swift in Sources */," ].
Proof. vm_compute. reflexivity. Qed.

(** C9. Project name "Demo" and a source tree holding exactly [A.swift] and
    [sub/B.swift]: the build-file section of the output holds exactly two
    entries, for [A.swift] and for [sub/B.swift]; the file-reference lines of
    the two files carry the relative path as their [path] value; and the
    [files] list of the sources build phase holds exactly the identifiers of
    the two build-file entries. *)
Theorem demo_scenario (urandom : nat -> N) (bundle_id : str) (st : nat) :
  exists out st' bf_a fr_a bf_b fr_b app_id plist_id,
    generate_project_pbxproj urandom (txt "Demo") bundle_id demo_tree st
      = Ok (out, st')
    /\ build_file_entries out =
       [ tabs 2 ++ bf_a
         ++ txt " /* A.swift in Sources */ = {isa = PBXBuildFile; fileRef = "
         ++ fr_a ++ txt " /* A.swift */; };";
         tabs 2 ++ bf_b
         ++ txt " /* sub/B.swift in Sources */ = {isa = PBXBuildFile; fileRef = "
         ++ fr_b ++ txt " /* sub/B.swift */; };" ]
    /\ section_lines "PBXFileReference" out =
       [ tabs 2 ++ app_id
         ++ txt " /* Demo.app */ = {isa = PBXFileReference; explicitFileType = wrapper.application; includeInIndex = 0; path = Demo.app; sourceTree = BUILT_PRODUCTS_DIR; };";
         tabs 2 ++ plist_id
         ++ txt " /* Info.plist */ = {isa = PBXFileReference; lastKnownFileType = text.plist.xml; path = Info.plist; sourceTree = "
         ++ [dq] ++ txt "<group>" ++ [dq] ++ txt "; };";
         tabs 2 ++ fr_a
         ++ txt " /* A.swift */ = {isa = PBXFileReference; lastKnownFileType = sourcecode.swift; path = "
         ++ [dq] ++ txt "A.swift" ++ [dq] ++ txt "; sourceTree = "
         ++ [dq] ++ txt "<group>" ++ [dq] ++ txt "; };";
         tabs 2 ++ fr_b
         ++ txt " /* sub/B.swift */ = {isa = PBXFileReference; lastKnownFileType = sourcecode.swift; path = "
         ++ [dq] ++ txt "sub/B.swift" ++ [dq] ++ txt "; sourceTree = "
         ++ [dq] ++ txt "<group>" ++ [dq] ++ txt "; };" ]
    /\ sources_phase_files out =
       [ tabs 4 ++ bf_a ++ txt " /* A.swift in Sources */,";
         tabs 4 ++ bf_b ++ txt " /* sub/B.swift in Sources */," ]
    /\ map entry_id (build_file_entries out) = [bf_a; bf_b]
    /\ map entry_id (sources_phase_files out) = [bf_a; bf_b].
Proof.
  set (files := [txt "A.swift"; txt "sub/B.swift"]).
  assert (NoDup files) as Hnd.
  { compute_done. }
  assert (one_line (txt "Demo")) as Hname.
  { compute_done. }
  assert (Forall one_line files) as Hfiles.
  { compute_done. }
  exists (unlines (synth_lines urandom (txt "Demo") bundle_id files st)).
  exists (st + 2 * length files + 18).
  exists (uuid_at urandom (st + 4)), (uuid_at urandom (S (st + 4))).
  exists (uuid_at urandom (S (S (st + 4)))).
  exists (uuid_at urandom (S (S (S (st + 4))))).
  exists (uuid_at urandom (fixed_draw st (length files) 4)).
  exists (uuid_at urandom (fixed_draw st (length files) 5)).
  assert (forall value m,
             In m (minted urandom (st + 4) files) ->
             dict_value (dict_of value (minted urandom (st + 4) files) ∅)
               (m_file m) = value m) as Hd.
  { intros value m Hm. apply dict_value_NoDup; assumption. }
  pose proof (Hd m_first _ (or_introl eq_refl)) as Hba.
  pose proof (Hd m_first _ (or_intror (or_introl eq_refl))) as Hbb.
  pose proof (Hd m_second _ (or_introl eq_refl)) as Hra.
  pose proof (Hd m_second _ (or_intror (or_introl eq_refl))) as Hrb.
  cbn [m_file m_first m_second fst snd] in Hba, Hbb, Hra, Hrb.
  assert (build_file_entries
            (unlines (synth_lines urandom (txt "Demo") bundle_id files st)) =
          [ build_file_line (uuid_at urandom (st + 4))
              (uuid_at urandom (S (st + 4))) (txt "A.swift");
            build_file_line (uuid_at urandom (S (S (st + 4))))
              (uuid_at urandom (S (S (S (st + 4))))) (txt "sub/B.swift") ])
    as Ebf.
  { rewrite synth_build_file_entries by assumption. reflexivity. }
  assert (sources_phase_files
            (unlines (synth_lines urandom (txt "Demo") bundle_id files st)) =
          [ sources_line (uuid_at urandom (st + 4)) (txt "A.swift");
            sources_line (uuid_at urandom (S (S (st + 4))))
              (txt "sub/B.swift") ]) as Esrc.
  { rewrite synth_sources_phase_files by assumption.
    cbn [files map]. rewrite Hba, Hbb. reflexivity. }
  split; [|split; [|split; [|split; [|split]]]].
  - unfold generate_project_pbxproj.
    replace (walk_swift [] demo_tree) with files by (vm_compute; reflexivity).
    apply assemble_pbxproj_run.
  - rewrite Ebf. apply demo_build_file_lines.
  - rewrite synth_file_reference_section by assumption.
    cbn [files map app]. rewrite Hra, Hrb. apply demo_file_ref_lines.
  - rewrite Esrc. apply demo_source_lines.
  - rewrite Ebf. cbn [map].
    rewrite !entry_id_build_file_line by apply uuid_at_token. reflexivity.
  - rewrite Esrc. cbn [map].
    rewrite !entry_id_sources_line by apply uuid_at_token. reflexivity.
Qed.

(** ** The regular-expression engine on the patcher's patterns *)

Lemma take_drop_while_b (p : ascii -> bool) (s : str) :
  take_while_b p s ++ drop_while_b p s = s.
Proof.
  induction s as [|c s IH]; [reflexivity|]. cbn [take_while_b drop_while_b].
  destruct (p c); [|reflexivity]. cbn [app]. rewrite IH. reflexivity.
Qed.

Lemma drop_while_b_length (p : ascii -> bool) (s : str) :
  length (drop_while_b p s) <= length s.
Proof.
  induction s as [|c s IH]; [reflexivity|]. cbn [drop_while_b].
  destruct (p c); cbn [length]; lia.
Qed.

Lemma drop_while_b_head (p : ascii -> bool) (s : str) (c : ascii) (t : str) :
  drop_while_b p s = c :: t -> p c = false.
Proof.
  induction s as [|x s IH]; [discriminate|]. cbn [drop_while_b].
  destruct (p x) eqn:E; [exact IH|]. intros [= <- _]. exact E.
Qed.

(** A greedy repetition of a character class takes the longest run when
    the continuation accepts what follows it. *)
Lemma star_set_greedy (p : ascii -> bool) (k : str -> option str) (x : str) :
  forall s n, length s <= n ->
    k (drop_while_b p s) = Some x ->
    star_loop (set_body p) k n s = Some x.
Proof.
  induction s as [|c s IH]; intros n Hn Hk.
  - destruct n; cbn [star_loop set_body drop_while_b] in *; exact Hk.
  - destruct n as [|n]; [cbn [length] in Hn; lia|].
    cbn [star_loop set_body drop_while_b] in *.
    destruct (p c).
    + replace (length s <? length (c :: s))%nat with true
        by (symmetry; apply Nat.ltb_lt; cbn [length]; lia).
      rewrite (IH n) by (cbn [length] in Hn; first [lia | assumption]).
      reflexivity.
    + exact Hk.
Qed.

(** When the continuation rejects every text that starts inside the run,
    backtracking into the run finds nothing. *)
Lemma star_set_last (p : ascii -> bool) (k : str -> option str) :
  (forall c t, p c = true -> k (c :: t) = None) ->
  forall s n, length s <= n ->
    star_loop (set_body p) k n s = k (drop_while_b p s).
Proof.
  intros Hk. induction s as [|c s IH]; intros n Hn.
  - destruct n; reflexivity.
  - destruct n as [|n]; [cbn [length] in Hn; lia|].
    cbn [star_loop set_body drop_while_b].
    destruct (p c) eqn:E.
    + replace (length s <? length (c :: s))%nat with true
        by (symmetry; apply Nat.ltb_lt; cbn [length]; lia).
      rewrite (IH n) by (cbn [length] in Hn; lia).
      rewrite (Hk c s E). destruct (k (drop_while_b p s)); reflexivity.
    + reflexivity.
Qed.

Lemma scan_entries_split (n : nat) (s : str) :
  fst (scan_entries n s) ++ snd (scan_entries n s) = s.
Proof.
  revert s. induction n as [|n IH]; intros s; [reflexivity|].
  cbn [scan_entries].
  pose proof (take_drop_while_b not_semicolon s) as Hs.
  destruct (take_while_b not_semicolon s) as [|c chunk] eqn:Ec; [reflexivity|].
  destruct (drop_while_b not_semicolon s) as [|semi s'] eqn:Ed; [reflexivity|].
  cbn [fst snd]. rewrite <- Hs. rewrite <- !app_assoc. cbn [app].
  do 3 f_equal. rewrite <- app_assoc, IH. apply take_drop_while_b.
Qed.

Lemma scan_entries_rest_length (n : nat) (s : str) :
  length (snd (scan_entries n s)) <= length s.
Proof.
  rewrite <- (scan_entries_split n s) at 2. rewrite length_app. lia.
Qed.

(** Enough fuel: the scan does not depend on it. *)
Lemma scan_entries_fuel (n1 n2 : nat) (s : str) :
  length s <= n1 -> length s <= n2 -> scan_entries n1 s = scan_entries n2 s.
Proof.
  revert n2 s. induction n1 as [|n1 IH]; intros n2 s H1 H2.
  - destruct s; [|cbn [length] in H1; lia]. destruct n2; reflexivity.
  - destruct n2 as [|n2].
    { destruct s; [reflexivity | cbn [length] in H2; lia]. }
    cbn [scan_entries].
    pose proof (take_drop_while_b not_semicolon s) as Hs.
    destruct (take_while_b not_semicolon s) as [|c chunk]; [reflexivity|].
    destruct (drop_while_b not_semicolon s) as [|semi s']; [reflexivity|].
    assert (length (drop_while_b is_space s') < length s) as Hlt.
    { pose proof (drop_while_b_length is_space s').
      rewrite <- Hs, length_app. cbn [length]. lia. }
    rewrite (IH n2 (drop_while_b is_space s')) by lia. reflexivity.
Qed.

Lemma not_semicolon_false (c : ascii) : not_semicolon c = false -> c = ";"%char.
Proof.
  unfold not_semicolon. intros H. apply negb_false_iff, ascii_eqb_eq in H.
  exact H.
Qed.

Lemma entries_loop (fuel : nat) :
  forall n s, length s <= n -> length s <= fuel ->
    star_loop (entry_body fuel) Some n s = Some (snd (scan_entries n s)).
Proof.
  induction n as [|n IH]; intros s Hn Hf.
  - reflexivity.
  - cbn [star_loop scan_entries].
    destruct s as [|c s1].
    { reflexivity. }
    unfold entry_body at 1. unfold RPlus. cbn [rmatch].
    cbn [take_while_b drop_while_b].
    destruct (not_semicolon c) eqn:Ec; [|reflexivity].
    rewrite (star_set_last not_semicolon); cycle 1.
    { intros d t Hd. cbn [txt list_ascii_of_string strip_prefix].
      destruct (ascii_eqb ";" d) eqn:E; [|reflexivity].
      apply ascii_eqb_eq in E. subst d. discriminate Hd. }
    { cbn [length] in Hf. lia. }
    destruct (drop_while_b not_semicolon s1) as [|semi s3] eqn:Ed.
    { reflexivity. }
    pose proof (drop_while_b_head _ _ _ _ Ed) as Hsemi.
    apply not_semicolon_false in Hsemi. subst semi.
    cbn [txt list_ascii_of_string strip_prefix]. rewrite ascii_eqb_refl.
    assert (length s3 < length s1 + 1) as Hs3.
    { pose proof (drop_while_b_length not_semicolon s1) as Hl.
      rewrite Ed in Hl. cbn [length] in Hl. lia. }
    pose proof (drop_while_b_length is_space s3) as Hs4.
    erewrite (star_set_greedy is_space); [reflexivity | cbn [length] in Hf; lia |].
    replace (length (drop_while_b is_space s3) <? length (c :: s1))%nat
      with true by (symmetry; apply Nat.ltb_lt; cbn [length]; lia).
    rewrite IH by (cbn [length] in Hn, Hf; lia).
    reflexivity.
Qed.

Lemma rmatch_seq (r1 r2 : regex) (fuel : nat) (s : str)
    (k : str -> option str) :
  rmatch (RSeq r1 r2) fuel s k = rmatch r1 fuel s (fun s' => rmatch r2 fuel s' k).
Proof. reflexivity. Qed.

Lemma rmatch_lit (l : str) (fuel : nat) (s : str) (k : str -> option str) :
  rmatch (RLit l) fuel s k = match strip_prefix l s with
                             | Some rest => k rest
                             | None => None
                             end.
Proof. reflexivity. Qed.

Lemma rmatch_star (r : regex) (fuel : nat) (s : str) (k : str -> option str) :
  rmatch (RStar r) fuel s k = star_loop (rmatch r fuel) k fuel s.
Proof. reflexivity. Qed.

Lemma rmatch_lazy (r : regex) (fuel : nat) (s : str) (k : str -> option str) :
  rmatch (RLazyStar r) fuel s k = lazy_loop (rmatch r fuel) k fuel s.
Proof. reflexivity. Qed.

Lemma strip_prefix_length (p s r : str) :
  strip_prefix p s = Some r -> length r <= length s.
Proof.
  intros H. apply strip_prefix_Some in H. subst s. rewrite length_app. lia.
Qed.

(** A literal opening followed by [\s* (?: [^;]+ ; \s* )*] matches what
    [list_opening_at] describes. *)
Lemma list_opening_match (opening : str) (fuel : nat) (s : str) :
  length s <= fuel ->
  rmatch (RSeq (RLit opening) (RSeq (RStar (RSet is_space)) entries_re))
    fuel s Some
  = match list_opening_at opening s with
    | Some mr => Some (snd mr)
    | None => None
    end.
Proof.
  intros Hf. unfold list_opening_at. rewrite rmatch_seq, rmatch_lit.
  destruct (strip_prefix opening s) as [s1|] eqn:E; [|reflexivity].
  pose proof (strip_prefix_length _ _ _ E) as Hs1.
  pose proof (drop_while_b_length is_space s1) as Hs2.
  cbn [snd]. rewrite rmatch_seq, rmatch_star.
  apply (star_set_greedy is_space); [lia|].
  unfold entries_re. rewrite rmatch_star. fold (entry_body fuel).
  rewrite entries_loop by lia.
  rewrite (scan_entries_fuel fuel (length s1)) by lia. reflexivity.
Qed.

Lemma list_opening_at_split (opening s m r : str) :
  list_opening_at opening s = Some (m, r) -> s = m ++ r.
Proof.
  unfold list_opening_at.
  destruct (strip_prefix opening s) as [s1|] eqn:E; [|discriminate].
  intros [= <- <-]. apply strip_prefix_Some in E. subst s.
  rewrite <- !app_assoc. f_equal.
  rewrite scan_entries_split. symmetry. apply take_drop_while_b.
Qed.

Lemma lazy_children (fuel : nat) :
  forall n s, length s <= n -> length s <= fuel ->
    lazy_loop (set_body not_newline) (children_k fuel) n s
    = match children_on_line s with
      | Some mr => Some (snd mr)
      | None => None
      end.
Proof.
  induction n as [|n IH]; intros s Hn Hf.
  - destruct s; [|cbn [length] in Hn; lia]. reflexivity.
  - cbn [lazy_loop]. unfold children_k at 1.
    rewrite list_opening_match by exact Hf.
    destruct s as [|c s'].
    { reflexivity. }
    cbn [children_on_line].
    destruct (list_opening_at (txt "children = (") (c :: s')) as [mr|];
      [reflexivity|].
    cbn [set_body]. destruct (not_newline c); [|reflexivity].
    replace (length s' <? length (c :: s'))%nat with true
      by (symmetry; apply Nat.ltb_lt; cbn [length]; lia).
    rewrite IH by (cbn [length] in Hn, Hf; lia).
    destruct (children_on_line s') as [[m r]|]; reflexivity.
Qed.

Lemma children_on_line_split (s m r : str) :
  children_on_line s = Some (m, r) -> s = m ++ r.
Proof.
  revert m. induction s as [|c s IH]; intros m.
  - cbn [children_on_line].
    destruct (list_opening_at (txt "children = (") []) as [mr|] eqn:E;
      [|discriminate].
    intros [= ->]. apply list_opening_at_split in E. exact E.
  - cbn [children_on_line].
    destruct (list_opening_at (txt "children = (") (c :: s)) as [mr|] eqn:E.
    + intros [= ->]. apply list_opening_at_split in E. exact E.
    + destruct (not_newline c); [|discriminate].
      destruct (children_on_line s) as [[m' r']|]; [|discriminate].
      intros [= <- <-]. cbn [app]. f_equal. apply IH. reflexivity.
Qed.

(** The group patterns match what [group_at] describes. *)
Lemma group_match (group : str) (fuel : nat) (s : str) :
  length s <= fuel ->
  rmatch (group_pattern group) fuel s Some
  = match group_at group s with
    | Some mr => Some (snd mr)
    | None => None
    end.
Proof.
  intros Hf. unfold group_pattern, group_at. rewrite rmatch_seq, rmatch_lit.
  destruct (strip_prefix (txt "Core/" ++ group) s) as [s1|] eqn:E;
    [|reflexivity].
  pose proof (strip_prefix_length _ _ _ E) as Hs1.
  rewrite rmatch_seq, rmatch_lazy.
  change (lazy_loop (set_body not_newline) (children_k fuel) fuel s1
          = match match children_on_line s1 with
                  | Some (m, r) => Some (txt "Core/" ++ group ++ m, r)
                  | None => None
                  end with
            | Some mr => Some (snd mr)
            | None => None
            end).
  rewrite lazy_children by lia.
  destruct (children_on_line s1) as [[m r]|]; reflexivity.
Qed.

Lemma group_at_split (group s m r : str) :
  group_at group s = Some (m, r) -> s = m ++ r.
Proof.
  unfold group_at.
  destruct (strip_prefix (txt "Core/" ++ group) s) as [s1|] eqn:E;
    [|discriminate].
  destruct (children_on_line s1) as [[m' r']|] eqn:E1; [|discriminate].
  intros [= <- <-]. apply strip_prefix_Some in E. subst s.
  apply children_on_line_split in E1. subst s1.
  change ((txt "Core/" ++ group) ++ m' ++ r'
          = (txt "Core/" ++ group ++ m') ++ r').
  rewrite <- !app_assoc. reflexivity.
Qed.

(** [re.search] finds the leftmost position at which the pattern matches. *)
Lemma search_from_first_match (r : regex)
    (at_start : str -> option (str * str)) (fuel : nat) :
  (forall t, length t <= fuel ->
     rmatch r fuel t Some = match at_start t with
                            | Some mr => Some (snd mr)
                            | None => None
                            end) ->
  (forall t m x, at_start t = Some (m, x) -> t = m ++ x) ->
  forall s before, length s <= fuel ->
    search_from r fuel before s
    = match first_match at_start s with
      | Some (b, m, x) =>
          Some {| m_before := rev before ++ b; m_text := m; m_after := x |}
      | None => None
      end.
Proof.
  intros Hm Hsplit. induction s as [|c s IH]; intros before Hf.
  - cbn [search_from first_match]. rewrite Hm by exact Hf.
    destruct (at_start []) as [[m x]|] eqn:E; [|reflexivity].
    cbn [snd]. rewrite app_nil_r. f_equal. f_equal.
    apply Hsplit in E. destruct m; [|discriminate]. reflexivity.
  - cbn [search_from first_match]. rewrite Hm by exact Hf.
    destruct (at_start (c :: s)) as [[m x]|] eqn:E.
    + cbn [snd]. rewrite app_nil_r. f_equal. f_equal.
      apply Hsplit in E. rewrite E, length_app.
      replace (length m + length x - length x) with (length m) by lia.
      apply take_app_length.
    + rewrite IH by (cbn [length] in Hf; lia).
      destruct (first_match at_start s) as [[[b m] x]|]; [|reflexivity].
      cbn [rev]. rewrite <- app_assoc. reflexivity.
Qed.

Lemma first_match_split (at_start : str -> option (str * str)) :
  (forall t m x, at_start t = Some (m, x) -> t = m ++ x) ->
  forall s b m x, first_match at_start s = Some (b, m, x) -> s = b ++ m ++ x.
Proof.
  intros Hsplit. induction s as [|c s IH]; intros b m x.
  - cbn [first_match]. destruct (at_start []) as [[m' x']|] eqn:E;
      [|discriminate].
    intros [= <- <- <-]. apply Hsplit in E. exact E.
  - cbn [first_match]. destruct (at_start (c :: s)) as [[m' x']|] eqn:E.
    + intros [= <- <- <-]. apply Hsplit in E. exact E.
    + destruct (first_match at_start s) as [[[b' m'] x']|] eqn:E1;
        [|discriminate].
      intros [= <- <- <-]. cbn [app]. f_equal. apply IH. reflexivity.
Qed.

(** ** Replacement templates *)

Lemma parse_template_plain (groups : nat) :
  forall fuel t, plain t = true -> length t <= fuel ->
    parse_template fuel groups t = Some (map TChar t).
Proof.
  induction fuel as [|fuel IH]; intros t Hp Hl.
  - destruct t; [reflexivity | cbn [length] in Hl; lia].
  - destruct t as [|c t]; [reflexivity|].
    cbn [plain forallb] in Hp. apply andb_true_iff in Hp as [Hc Ht].
    cbn [parse_template]. rewrite Hc.
    rewrite (IH t Ht) by (cbn [length] in Hl; lia). reflexivity.
Qed.

Lemma plain_app (a b : str) : plain (a ++ b) = plain a && plain b.
Proof. apply forallb_app. Qed.

Lemma parse_template_group1 (fuel : nat) (r : str) :
  parse_template (S fuel) 1 (bslash :: "1"%char :: tab :: r)
  = match parse_template fuel 1 (tab :: r) with
    | Some items => Some (TGroup 1 :: items)
    | None => None
    end.
Proof. reflexivity. Qed.

Lemma parse_repl_after_group1 (line : str) :
  plain line = true -> (exists r, line = tab :: r) ->
  parse_template (length (repl_after_group1 line)) 1 (repl_after_group1 line)
  = Some (TGroup 1 :: map TChar (line ++ [nl])).
Proof.
  intros Hp [r ->]. unfold repl_after_group1.
  change (length (bslash :: "1"%char :: (tab :: r) ++ [nl]))
    with (S (S (length ((tab :: r) ++ [nl])))).
  change (bslash :: "1"%char :: (tab :: r) ++ [nl])
    with (bslash :: "1"%char :: tab :: (r ++ [nl])).
  rewrite parse_template_group1.
  change (tab :: r ++ [nl]) with ((tab :: r) ++ [nl]).
  rewrite (parse_template_plain 1 _ ((tab :: r) ++ [nl])).
  - reflexivity.
  - rewrite plain_app, Hp. reflexivity.
  - lia.
Qed.

Lemma expand_chars (matched l : str) :
  expand_template (map TChar l) matched = l.
Proof.
  unfold expand_template. induction l as [|c l IH]; [reflexivity|].
  cbn [map flat_map expand_item app]. rewrite IH. reflexivity.
Qed.

(** [re.sub] with the replacement [r"\1" + line + "\n"] inserts the line
    right after the first match. *)
Lemma re_sub1_insert (pattern : regex) (at_start : str -> option (str * str))
    (line s : str) (st : nat) :
  (forall fuel t, length t <= fuel ->
     rmatch pattern fuel t Some = match at_start t with
                                  | Some mr => Some (snd mr)
                                  | None => None
                                  end) ->
  (forall t m x, at_start t = Some (m, x) -> t = m ++ x) ->
  plain line = true -> (exists r, line = tab :: r) ->
  re_sub1 pattern (repl_after_group1 line) s st
  = Ok (insert_after_first at_start line s, st).
Proof.
  intros Hm Hsplit Hp Htab. unfold re_sub1.
  rewrite parse_repl_after_group1 by assumption.
  unfold re_search, insert_after_first.
  rewrite (search_from_first_match pattern at_start (length s) (Hm _) Hsplit)
    by reflexivity.
  destruct (first_match at_start s) as [[[b m] x]|]; [|reflexivity].
  unfold ret. cbn [m_before m_text m_after rev app].
  unfold expand_template. cbn [flat_map expand_item].
  fold (expand_template (map TChar (line ++ [nl])) m).
  rewrite expand_chars, <- !app_assoc. reflexivity.
Qed.

(** When the pattern has no match, [re.sub] returns the text unchanged. *)
Lemma re_sub1_no_match (pattern : regex) (line s : str) (st : nat) :
  plain line = true -> (exists r, line = tab :: r) ->
  re_search pattern s = None ->
  re_sub1 pattern (repl_after_group1 line) s st = Ok (s, st).
Proof.
  intros Hp Htab Hnone. unfold re_sub1.
  rewrite parse_repl_after_group1 by assumption. rewrite Hnone. reflexivity.
Qed.

(** ** [str.replace] with a marker *)

Lemma replace_nonempty (c : ascii) (old new s : str) :
  replace (c :: old) new s = replace_from (length s) (c :: old) new s.
Proof. reflexivity. Qed.

Lemma contains_cons_false (sub : str) (c : ascii) (s : str) :
  contains sub (c :: s) = false ->
  strip_prefix sub (c :: s) = None /\ contains sub s = false.
Proof.
  cbn [contains]. destruct (strip_prefix sub (c :: s)); [discriminate|].
  intros H. split; [reflexivity | exact H].
Qed.

Lemma replace_from_absent (old new : str) :
  forall fuel s, contains old s = false -> replace_from fuel old new s = s.
Proof.
  induction fuel as [|fuel IH]; intros s H; [reflexivity|].
  cbn [replace_from]. destruct s as [|c s].
  - cbn [contains] in H. destruct (strip_prefix old []); [discriminate|].
    reflexivity.
  - apply contains_cons_false in H as [-> H]. rewrite (IH s H). reflexivity.
Qed.

Lemma replace_from_sublist (old ins : str) :
  forall fuel s, sublist s (replace_from fuel old (ins ++ old) s).
Proof.
  induction fuel as [|fuel IH]; intros s; [reflexivity|].
  cbn [replace_from].
  destruct (strip_prefix old s) as [rest|] eqn:E.
  - apply strip_prefix_Some in E. subst s.
    apply sublist_app; [|apply IH]. apply sublist_inserts_l. reflexivity.
  - destruct s as [|c s]; [reflexivity|]. apply sublist_skip, IH.
Qed.

Lemma insert_after_first_sublist (at_start : str -> option (str * str))
    (line s : str) :
  (forall t m x, at_start t = Some (m, x) -> t = m ++ x) ->
  sublist s (insert_after_first at_start line s).
Proof.
  intros Hsplit. unfold insert_after_first.
  destruct (first_match at_start s) as [[[b m] x]|] eqn:E; [|reflexivity].
  apply (first_match_split at_start Hsplit) in E. subst s.
  apply sublist_app; [reflexivity|]. apply sublist_app; [reflexivity|].
  change (line ++ nl :: x) with (line ++ [nl] ++ x).
  rewrite app_assoc. apply sublist_inserts_l. reflexivity.
Qed.

(** ** The patcher's stages *)

Lemma token_plain (u : str) : token u -> plain u = true.
Proof.
  intros [_ H]. unfold plain. apply forallb_forall. intros c Hc.
  rewrite Forall_forall in H. apply list_elem_of_In in Hc.
  destruct (upper_alnum_cases c (H c Hc)) as (_ & _ & _ & -> & _).
  reflexivity.
Qed.

Section PatcherStages.

Variable urandom : nat -> N.

Lemma mint_ids_loop (files : list file_info) (d1 d2 : gmap str str) (st : nat) :
  for_each files
    (fun (acc : gmap str str * gmap str str) file_info =>
       file_ref <- generate_uuid urandom ;;
       build_file <- generate_uuid urandom ;;
       ret (<[name file_info := file_ref]> (fst acc),
            <[name file_info := build_file]> (snd acc)))
    (d1, d2) st
  = Ok ((dict_of m_first (minted urandom st (map name files)) d1,
         dict_of m_second (minted urandom st (map name files)) d2),
        st + 2 * length files).
Proof.
  revert d1 d2 st. induction files as [|fi files IH]; intros d1 d2 st.
  - cbn [for_each map minted dict_of fold_left length]. unfold ret.
    rewrite Nat.add_0_r. reflexivity.
  - cbn [for_each]. erewrite bind_Ok; cycle 1.
    { run_uuid. run_uuid. reflexivity. }
    cbn [fst snd]. rewrite IH.
    cbn [map minted dict_of fold_left m_file m_first m_second fst snd length].
    do 2 f_equal. lia.
Qed.

Lemma mint_ids_run (files : list file_info) (st : nat) :
  mint_ids urandom files st
  = Ok ((dict_of m_first (minted urandom st (map name files)) ∅,
         dict_of m_second (minted urandom st (map name files)) ∅),
        st + 2 * length files).
Proof. apply mint_ids_loop. Qed.

Variables (files : list file_info) (st0 st1 : nat).
Variables (file_refs build_files : gmap str str).

Hypothesis Hplain : plain_names files.
Hypothesis Hmint :
  mint_ids urandom files st0 = Ok ((file_refs, build_files), st1).

Lemma minted_lookup (fi : file_info) :
  In fi files ->
  (file_refs !! name fi = Some (dict_value file_refs (name fi))
   /\ token (dict_value file_refs (name fi)))
  /\ (build_files !! name fi = Some (dict_value build_files (name fi))
      /\ token (dict_value build_files (name fi))).
Proof.
  intros Hfi. rewrite mint_ids_run in Hmint.
  injection Hmint as <- <- _.
  assert (In (name fi) (map m_file (minted urandom st0 (map name files))))
    as Hin by (rewrite minted_files; apply in_map, Hfi).
  split.
  - destruct (dict_of_lookup_In m_first _ ∅ _ Hin) as (m & Hm & _ & Hl).
    unfold dict_value. rewrite Hl. split; [reflexivity|].
    destruct (minted_In urandom _ _ _ Hm) as (i & _ & E & _).
    cbn [default]. rewrite E. apply uuid_at_token.
  - destruct (dict_of_lookup_In m_second _ ∅ _ Hin) as (m & Hm & _ & Hl).
    unfold dict_value. rewrite Hl. split; [reflexivity|].
    destruct (minted_In urandom _ _ _ Hm) as (i & _ & _ & E).
    cbn [default]. rewrite E. apply uuid_at_token.
Qed.

Lemma name_plain (fi : file_info) : In fi files -> plain (name fi) = true.
Proof.
  intros Hfi. unfold plain_names in Hplain. rewrite Forall_forall in Hplain.
  apply Hplain, list_elem_of_In, Hfi.
Qed.

Lemma final_state : st1 = st0 + 2 * length files.
Proof. rewrite mint_ids_run in Hmint. injection Hmint as _ _ <-. reflexivity. Qed.

(** The lines collected for the file-reference section. *)
Lemma file_ref_insertions_run (l : list file_info) (acc : list str) (st : nat) :
  (forall fi, In fi l -> In fi files) ->
  for_each l
    (fun file_ref_insertions file_info =>
       file_ref <- dict_get file_refs (name file_info) ;;
       let file_ref_line := patch_file_ref_line file_ref (name file_info) in
       ret (file_ref_insertions ++ [file_ref_line]))
    acc st
  = Ok (acc ++ map (fun fi => patch_file_ref_line
                                (dict_value file_refs (name fi)) (name fi)) l,
        st).
Proof.
  revert acc. induction l as [|fi l IH]; intros acc Hl.
  - cbn [for_each map]. unfold ret. rewrite app_nil_r. reflexivity.
  - cbn [for_each]. destruct (minted_lookup fi (Hl fi (or_introl eq_refl)))
      as [[Hr _] _].
    erewrite bind_Ok; cycle 1.
    { erewrite bind_Ok by (apply dict_get_Some, Hr). reflexivity. }
    rewrite IH by (intros; apply Hl; right; assumption).
    cbn [map]. rewrite <- app_assoc. reflexivity.
Qed.

Lemma build_file_insertions_run (l : list file_info) (acc : list str)
    (st : nat) :
  (forall fi, In fi l -> In fi files) ->
  for_each l
    (fun build_file_insertions file_info =>
       build_file <- dict_get build_files (name file_info) ;;
       file_ref <- dict_get file_refs (name file_info) ;;
       let build_file_line :=
         patch_build_file_line build_file file_ref (name file_info) in
       ret (build_file_insertions ++ [build_file_line]))
    acc st
  = Ok (acc ++ map (fun fi => patch_build_file_line
                                (dict_value build_files (name fi))
                                (dict_value file_refs (name fi)) (name fi)) l,
        st).
Proof.
  revert acc. induction l as [|fi l IH]; intros acc Hl.
  - cbn [for_each map]. unfold ret. rewrite app_nil_r. reflexivity.
  - cbn [for_each]. destruct (minted_lookup fi (Hl fi (or_introl eq_refl)))
      as [[Hr _] [Hb _]].
    erewrite bind_Ok; cycle 1.
    { erewrite bind_Ok by (apply dict_get_Some, Hb).
      erewrite bind_Ok by (apply dict_get_Some, Hr). reflexivity. }
    rewrite IH by (intros; apply Hl; right; assumption).
    cbn [map]. rewrite <- app_assoc. reflexivity.
Qed.

Lemma insert_file_refs_run (content : str) (st : nat) :
  insert_file_refs files file_refs content st
  = Ok (replace file_ref_section
          ((join [nl]
              (map (fun fi => patch_file_ref_line
                                (dict_value file_refs (name fi)) (name fi))
                   files) ++ [nl]) ++ file_ref_section) content, st).
Proof.
  unfold insert_file_refs.
  erewrite bind_Ok by (apply file_ref_insertions_run; auto).
  reflexivity.
Qed.

Lemma insert_build_files_run (content : str) (st : nat) :
  insert_build_files files file_refs build_files content st
  = Ok (replace build_file_section
          ((join [nl]
              (map (fun fi => patch_build_file_line
                                (dict_value build_files (name fi))
                                (dict_value file_refs (name fi)) (name fi))
                   files) ++ [nl]) ++ build_file_section) content, st).
Proof.
  unfold insert_build_files.
  erewrite bind_Ok by (apply build_file_insertions_run; auto).
  reflexivity.
Qed.

Lemma sources_line_ok (fi : file_info) :
  In fi files ->
  plain (patch_sources_line (dict_value build_files (name fi)) (name fi)) = true
  /\ exists r, patch_sources_line (dict_value build_files (name fi)) (name fi)
               = tab :: r.
Proof.
  intros Hfi. destruct (minted_lookup fi Hfi) as [_ [_ Hb]].
  split; [|eexists; reflexivity].
  unfold patch_sources_line. rewrite !plain_app.
  rewrite (token_plain _ Hb), (name_plain fi Hfi). reflexivity.
Qed.

Lemma group_line_ok (fi : file_info) :
  In fi files ->
  plain (patch_group_line (dict_value file_refs (name fi)) (name fi)) = true
  /\ exists r, patch_group_line (dict_value file_refs (name fi)) (name fi)
               = tab :: r.
Proof.
  intros Hfi. destruct (minted_lookup fi Hfi) as [[_ Hr] _].
  split; [|eexists; reflexivity].
  unfold patch_group_line. rewrite !plain_app.
  rewrite (token_plain _ Hr), (name_plain fi Hfi). reflexivity.
Qed.

Lemma sources_pattern_match (fuel : nat) (t : str) :
  length t <= fuel ->
  rmatch sources_pattern fuel t Some
  = match list_opening_at (txt "files = (") t with
    | Some mr => Some (snd mr)
    | None => None
    end.
Proof. apply list_opening_match. Qed.

Lemma insert_source_run (fi : file_info) (content : str) (st : nat) :
  In fi files ->
  insert_source build_files content fi st
  = Ok (insert_after_first (list_opening_at (txt "files = ("))
          (patch_sources_line (dict_value build_files (name fi)) (name fi))
          content, st).
Proof.
  intros Hfi. destruct (minted_lookup fi Hfi) as [_ [Hb _]].
  destruct (sources_line_ok fi Hfi) as [Hp Htab].
  unfold insert_source. erewrite bind_Ok by (apply dict_get_Some, Hb).
  apply re_sub1_insert; try assumption.
  - intros fuel t. apply sources_pattern_match.
  - intros t m x. apply list_opening_at_split.
Qed.

Lemma insert_group_entry_run (group : str) (fi : file_info) (content : str)
    (st : nat) :
  In fi files ->
  insert_group_entry group (group_pattern group) file_refs content fi st
  = Ok (if contains group (path fi)
        then insert_after_first (group_at group)
               (patch_group_line (dict_value file_refs (name fi)) (name fi))
               content
        else content, st).
Proof.
  intros Hfi. destruct (minted_lookup fi Hfi) as [[Hr _] _].
  destruct (group_line_ok fi Hfi) as [Hp Htab].
  unfold insert_group_entry. destruct (contains group (path fi)); [|reflexivity].
  erewrite bind_Ok by (apply dict_get_Some, Hr).
  apply re_sub1_insert; try assumption.
  - intros fuel t. apply group_match.
  - intros t m x. apply group_at_split.
Qed.

Lemma for_each_pure {A} (l : list A) (body : str -> A -> M str)
    (step : str -> A -> str) (content : str) (st : nat) :
  (forall x c, In x l -> body c x st = Ok (step c x, st)) ->
  for_each l body content st = Ok (fold_left step l content, st).
Proof.
  revert content. induction l as [|x l IH]; intros content H.
  - reflexivity.
  - cbn [for_each fold_left].
    erewrite bind_Ok by (apply H; left; reflexivity).
    apply IH. intros y c Hy. apply H. right. exact Hy.
Qed.

End PatcherStages.

(** ** What the first match is *)

Lemma first_match_None (at_start : str -> option (str * str)) (s : str) :
  first_match at_start s = None ->
  forall i, i <= length s -> at_start (drop i s) = None.
Proof.
  induction s as [|c s IH]; cbn [first_match].
  - destruct (at_start []) as [[m x]|] eqn:E; [discriminate|].
    intros _ i Hi. rewrite drop_nil. exact E.
  - destruct (at_start (c :: s)) as [[m x]|] eqn:E; [discriminate|].
    destruct (first_match at_start s) as [[[b m] x]|]; [discriminate|].
    intros _ [|i] Hi; [exact E|]. cbn [drop].
    apply IH; [reflexivity | cbn [length] in Hi; lia].
Qed.

Lemma first_match_leftmost (at_start : str -> option (str * str))
    (s b m x : str) :
  first_match at_start s = Some (b, m, x) ->
  at_start (drop (length b) s) = Some (m, x)
  /\ forall i, i < length b -> at_start (drop i s) = None.
Proof.
  revert b. induction s as [|c s IH]; intros b; cbn [first_match].
  - destruct (at_start []) as [[m' x']|] eqn:E; [|discriminate].
    intros [= <- <- <-]. split; [exact E|]. cbn [length]. lia.
  - destruct (at_start (c :: s)) as [[m' x']|] eqn:E.
    + intros [= <- <- <-]. split; [exact E|]. cbn [length]. lia.
    + destruct (first_match at_start s) as [[[b' m'] x']|] eqn:E1;
        [|discriminate].
      intros [= <- <- <-]. destruct (IH b' eq_refl) as [H1 H2].
      split; [exact H1|]. intros [|i] Hi; [exact E|].
      cbn [drop]. apply H2. cbn [length] in Hi. lia.
Qed.

Lemma contains_short (sub s : str) :
  length s < length sub -> contains sub s = false.
Proof.
  induction s as [|c s IH]; intros Hl.
  - cbn [contains]. destruct (strip_prefix sub []) as [r|] eqn:E; [|reflexivity].
    apply strip_prefix_Some in E. destruct sub; [cbn [length] in Hl; lia|].
    discriminate.
  - cbn [contains].
    destruct (strip_prefix sub (c :: s)) as [r|] eqn:E.
    + apply strip_prefix_Some in E. apply (f_equal length) in E.
      rewrite length_app in E. lia.
    + apply IH. cbn [length] in Hl. lia.
Qed.

Lemma strip_prefix_None_prefix (p a b : str) :
  strip_prefix p (a ++ b) = None -> strip_prefix p a = None.
Proof.
  intros H. destruct (strip_prefix p a) as [r|] eqn:E; [|reflexivity].
  apply strip_prefix_Some in E. subst a. rewrite <- app_assoc in H.
  rewrite strip_prefix_app in H. discriminate.
Qed.

Lemma list_opening_at_None (opening s : str) :
  list_opening_at opening s = None <-> strip_prefix opening s = None.
Proof.
  unfold list_opening_at. destruct (strip_prefix opening s); split; easy.
Qed.

(** The first list opening: the literal does not occur before it. *)
Lemma first_opening_spec (opening0 : str) (z : ascii) (s : str) :
  let opening := opening0 ++ [z] in
  match first_match (list_opening_at opening) s with
  | None => contains opening s = false
  | Some (b, m, x) =>
      exists entries,
        s = b ++ opening ++ entries ++ x
        /\ m = opening ++ entries
        /\ contains opening (b ++ opening0) = false
        /\ list_opening_at opening (opening ++ entries ++ x)
           = Some (opening ++ entries, x)
  end.
Proof.
  intros opening. induction s as [|c s IH]; cbn [first_match].
  - destruct (list_opening_at opening []) as [[m x]|] eqn:E.
    + unfold list_opening_at in E.
      destruct (strip_prefix opening []) as [r|] eqn:E1; [|discriminate].
      apply strip_prefix_Some in E1. subst opening.
      destruct opening0; discriminate.
    + apply contains_short. subst opening. rewrite length_app.
      cbn [length]. lia.
  - destruct (list_opening_at opening (c :: s)) as [[m x]|] eqn:E.
    + pose proof (list_opening_at_split _ _ _ _ E) as Hs.
      pose proof E as E'. unfold list_opening_at in E'.
      destruct (strip_prefix opening (c :: s)) as [s1|] eqn:E1; [|discriminate].
      injection E' as Hm Hx.
      exists (take_while_b is_space s1
              ++ fst (scan_entries (length s1) (drop_while_b is_space s1))).
      rewrite Hm. split; [|split; [|split]].
      * cbn [app]. rewrite Hs, <- Hm, <- !app_assoc. reflexivity.
      * reflexivity.
      * cbn [app]. apply contains_short. subst opening.
        rewrite length_app. cbn [length]. lia.
      * rewrite (app_assoc opening), Hm, <- Hs. exact E.
    + apply list_opening_at_None in E.
      destruct (first_match (list_opening_at opening) s) as [[[b m] x]|].
      * destruct IH as (entries & Hs & Hm & Hc & Ho).
        exists entries. split; [|split; [|split]]; try assumption.
        -- cbn [app]. f_equal. exact Hs.
        -- cbn [app contains].
           rewrite Hs in E.
           change (c :: b ++ opening ++ entries ++ x)
             with ((c :: b) ++ opening ++ entries ++ x) in E.
           unfold opening in E at 2. rewrite <- (app_assoc opening0) in E.
           rewrite app_assoc in E. apply strip_prefix_None_prefix in E.
           cbn [app] in E. rewrite E. exact Hc.
      * cbn [contains]. rewrite E. exact IH.
Qed.

Lemma children_on_line_shape (s m r : str) :
  children_on_line s = Some (m, r) ->
  exists skipped entries,
    m = skipped ++ txt "children = (" ++ entries /\ one_line skipped.
Proof.
  revert m. induction s as [|c s IH]; intros m; cbn [children_on_line].
  - destruct (list_opening_at (txt "children = (") []) as [mr|] eqn:E;
      [|discriminate].
    unfold list_opening_at in E. discriminate.
  - destruct (list_opening_at (txt "children = (") (c :: s)) as [mr|] eqn:E.
    + intros [= ->]. unfold list_opening_at in E.
      destruct (strip_prefix (txt "children = (") (c :: s)) as [s1|];
        [|discriminate].
      injection E as <- _. eexists [], _. split; [reflexivity|].
      intros H. inversion H.
    + destruct (not_newline c) eqn:Ec; [|discriminate].
      destruct (children_on_line s) as [[m' r']|]; [|discriminate].
      intros [= <- <-]. destruct (IH m' eq_refl) as (sk & en & -> & Hsk).
      exists (c :: sk), en. split; [reflexivity|].
      intros H. apply elem_of_cons in H as [<-|H]; [|exact (Hsk H)].
      discriminate Ec.
Qed.

Lemma app_assoc5 (a b c d e f : str) :
  (a ++ b ++ c ++ d ++ e) ++ f = a ++ b ++ c ++ d ++ e ++ f.
Proof. rewrite <- !app_assoc. reflexivity. Qed.

(** The first group block anchored on [Core/<group>]. *)
Lemma first_group_spec (group s : str) :
  match first_match (group_at group) s with
  | None => forall i, i <= length s -> group_at group (drop i s) = None
  | Some (b, m, x) =>
      exists skipped entries,
        s = b ++ txt "Core/" ++ group ++ skipped ++ txt "children = ("
              ++ entries ++ x
        /\ m = txt "Core/" ++ group ++ skipped ++ txt "children = ("
                 ++ entries
        /\ one_line skipped
        /\ forall i, i < length b -> group_at group (drop i s) = None
  end.
Proof.
  destruct (first_match (group_at group) s) as [[[b m] x]|] eqn:E.
  - pose proof (first_match_split _ (group_at_split group) _ _ _ _ E) as Hs.
    destruct (first_match_leftmost _ _ _ _ _ E) as [Hat Hleft].
    unfold group_at in Hat.
    destruct (strip_prefix (txt "Core/" ++ group) (drop (length b) s))
      as [s1|]; [|discriminate].
    destruct (children_on_line s1) as [[m' r']|] eqn:E1; [|discriminate].
    injection Hat as <- <-.
    destruct (children_on_line_shape _ _ _ E1) as (sk & en & -> & Hsk).
    exists sk, en. split; [|split; [|split]]; try assumption.
    + rewrite Hs at 1. f_equal.
      exact (app_assoc5 (txt "Core/") group sk (txt "children = (") en r').
    + reflexivity.
  - apply first_match_None, E.
Qed.

(** ** The loops of the patcher *)

(** What the sources loop computes.  For every input text and every
    descriptor of the patch list, the loop over the sources build phase inserts the descriptor's build-file
    reference line, followed by a line feed, right after the first match in
    the whole text of the pattern that locates a file-list opening: the
    first occurrence of [files = (], the white space after it and the
    entries that follow.  Nothing else changes, whatever build phase that
    first list belongs to; a text without [files = (] is left as it is. *)
Theorem sources_entries_after_first_list (urandom : nat -> N)
    (files : list file_info) (st0 st1 : nat)
    (file_refs build_files : gmap str str) :
  plain_names files ->
  mint_ids urandom files st0 = Ok ((file_refs, build_files), st1) ->
  forall content st,
    for_each files (insert_source build_files) content st
    = Ok (fold_left
            (fun text file_info =>
               insert_after_first (list_opening_at (txt "files = ("))
                 (patch_sources_line
                    (dict_value build_files (name file_info))
                    (name file_info))
                 text)
            files content, st)
    /\ forall line text,
         (contains (txt "files = (") text = false
          /\ insert_after_first (list_opening_at (txt "files = (")) line text
             = text)
         \/ exists before entries after,
              text = before ++ txt "files = (" ++ entries ++ after
              /\ contains (txt "files = (") (before ++ txt "files = ") = false
              /\ list_opening_at (txt "files = (")
                   (txt "files = (" ++ entries ++ after)
                 = Some (txt "files = (" ++ entries, after)
              /\ insert_after_first (list_opening_at (txt "files = ("))
                   line text
                 = before ++ txt "files = (" ++ entries ++ line ++ nl :: after.
Proof.
  intros Hplain Hmint content st. split.
  - apply for_each_pure. intros fi c Hfi.
    apply (insert_source_run urandom files st0 st1 file_refs build_files);
      assumption.
  - intros line text. unfold insert_after_first.
    pose proof (first_opening_spec (txt "files = ") "(" text) as H.
    cbv zeta in H.
    change (txt "files = " ++ ["("%char]) with (txt "files = (") in H.
    destruct (first_match (list_opening_at (txt "files = (")) text)
      as [[[b m] x]|].
    + right. destruct H as (entries & Hs & -> & Hc & Ho).
      exists b, entries, x.
      split; [exact Hs|]. split; [exact Hc|]. split; [exact Ho|].
      rewrite <- ?app_assoc. reflexivity.
    + left. split; [exact H | reflexivity].
Qed.

Lemma sample_mint :
  mint_ids sample_urandom files_to_add 0
  = Ok ((fst sample_ids, snd sample_ids), 10).
Proof. unfold sample_ids. rewrite !mint_ids_run. reflexivity. Qed.

Lemma files_to_add_plain : plain_names files_to_add.
Proof. unfold plain_names. compute_done. Qed.

Lemma sources_entries_after_first_list_witness :
  plain_names files_to_add
  /\ mint_ids sample_urandom files_to_add 0
     = Ok ((fst sample_ids, snd sample_ids), 10)
  /\ forall content st,
       for_each files_to_add (insert_source (snd sample_ids)) content st
       = Ok (fold_left
               (fun text file_info =>
                  insert_after_first (list_opening_at (txt "files = ("))
                    (patch_sources_line
                       (dict_value (snd sample_ids) (name file_info))
                       (name file_info))
                    text)
               files_to_add content, st).
Proof.
  split; [exact files_to_add_plain|]. split; [exact sample_mint|].
  intros content st.
  exact (proj1 (sources_entries_after_first_list sample_urandom files_to_add
                  0 10 (fst sample_ids) (snd sample_ids) files_to_add_plain
                  sample_mint content st)).
Defined.

(** What the group loops compute.  For every descriptor of the patch list
    whose path contains
    "Services", the patcher inserts one file-reference line right after the
    first group block matched by the pattern anchored on [Core/Services]
    (that text, the rest of its line up to [children = (], and the entries
    that follow); likewise for "Security" and [Core/Security].  A descriptor
    whose path contains neither leaves the text unchanged in both group
    loops.  The lines inserted before the two end markers are built from
    every descriptor of the list, whatever its path. *)
Theorem group_entries_by_path (urandom : nat -> N)
    (files : list file_info) (st0 st1 : nat)
    (file_refs build_files : gmap str str) :
  plain_names files ->
  mint_ids urandom files st0 = Ok ((file_refs, build_files), st1) ->
  forall content st,
    (forall group,
       for_each files
         (insert_group_entry group (group_pattern group) file_refs) content st
       = Ok (fold_left
               (fun text file_info =>
                  if contains group (path file_info)
                  then insert_after_first (group_at group)
                         (patch_group_line
                            (dict_value file_refs (name file_info))
                            (name file_info))
                         text
                  else text)
               files content, st))
    /\ services_group_pattern = group_pattern (txt "Services")
    /\ security_group_pattern = group_pattern (txt "Security")
    /\ insert_file_refs files file_refs content st
       = Ok (replace file_ref_section
               ((join [nl]
                   (map (fun file_info =>
                           patch_file_ref_line
                             (dict_value file_refs (name file_info))
                             (name file_info))
                        files) ++ [nl]) ++ file_ref_section) content, st)
    /\ insert_build_files files file_refs build_files content st
       = Ok (replace build_file_section
               ((join [nl]
                   (map (fun file_info =>
                           patch_build_file_line
                             (dict_value build_files (name file_info))
                             (dict_value file_refs (name file_info))
                             (name file_info))
                        files) ++ [nl]) ++ build_file_section) content, st)
    /\ forall group line text,
         ((forall i, i <= length text -> group_at group (drop i text) = None)
          /\ insert_after_first (group_at group) line text = text)
         \/ exists before skipped entries after,
              text = before ++ txt "Core/" ++ group ++ skipped
                       ++ txt "children = (" ++ entries ++ after
              /\ one_line skipped
              /\ (forall i, i < length before ->
                    group_at group (drop i text) = None)
              /\ insert_after_first (group_at group) line text
                 = before ++ txt "Core/" ++ group ++ skipped
                     ++ txt "children = (" ++ entries ++ line ++ nl :: after.
Proof.
  intros Hplain Hmint content st.
  split; [|split; [reflexivity|split; [reflexivity|split; [|split]]]].
  - intros group. apply for_each_pure. intros fi c Hfi.
    apply (insert_group_entry_run urandom files st0 st1 file_refs build_files);
      assumption.
  - apply (insert_file_refs_run urandom files st0 st1 file_refs build_files);
      assumption.
  - apply (insert_build_files_run urandom files st0 st1 file_refs build_files);
      assumption.
  - intros group line text. unfold insert_after_first.
    pose proof (first_group_spec group text) as H.
    destruct (first_match (group_at group) text) as [[[b m] x]|].
    + right. destruct H as (sk & en & Hs & -> & Hsk & Hleft).
      exists b, sk, en, x.
      split; [exact Hs|]. split; [exact Hsk|]. split; [exact Hleft|].
      f_equal.
      exact (app_assoc5 (txt "Core/") group sk (txt "children = (") en
               (line ++ nl :: x)).
    + left. split; [exact H | reflexivity].
Qed.

Lemma group_entries_by_path_witness :
  plain_names files_to_add
  /\ mint_ids sample_urandom files_to_add 0
     = Ok ((fst sample_ids, snd sample_ids), 10)
  /\ forall content st group,
       for_each files_to_add
         (insert_group_entry group (group_pattern group) (fst sample_ids))
         content st
       = Ok (fold_left
               (fun text file_info =>
                  if contains group (path file_info)
                  then insert_after_first (group_at group)
                         (patch_group_line
                            (dict_value (fst sample_ids) (name file_info))
                            (name file_info))
                         text
                  else text)
               files_to_add content, st).
Proof.
  split; [exact files_to_add_plain|]. split; [exact sample_mint|].
  intros content st.
  exact (proj1 (group_entries_by_path sample_urandom files_to_add
                  0 10 (fst sample_ids) (snd sample_ids) files_to_add_plain
                  sample_mint content st)).
Defined.

Lemma for_each_same {A} (l : list A) (body : str -> A -> M str)
    (content : str) (st : nat) :
  (forall x, In x l -> body content x st = Ok (content, st)) ->
  for_each l body content st = Ok (content, st).
Proof.
  induction l as [|x l IH]; intros H; [reflexivity|].
  cbn [for_each]. erewrite bind_Ok by (apply H; left; reflexivity).
  apply IH. intros y Hy. apply H. right. exact Hy.
Qed.

Lemma file_ref_section_cons :
  file_ref_section = "/"%char :: txt "* End PBXFileReference section */".
Proof. reflexivity. Qed.

Lemma build_file_section_cons :
  build_file_section = "/"%char :: txt "* End PBXBuildFile section */".
Proof. reflexivity. Qed.

Lemma replace_absent (c : ascii) (old new s : str) :
  contains (c :: old) s = false -> replace (c :: old) new s = s.
Proof. intros H. rewrite replace_nonempty. apply replace_from_absent, H. Qed.

Lemma replace_sublist (c : ascii) (old ins s : str) :
  sublist s (replace (c :: old) (ins ++ c :: old) s).
Proof. rewrite replace_nonempty. apply replace_from_sublist. Qed.

Section PatcherClaims.

Variable urandom : nat -> N.
Variables (files : list file_info) (st0 st1 : nat).
Variables (file_refs build_files : gmap str str).

Hypothesis Hplain : plain_names files.
Hypothesis Hmint :
  mint_ids urandom files st0 = Ok ((file_refs, build_files), st1).

Lemma insert_source_no_match (fi : file_info) (content : str) (st : nat) :
  In fi files ->
  re_search sources_pattern content = None ->
  insert_source build_files content fi st = Ok (content, st).
Proof.
  intros Hfi Hnone.
  destruct (minted_lookup urandom files st0 st1 file_refs build_files Hmint
              fi Hfi) as [_ [Hb _]].
  destruct (sources_line_ok urandom files st0 st1 file_refs build_files
              Hplain Hmint fi Hfi) as [Hp Htab].
  unfold insert_source. erewrite bind_Ok by (apply dict_get_Some, Hb).
  apply re_sub1_no_match; assumption.
Qed.

Lemma insert_group_entry_no_match (keyword : str) (pattern : regex)
    (fi : file_info) (content : str) (st : nat) :
  In fi files ->
  re_search pattern content = None ->
  insert_group_entry keyword pattern file_refs content fi st
  = Ok (content, st).
Proof.
  intros Hfi Hnone.
  destruct (minted_lookup urandom files st0 st1 file_refs build_files Hmint
              fi Hfi) as [[Hr _] _].
  destruct (group_line_ok urandom files st0 st1 file_refs build_files
              Hplain Hmint fi Hfi) as [Hp Htab].
  unfold insert_group_entry.
  destruct (contains keyword (path fi)); [|reflexivity].
  erewrite bind_Ok by (apply dict_get_Some, Hr).
  apply re_sub1_no_match; assumption.
Qed.

Lemma absent_anchors (content : str) (st : nat) :
  (contains file_ref_section content = false ->
   insert_file_refs files file_refs content st = Ok (content, st))
  /\ (contains build_file_section content = false ->
      insert_build_files files file_refs build_files content st
      = Ok (content, st))
  /\ (re_search sources_pattern content = None ->
      for_each files (insert_source build_files) content st
      = Ok (content, st))
  /\ (re_search services_group_pattern content = None ->
      for_each files
        (insert_group_entry (txt "Services") services_group_pattern file_refs)
        content st
      = Ok (content, st))
  /\ (re_search security_group_pattern content = None ->
      for_each files
        (insert_group_entry (txt "Security") security_group_pattern file_refs)
        content st
      = Ok (content, st)).
Proof.
  split; [|split; [|split; [|split]]].
  - intros H.
    rewrite (insert_file_refs_run urandom files st0 st1 file_refs build_files
               Hmint).
    rewrite file_ref_section_cons in *. rewrite replace_absent by exact H.
    reflexivity.
  - intros H.
    rewrite (insert_build_files_run urandom files st0 st1 file_refs
               build_files Hmint).
    rewrite build_file_section_cons in *. rewrite replace_absent by exact H.
    reflexivity.
  - intros H. apply for_each_same. intros fi Hfi.
    apply insert_source_no_match; assumption.
  - intros H. apply for_each_same. intros fi Hfi.
    apply insert_group_entry_no_match; assumption.
  - intros H. apply for_each_same. intros fi Hfi.
    apply insert_group_entry_no_match; assumption.
Qed.

Lemma fold_left_sublist {A} (step : str -> A -> str) (l : list A)
    (content : str) :
  (forall c x, sublist c (step c x)) -> sublist content (fold_left step l content).
Proof.
  intros H. revert content. induction l as [|x l IH]; intros content.
  - reflexivity.
  - cbn [fold_left]. etransitivity; [apply (H content x) | apply IH].
Qed.

Lemma patch_text_insert_only (content : str) :
  exists out, patch_text urandom files content st0 = Ok (out, st1)
              /\ sublist content out.
Proof.
  unfold patch_text. erewrite bind_Ok by exact Hmint. cbn [fst snd].
  erewrite bind_Ok
    by apply (insert_file_refs_run urandom files st0 st1 file_refs build_files
                Hmint).
  erewrite bind_Ok
    by apply (insert_build_files_run urandom files st0 st1 file_refs
                build_files Hmint).
  erewrite bind_Ok.
  2:{ apply for_each_pure. intros fi c Hfi.
      apply (insert_source_run urandom files st0 st1 file_refs build_files
               Hplain Hmint fi c st1 Hfi). }
  erewrite bind_Ok.
  2:{ apply for_each_pure. intros fi c Hfi.
      apply (insert_group_entry_run urandom files st0 st1 file_refs
               build_files Hplain Hmint (txt "Services") fi c st1 Hfi). }
  erewrite bind_Ok.
  2:{ apply for_each_pure. intros fi c Hfi.
      apply (insert_group_entry_run urandom files st0 st1 file_refs
               build_files Hplain Hmint (txt "Security") fi c st1 Hfi). }
  eexists. split; [reflexivity|].
  etransitivity; [|apply fold_left_sublist].
  2:{ intros c fi. destruct (contains (txt "Security") (path fi));
        [|reflexivity].
      apply insert_after_first_sublist. intros t m x. apply group_at_split. }
  etransitivity; [|apply fold_left_sublist].
  2:{ intros c fi. destruct (contains (txt "Services") (path fi));
        [|reflexivity].
      apply insert_after_first_sublist. intros t m x. apply group_at_split. }
  etransitivity; [|apply fold_left_sublist].
  2:{ intros c fi. apply insert_after_first_sublist.
      intros t m x. apply list_opening_at_split. }
  etransitivity;
    [|rewrite build_file_section_cons at 1 2; apply replace_sublist].
  rewrite file_ref_section_cons. apply replace_sublist.
Qed.

End PatcherClaims.

(** C7. For every input text in which an anchor is absent, the insertion
    step that uses it raises nothing and returns the text unchanged: the two
    literal end markers, the file-list pattern of the sources loop and the
    two group patterns. *)
Theorem absent_anchor_is_noop (urandom : nat -> N)
    (files : list file_info) (st0 st1 : nat)
    (file_refs build_files : gmap str str) :
  plain_names files ->
  mint_ids urandom files st0 = Ok ((file_refs, build_files), st1) ->
  forall content st,
    (contains file_ref_section content = false ->
     insert_file_refs files file_refs content st = Ok (content, st))
    /\ (contains build_file_section content = false ->
        insert_build_files files file_refs build_files content st
        = Ok (content, st))
    /\ (re_search sources_pattern content = None ->
        for_each files (insert_source build_files) content st
        = Ok (content, st))
    /\ (re_search services_group_pattern content = None ->
        for_each files
          (insert_group_entry (txt "Services") services_group_pattern
             file_refs) content st
        = Ok (content, st))
    /\ (re_search security_group_pattern content = None ->
        for_each files
          (insert_group_entry (txt "Security") security_group_pattern
             file_refs) content st
        = Ok (content, st)).
Proof.
  intros Hplain Hmint content st.
  exact (absent_anchors urandom files st0 st1 file_refs build_files Hplain
           Hmint content st).
Qed.

Lemma absent_anchor_is_noop_witness :
  plain_names files_to_add
  /\ mint_ids sample_urandom files_to_add 0
     = Ok ((fst sample_ids, snd sample_ids), 10)
  /\ forall content st,
       (contains file_ref_section content = false ->
        insert_file_refs files_to_add (fst sample_ids) content st
        = Ok (content, st))
       /\ (contains build_file_section content = false ->
           insert_build_files files_to_add (fst sample_ids) (snd sample_ids)
             content st
           = Ok (content, st))
       /\ (re_search sources_pattern content = None ->
           for_each files_to_add (insert_source (snd sample_ids)) content st
           = Ok (content, st))
       /\ (re_search services_group_pattern content = None ->
           for_each files_to_add
             (insert_group_entry (txt "Services") services_group_pattern
                (fst sample_ids)) content st
           = Ok (content, st))
       /\ (re_search security_group_pattern content = None ->
           for_each files_to_add
             (insert_group_entry (txt "Security") security_group_pattern
                (fst sample_ids)) content st
           = Ok (content, st)).
Proof.
  split; [exact files_to_add_plain|]. split; [exact sample_mint|].
  exact (absent_anchor_is_noop sample_urandom files_to_add 0 10
           (fst sample_ids) (snd sample_ids) files_to_add_plain sample_mint).
Defined.

(** C10. For every input text, the patcher only inserts: it never raises,
    draws ten identifiers, and the input text is a subsequence of the output
    (every character of the input is kept, in its original order). *)
Theorem patch_is_insert_only (urandom : nat -> N) (content : str) (st : nat) :
  exists out,
    add_files_to_xcode_project urandom content st = Ok (out, st + 10)
    /\ sublist content out.
Proof.
  unfold add_files_to_xcode_project.
  exact (patch_text_insert_only urandom files_to_add st (st + 10) _ _
           files_to_add_plain (mint_ids_run urandom files_to_add st) content).
Qed.

Lemma replace_from_grows (c : ascii) (old ins : str) :
  forall fuel s, length s <= fuel -> contains (c :: old) s = true ->
    length s + length ins
    <= length (replace_from fuel (c :: old) (ins ++ c :: old) s).
Proof.
  induction fuel as [|fuel IH]; intros s Hf Hc.
  - destruct s; [|cbn [length] in Hf; lia]. discriminate Hc.
  - cbn [replace_from].
    destruct (strip_prefix (c :: old) s) as [rest|] eqn:E.
    + pose proof (sublist_length _ _
                    (replace_from_sublist (c :: old) ins fuel rest)) as Hl.
      apply strip_prefix_Some in E. subst s.
      rewrite !length_app in *. lia.
    + destruct s as [|x s]; [discriminate Hc|].
      cbn [contains] in Hc. rewrite E in Hc.
      cbn [length] in *. specialize (IH s ltac:(lia) Hc). lia.
Qed.

(** A text that holds the file-reference end marker gets longer. *)
Lemma patch_text_grows (urandom : nat -> N) (files : list file_info)
    (content : str) (st : nat) :
  plain_names files ->
  contains file_ref_section content = true ->
  exists out,
    patch_text urandom files content st = Ok (out, st + 2 * length files)
    /\ length content < length out.
Proof.
  intros Hplain Hc.
  pose proof (mint_ids_run urandom files st) as Hmint.
  set (file_refs := dict_of m_first _ _) in Hmint.
  set (build_files := dict_of m_second _ _) in Hmint.
  set (st1 := st + 2 * length files) in *.
  unfold patch_text. erewrite bind_Ok by exact Hmint. cbn [fst snd].
  erewrite bind_Ok
    by apply (insert_file_refs_run urandom files st st1 file_refs build_files
                Hmint).
  set (stage1 := replace file_ref_section _ content).
  assert (length content < length stage1) as H1.
  { subst stage1. rewrite file_ref_section_cons in *.
    rewrite replace_nonempty.
    pose proof (replace_from_grows "/"
                  (txt "* End PBXFileReference section */")
                  (join [nl]
                     (map (fun fi => patch_file_ref_line
                                       (dict_value file_refs (name fi))
                                       (name fi)) files) ++ [nl])
                  (length content) content (le_n _) Hc) as Hg.
    rewrite length_app in Hg. cbn [length] in Hg. lia. }
  destruct (patch_text_insert_only urandom files st st1 file_refs build_files
              Hplain Hmint content) as (out & Hout & _).
  unfold patch_text in Hout. erewrite bind_Ok in Hout by exact Hmint.
  cbn [fst snd] in Hout.
  erewrite bind_Ok in Hout
    by apply (insert_file_refs_run urandom files st st1 file_refs build_files
                Hmint).
  fold stage1 in Hout.
  assert (exists out', bind (insert_build_files files file_refs build_files
                               stage1)
                         (fun content0 =>
                            content1 <- for_each files
                                          (insert_source build_files) content0 ;;
                            content2 <- for_each files
                                          (insert_group_entry (txt "Services")
                                             services_group_pattern file_refs)
                                          content1 ;;
                            content3 <- for_each files
                                          (insert_group_entry (txt "Security")
                                             security_group_pattern file_refs)
                                          content2 ;;
                            ret content3) st1 = Ok (out', st1)
                       /\ sublist stage1 out') as (out' & Hout' & Hsub).
  { erewrite bind_Ok
      by apply (insert_build_files_run urandom files st st1 file_refs
                  build_files Hmint).
    erewrite bind_Ok.
    2:{ apply for_each_pure. intros fi c Hfi.
        apply (insert_source_run urandom files st st1 file_refs build_files
                 Hplain Hmint fi c st1 Hfi). }
    erewrite bind_Ok.
    2:{ apply for_each_pure. intros fi c Hfi.
        apply (insert_group_entry_run urandom files st st1 file_refs
                 build_files Hplain Hmint (txt "Services") fi c st1 Hfi). }
    erewrite bind_Ok.
    2:{ apply for_each_pure. intros fi c Hfi.
        apply (insert_group_entry_run urandom files st st1 file_refs
                 build_files Hplain Hmint (txt "Security") fi c st1 Hfi). }
    eexists. split; [reflexivity|].
    etransitivity; [|apply fold_left_sublist].
    2:{ intros c fi. destruct (contains (txt "Security") (path fi));
          [|reflexivity].
        apply insert_after_first_sublist. intros t m x. apply group_at_split. }
    etransitivity; [|apply fold_left_sublist].
    2:{ intros c fi. destruct (contains (txt "Services") (path fi));
          [|reflexivity].
        apply insert_after_first_sublist. intros t m x. apply group_at_split. }
    etransitivity; [|apply fold_left_sublist].
    2:{ intros c fi. apply insert_after_first_sublist.
        intros t m x. apply list_opening_at_split. }
    rewrite build_file_section_cons at 1 2. apply replace_sublist. }
  exists out'. split; [exact Hout'|].
  apply sublist_length in Hsub. lia.
Qed.

(** ** The patched text *)

Section PatchedText.

Variable urandom : nat -> N.
Variables (files : list file_info) (st0 st1 : nat).
Variables (file_refs build_files : gmap str str).

Hypothesis Hplain : plain_names files.
Hypothesis Hmint :
  mint_ids urandom files st0 = Ok ((file_refs, build_files), st1).

Lemma patch_text_run (content : str) :
  patch_text urandom files content st0
  = Ok (patched_text (dict_value file_refs) (dict_value build_files) files
          content, st1).
Proof.
  unfold patch_text. erewrite bind_Ok by exact Hmint. cbn [fst snd].
  erewrite bind_Ok
    by apply (insert_file_refs_run urandom files st0 st1 file_refs build_files
                Hmint).
  erewrite bind_Ok
    by apply (insert_build_files_run urandom files st0 st1 file_refs
                build_files Hmint).
  erewrite bind_Ok.
  2:{ apply for_each_pure. intros fi c Hfi.
      apply (insert_source_run urandom files st0 st1 file_refs build_files
               Hplain Hmint fi c st1 Hfi). }
  erewrite bind_Ok.
  2:{ apply for_each_pure. intros fi c Hfi.
      apply (insert_group_entry_run urandom files st0 st1 file_refs
               build_files Hplain Hmint (txt "Services") fi c st1 Hfi). }
  erewrite bind_Ok.
  2:{ apply for_each_pure. intros fi c Hfi.
      apply (insert_group_entry_run urandom files st0 st1 file_refs
               build_files Hplain Hmint (txt "Security") fi c st1 Hfi). }
  reflexivity.
Qed.

End PatchedText.

Lemma fold_left_ext_in {A B} (f g : A -> B -> A) (l : list B) (a : A) :
  (forall x b, In b l -> f x b = g x b) -> fold_left f l a = fold_left g l a.
Proof.
  revert a. induction l as [|b l IH]; intros a H; [reflexivity|].
  cbn [fold_left]. rewrite (H a b) by (left; reflexivity).
  apply IH. intros x b' Hb. apply H. right. exact Hb.
Qed.

Lemma patched_text_ext (refs refs' builds builds' : str -> str)
    (files : list file_info) (content : str) :
  (forall fi, In fi files ->
     refs (name fi) = refs' (name fi) /\ builds (name fi) = builds' (name fi)) ->
  patched_text refs builds files content
  = patched_text refs' builds' files content.
Proof.
  intros H. unfold patched_text.
  assert (map (fun fi => patch_file_ref_line (refs (name fi)) (name fi)) files
          = map (fun fi => patch_file_ref_line (refs' (name fi)) (name fi))
              files) as ->.
  { apply map_ext_in. intros fi Hfi. destruct (H fi Hfi) as [-> _].
    reflexivity. }
  assert (map (fun fi => patch_build_file_line (builds (name fi))
                           (refs (name fi)) (name fi)) files
          = map (fun fi => patch_build_file_line (builds' (name fi))
                             (refs' (name fi)) (name fi)) files) as ->.
  { apply map_ext_in. intros fi Hfi. destruct (H fi Hfi) as [-> ->].
    reflexivity. }
  cbv zeta.
  etransitivity; [apply fold_left_ext_in|f_equal].
  { intros x fi Hfi. destruct (H fi Hfi) as [-> _]. reflexivity. }
  etransitivity; [apply fold_left_ext_in|f_equal].
  { intros x fi Hfi. destruct (H fi Hfi) as [-> _]. reflexivity. }
  apply fold_left_ext_in.
  intros x fi Hfi. destruct (H fi Hfi) as [_ ->]. reflexivity.
Qed.

(** The identifiers of the five descriptors: position [i] of the list gets
    the draws [st + 2 * i] and [st + 2 * i + 1]. *)
Lemma files_to_add_ids (urandom : nat -> N) (st : nat) (fi : file_info) :
  In fi files_to_add ->
  dict_value (dict_of m_first (minted urandom st (map name files_to_add)) ∅)
    (name fi)
  = uuid_at urandom (st + 2 * file_index (name fi))
  /\ dict_value (dict_of m_second (minted urandom st (map name files_to_add)) ∅)
       (name fi)
     = uuid_at urandom (S (st + 2 * file_index (name fi))).
Proof.
  intros Hfi.
  assert (NoDup (map name files_to_add)) as Hnd by compute_done.
  assert (In (name fi, uuid_at urandom (st + 2 * file_index (name fi)),
              uuid_at urandom (S (st + 2 * file_index (name fi))))
             (minted urandom st (map name files_to_add))) as Hm.
  { cbn [files_to_add In] in Hfi.
    destruct Hfi as [<-|[<-|[<-|[<-|[<-|[]]]]]]; cbn [name];
      match goal with
      | |- context [file_index ?n] =>
          let v := eval vm_compute in (file_index n) in
          change (file_index n) with v
      end;
      match goal with
      | |- context [st + 2 * ?k] =>
          replace (st + 2 * k) with (2 * k + st) by lia
      end;
      cbn [Nat.mul Nat.add files_to_add map name minted In];
      [ left | right; left | do 2 right; left | do 3 right; left
      | do 4 right; left ]; reflexivity. }
  split.
  - exact (dict_value_NoDup urandom m_first st _ _ Hnd Hm).
  - exact (dict_value_NoDup urandom m_second st _ _ Hnd Hm).
Qed.

Lemma add_files_run (urandom : nat -> N) (content : str) (st : nat) :
  add_files_to_xcode_project urandom content st
  = Ok (patched_text
          (fun nm => uuid_at urandom (st + 2 * file_index nm))
          (fun nm => uuid_at urandom (S (st + 2 * file_index nm)))
          files_to_add content, st + 10).
Proof.
  unfold add_files_to_xcode_project.
  rewrite (patch_text_run urandom files_to_add st (st + 10) _ _
             files_to_add_plain (mint_ids_run urandom files_to_add st)).
  rewrite (patched_text_ext _
             (fun nm => uuid_at urandom (st + 2 * file_index nm)) _
             (fun nm => uuid_at urandom (S (st + 2 * file_index nm)))
             files_to_add content)
    by (intros fi Hfi; apply files_to_add_ids, Hfi).
  reflexivity.
Qed.

Lemma patched_once_value : patched_once = patched_once_text.
Proof.
  unfold patched_once, run_patch. rewrite add_files_run.
  vm_compute. reflexivity.
Qed.

Lemma patched_twice_value : patched_twice = patched_twice_text.
Proof.
  unfold patched_twice, run_patch. rewrite patched_once_value, add_files_run.
  vm_compute. reflexivity.
Qed.

Ltac in_tac := vm_compute; repeat (first [left; reflexivity | right]).

(** Facts about the sample texts are read off their evaluated form. *)
Ltac sample_text :=
  rewrite ?patched_twice_value, ?patched_once_value.

Ltac by_evaluation := sample_text; vm_compute; reflexivity.

Lemma sample_lengths :
  N.of_nat (length sample_project) = 1024%N
  /\ N.of_nat (length patched_once) = 3534%N
  /\ N.of_nat (length patched_twice) = 6044%N.
Proof. split; [|split]; by_evaluation. Qed.

Lemma sample_first_patch :
  add_files_to_xcode_project sample_urandom sample_project 0
  = Ok (patched_once, 10).
Proof. rewrite add_files_run. by_evaluation. Qed.

Lemma sample_second_patch :
  add_files_to_xcode_project sample_urandom patched_once 10
  = Ok (patched_twice, 20).
Proof. rewrite add_files_run. by_evaluation. Qed.

(** C8. Patching is not idempotent.  On every text that holds the
    file-reference end marker an application of the patcher returns a
    strictly longer text.  On the sample project the second application
    differs from the first: every descriptor has no registration before, one
    file-reference line, build-file line, sources entry and group entry after
    the first application and two of each after the second, and the
    identifiers of the second application (draws 10 to 19) are fresh: they
    differ from one another and from those of the first and do not occur in
    the once-patched text. *)
Theorem patch_twice_duplicates :
  (forall (urandom : nat -> N) (content : str) (st : nat),
      contains file_ref_section content = true ->
      exists out,
        add_files_to_xcode_project urandom content st = Ok (out, st + 10)
        /\ length content < length out)
  /\ add_files_to_xcode_project sample_urandom sample_project 0
     = Ok (patched_once, 10)
  /\ add_files_to_xcode_project sample_urandom patched_once 10
     = Ok (patched_twice, 20)
  /\ patched_twice <> patched_once
  /\ map (fun fi => registrations (name fi) sample_project) files_to_add
     = repeat [0; 0; 0; 0] 5
  /\ map (fun fi => registrations (name fi) patched_once) files_to_add
     = repeat [1; 1; 1; 1] 5
  /\ map (fun fi => registrations (name fi) patched_twice) files_to_add
     = repeat [2; 2; 2; 2] 5
  /\ NoDup (map sample_id (seq 0 20))
  /\ map (fun k => count_occurrences (sample_id k) patched_once) (seq 10 10)
     = repeat 0 10
  /\ map (fun k => count_occurrences (sample_id k) patched_twice) (seq 0 20)
     = [3; 2; 3; 2; 3; 2; 3; 2; 3; 2; 3; 2; 3; 2; 3; 2; 3; 2; 3; 2].
Proof.
  split.
  { intros urandom content st Hc.
    exact (patch_text_grows urandom files_to_add content st
             files_to_add_plain Hc). }
  split; [exact sample_first_patch|].
  split; [exact sample_second_patch|].
  split.
  { intros H. apply (f_equal (fun s => N.of_nat (length s))) in H.
    destruct sample_lengths as (_ & H1 & H2). rewrite H1, H2 in H.
    discriminate H. }
  split; [by_evaluation|].
  split; [by_evaluation|].
  split; [by_evaluation|].
  split.
  { apply (bool_decide_unpack (NoDup (map sample_id (seq 0 20)))).
    vm_compute. exact I. }
  split; by_evaluation.
Qed.

Lemma patch_twice_duplicates_witness :
  contains file_ref_section sample_project = true
  /\ exists out,
       add_files_to_xcode_project sample_urandom sample_project 0
       = Ok (out, 0 + 10)
       /\ length sample_project < length out.
Proof.
  split; [vm_compute; reflexivity|].
  exact (proj1 patch_twice_duplicates sample_urandom sample_project 0
           ltac:(vm_compute; reflexivity)).
Defined.

(** C1. The synthesizer mints a new identifier at several places where it
    refers to an object.  In the output for the sample tree the target's
    [buildPhases] list names the identifier of draw 13 as its Sources phase
    while the sources build phase is declared under the identifier of draw
    16; the project's build-configuration list is referred to by draw 14 and
    declared under draw 21; the two children of the main group (draws 11 and
    12) and the product group (draw 15) are declared nowhere: each of these
    identifiers occurs exactly once in the whole text. *)
Theorem demo_dangling_references :
  list_entries 3 "buildPhases" (section_lines "PBXNativeTarget" demo_output)
  = [ tabs 4 ++ sample_id 13 ++ txt " /* Sources */,";
      tabs 4 ++ sample_id 10 ++ txt " /* Frameworks */," ]
  /\ hd [] (section_lines "PBXSourcesBuildPhase" demo_output)
     = tabs 2 ++ sample_id 16 ++ txt " /* Sources */ = {"
  /\ sample_id 13 <> sample_id 16
  /\ In (tabs 3 ++ txt "buildConfigurationList = " ++ sample_id 14 ++
         txt " /* Build configuration list for PBXProject " ++ [dq] ++
         txt "Demo" ++ [dq] ++ txt " */;")
        (section_lines "PBXProject" demo_output)
  /\ In (tabs 2 ++ sample_id 21 ++
         txt " /* Build configuration list for PBXProject " ++ [dq] ++
         txt "Demo" ++ [dq] ++ txt " */ = {")
        (section_lines "XCConfigurationList" demo_output)
  /\ sample_id 14 <> sample_id 21
  /\ In (tabs 3 ++ txt "productRefGroup = " ++ sample_id 15 ++
         txt " /* Products */;")
        (section_lines "PBXProject" demo_output)
  /\ list_entries 3 "children" (section_lines "PBXGroup" demo_output)
     = [ tabs 4 ++ sample_id 11 ++ txt " /* Demo */,";
         tabs 4 ++ sample_id 12 ++ txt " /* Products */," ]
  /\ map (fun k => count_occurrences (sample_id k) demo_output)
         [11; 12; 13; 14; 15; 16; 21]
     = [1; 1; 1; 1; 1; 1; 1]
  /\ map (fun k => count_occurrences (sample_id k) demo_output)
         [1; 3; 8; 10]
     = [2; 2; 2; 2].
Proof.
  split; [vm_compute; reflexivity|].
  split; [vm_compute; reflexivity|].
  split; [vm_compute; discriminate|].
  split.
  { in_tac. }
  split.
  { in_tac. }
  split; [vm_compute; discriminate|].
  split.
  { in_tac. }
  split; [vm_compute; reflexivity|].
  split; vm_compute; reflexivity.
Qed.

(** C5. The pattern of the sources loop does not stop at the end of the
    [files] list: its tail takes every run of characters closed by a
    semicolon as an entry, so the match runs to the last semicolon of the
    text.  On the sample project the patcher returns a text whose sources
    build phase still lists the one original entry; the five new entries
    stand after the root-object line, behind the five group entries and
    before the closing brace of the document. *)
Theorem sample_sources_entries_misplaced :
  add_files_to_xcode_project sample_urandom sample_project 0
  = Ok (patched_once, 10)
  /\ sources_phase_files sample_project
     = [ L 4 "AA0000000000000000000001 /* App.swift in Sources */," ]
  /\ sources_phase_files patched_once = sources_phase_files sample_project
  /\ section_lines "PBXSourcesBuildPhase" patched_once
     = section_lines "PBXSourcesBuildPhase" sample_project
  /\ trailing_lines sample_project = [ txt "}" ]
  /\ trailing_lines patched_once
     = map (fun i => drop_tabs (patch_group_line (sample_id (2 * i))
                                  (sample_name i)))
           [2; 1; 4; 3; 0]
       ++ map (fun i => drop_tabs (patch_sources_line (sample_id (2 * i + 1))
                                     (sample_name i)))
              [4; 3; 2; 1; 0]
       ++ [ txt "}" ].
Proof.
  split; [exact sample_first_patch|].
  split; [by_evaluation|].
  split; [by_evaluation|].
  split; [by_evaluation|].
  split; by_evaluation.
Qed.

(** C6. The group patterns have the same tail as the pattern of the sources
    loop, and their lazy prefix reaches the first [children] list after the
    anchor.  On the sample project the children lists of the groups
    Core/Services and Core/Security are empty before and after the patch, the
    group section is unchanged, and the group entry of every descriptor
    stands after the root-object line. *)
Theorem sample_group_entries_misplaced :
  add_files_to_xcode_project sample_urandom sample_project 0
  = Ok (patched_once, 10)
  /\ group_children "AA0000000000000000000003" "Core/Services" "Services"
       patched_once = []
  /\ group_children "AA0000000000000000000004" "Core/Security" "Security"
       patched_once = []
  /\ section_lines "PBXGroup" patched_once
     = section_lines "PBXGroup" sample_project
  /\ length (section_lines "PBXGroup" sample_project) = 4
  /\ Forall (fun i =>
               In (drop_tabs (patch_group_line (sample_id (2 * i))
                                (sample_name i)))
                  (trailing_lines patched_once))
            [0; 1; 2; 3; 4]
  /\ Forall (fun i =>
               count_occurrences
                 (drop_tabs (patch_group_line (sample_id (2 * i))
                               (sample_name i)))
                 patched_once = 1)
            [0; 1; 2; 3; 4].
Proof.
  split; [exact sample_first_patch|].
  split; [by_evaluation|].
  split; [by_evaluation|].
  split; [by_evaluation|].
  split; [by_evaluation|].
  split.
  - repeat (apply List.Forall_cons; [sample_text; in_tac|]).
    apply List.Forall_nil.
  - repeat (apply List.Forall_cons; [by_evaluation|]).
    apply List.Forall_nil.
Qed.

(** ** The identifier generator, digit by digit *)

Lemma hex_fixed_app (a b : nat) (n : N) :
  hex_fixed (a + b) n = hex_fixed a (n / 16 ^ N.of_nat b) ++ hex_fixed b n.
Proof.
  revert n. induction b as [|b IH]; intros n.
  - rewrite Nat.add_0_r. cbn [hex_fixed N.of_nat]. rewrite N.pow_0_r, N.div_1_r.
    symmetry. apply app_nil_r.
  - rewrite Nat.add_succ_r. cbn [hex_fixed]. rewrite IH, <- app_assoc.
    f_equal. f_equal. rewrite Nat2N.inj_succ, N.pow_succ_r', N.Div0.div_div.
    reflexivity.
Qed.

Lemma hex_fixed_lookup (w : nat) :
  forall (n : N) (k : nat), k < w ->
    hex_fixed w n !! k
    = Some (hex_digit ((n / 16 ^ N.of_nat (w - 1 - k)) mod 16)).
Proof.
  induction w as [|w IH]; intros n k Hk; [lia|]. cbn [hex_fixed].
  destruct (decide (k = w)) as [->|Hne].
  - rewrite lookup_app_r by (rewrite hex_fixed_length; lia).
    rewrite hex_fixed_length.
    replace (w - w) with 0 by lia. replace (S w - 1 - w) with 0 by lia.
    cbn [N.of_nat]. rewrite N.pow_0_r, N.div_1_r. reflexivity.
  - rewrite lookup_app_l by (rewrite hex_fixed_length; lia).
    rewrite IH by lia. f_equal. f_equal. f_equal.
    replace (S w - 1 - k) with (S (w - 1 - k)) by lia.
    rewrite Nat2N.inj_succ, N.pow_succ_r', N.Div0.div_div. reflexivity.
Qed.

Lemma take_upper (n : nat) (s : str) : take n (upper s) = upper (take n s).
Proof.
  unfold upper. revert s. induction n as [|n IH]; intros [|c s]; try reflexivity.
  cbn [take map]. f_equal. apply IH.
Qed.

(** The identifier is the upper-cased numeral of the high 96 bits. *)
Lemma uuid_token_high (r : N) :
  uuid_token r = upper (hex_fixed 24 (uuid4_int r / 2 ^ 32)).
Proof.
  destruct (uuid_token_spec r) as (E & _). rewrite E, take_upper. f_equal.
  change 32 with (24 + 8) at 1. rewrite hex_fixed_app.
  rewrite take_app_length' by (symmetry; apply hex_fixed_length).
  reflexivity.
Qed.

Lemma upper_hex_digit (d : N) :
  (d < 16)%N -> is_upper_hex (upper_char (hex_digit d)) = true.
Proof.
  intros H. assert (exists k, d = N.of_nat k /\ k < 16) as (k & -> & Hk).
  { exists (N.to_nat d). split; lia. }
  do 16 (destruct k as [|k]; [reflexivity|]). lia.
Qed.

Lemma upper_hex_digit_inj (d e : N) :
  (d < 16)%N -> (e < 16)%N ->
  upper_char (hex_digit d) = upper_char (hex_digit e) -> d = e.
Proof.
  intros Hd He.
  assert (exists k, d = N.of_nat k /\ k < 16) as (k & -> & Hk).
  { exists (N.to_nat d). split; lia. }
  assert (exists j, e = N.of_nat j /\ j < 16) as (j & -> & Hj).
  { exists (N.to_nat e). split; lia. }
  intros E. f_equal.
  do 16 (destruct k as [|k];
         [do 16 (destruct j as [|j];
                 [first [reflexivity | discriminate E]|]); lia|]).
  lia.
Qed.

Lemma upper_hex_fixed_inj (w : nat) :
  forall a b : N,
    upper (hex_fixed w a) = upper (hex_fixed w b) ->
    (a mod 16 ^ N.of_nat w = b mod 16 ^ N.of_nat w)%N.
Proof.
  induction w as [|w IH]; intros a b E.
  - cbn [N.of_nat]. rewrite N.pow_0_r, !N.mod_1_r. reflexivity.
  - cbn [hex_fixed] in E. unfold upper in E. rewrite !map_app in E.
    cbn [map] in E. apply app_inj_tail in E as [E1 E2].
    apply IH in E1. apply upper_hex_digit_inj in E2;
      [|apply N.mod_lt; lia|apply N.mod_lt; lia].
    rewrite Nat2N.inj_succ, N.pow_succ_r'.
    rewrite !N.Div0.mod_mul_r, E1, E2. reflexivity.
Qed.

(** The bits the generator forces. *)
Lemma uuid4_int_version (r : N) : ((uuid4_int r / 2 ^ 76) mod 16 = 4)%N.
Proof.
  change 16%N with (2 ^ 4)%N. apply N.bits_inj. intros n.
  destruct (N.lt_ge_cases n 4) as [Hn|Hn].
  - rewrite N.mod_pow2_bits_low by exact Hn. rewrite N.div_pow2_bits.
    unfold uuid4_int. rewrite N.lor_spec, N.ldiff_spec.
    assert (n = 0 \/ n = 1 \/ n = 2 \/ n = 3)%N as [-> | [-> | [-> | ->]]] by lia;
      cbn [N.add Pos.add Pos.succ];
      match goal with
      | |- (_ && negb ?m || ?v)%bool = _ =>
          change m with true; change v with false || change v with true
      end;
      rewrite ?andb_false_r; reflexivity.
  - rewrite N.mod_pow2_bits_high by exact Hn.
    symmetry. apply N.bits_above_log2. cbn. lia.
Qed.

Lemma uuid4_int_variant (r : N) : ((uuid4_int r / 2 ^ 62) mod 4 = 2)%N.
Proof.
  change 4%N with (2 ^ 2)%N. apply N.bits_inj. intros n.
  destruct (N.lt_ge_cases n 2) as [Hn|Hn].
  - rewrite N.mod_pow2_bits_low by exact Hn. rewrite N.div_pow2_bits.
    unfold uuid4_int.
    rewrite N.lor_spec, N.ldiff_spec, N.lor_spec, N.ldiff_spec.
    assert (n = 0 \/ n = 1)%N as [-> | ->] by lia;
      cbn [N.add Pos.add Pos.succ];
      match goal with
      | |- ((_ && negb ?m1 || ?v1) && negb ?m2 || ?v2)%bool = _ =>
          change m1 with true; change m2 with false; change v2 with false;
          (change v1 with false || change v1 with true)
      end;
      rewrite ?andb_false_r; reflexivity.
  - rewrite N.mod_pow2_bits_high by exact Hn.
    symmetry. apply N.bits_above_log2. cbn. lia.
Qed.

Lemma uuid4_int_high (r r' : N) :
  ((r mod 2 ^ 128) / 2 ^ 32 = (r' mod 2 ^ 128) / 2 ^ 32 ->
   uuid4_int r / 2 ^ 32 = uuid4_int r' / 2 ^ 32)%N.
Proof.
  intros H. apply N.bits_inj. intros n.
  rewrite !N.div_pow2_bits. unfold uuid4_int.
  rewrite !N.lor_spec, !N.ldiff_spec, !N.lor_spec, !N.ldiff_spec.
  rewrite <- !(N.div_pow2_bits _ 32 n), H. reflexivity.
Qed.

(** X1. Every identifier consists of 24 upper-case hexadecimal digits; its
    13th character is the version digit [4] and its 17th character is one of
    [8], [9], [A], [B] (the variant bits), whatever the random source
    delivers. *)
Theorem generate_uuid_digits (urandom : nat -> N) (st : nat) :
  exists token,
    generate_uuid urandom st = Ok (token, S st)
    /\ length token = 24
    /\ Forall (fun c => is_upper_hex c = true) token
    /\ token !! 12 = Some "4"%char
    /\ exists c, token !! 16 = Some c
                 /\ In c ["8"; "9"; "A"; "B"]%char.
Proof.
  exists (uuid_at urandom st). split; [reflexivity|].
  unfold uuid_at. set (r := urandom st).
  destruct (uuid_token_spec r) as (_ & Hlen & _).
  split; [exact Hlen|]. rewrite uuid_token_high.
  set (m := (uuid4_int r / 2 ^ 32)%N).
  split; [|split].
  - unfold upper. apply Forall_map.
    assert (forall w n, Forall (fun c => is_upper_hex (upper_char c) = true)
                          (hex_fixed w n)) as H.
    { induction w as [|w IH]; intros n; cbn [hex_fixed]; [constructor|].
      apply Forall_app. split; [apply IH|].
      constructor; [|constructor]. apply upper_hex_digit, N.mod_lt. lia. }
    apply H.
  - unfold upper. rewrite list_lookup_fmap, hex_fixed_lookup by lia.
    cbn [fmap option_fmap option_map]. f_equal.
    replace ((m / 16 ^ N.of_nat (24 - 1 - 12)) mod 16)%N with 4%N;
      [reflexivity|].
    subst m. rewrite N.Div0.div_div.
    change (2 ^ 32 * 16 ^ N.of_nat (24 - 1 - 12))%N with (2 ^ 76)%N.
    symmetry. apply uuid4_int_version.
  - unfold upper. rewrite list_lookup_fmap, hex_fixed_lookup by lia.
    cbn [fmap option_fmap option_map]. eexists. split; [reflexivity|].
    set (d := ((m / 16 ^ N.of_nat (24 - 1 - 16)) mod 16)%N).
    assert (d / 4 = 2)%N as Hd.
    { subst d m. rewrite N.Div0.div_div.
      change (2 ^ 32 * 16 ^ N.of_nat (24 - 1 - 16))%N with (2 ^ 60)%N.
      change 16%N with (4 * 4)%N.
      rewrite N.Div0.mod_mul_r.
      rewrite (N.mul_comm 4), N.div_add by lia.
      rewrite N.div_small by (apply N.mod_lt; lia).
      rewrite N.Div0.div_div. change (2 ^ 60 * 4)%N with (2 ^ 62)%N.
      rewrite N.add_0_l. apply uuid4_int_variant. }
    assert (d < 16)%N as Hlt by (apply N.mod_lt; lia).
    clearbody d.
    assert (d = 8 \/ d = 9 \/ d = 10 \/ d = 11)%N as [-> | [-> | [-> | ->]]].
    { pose proof (N.div_mod' d 4) as Hdm.
      assert (d mod 4 < 4)%N as Hm by (apply N.mod_lt; discriminate).
      rewrite Hd in Hdm. clear Hd Hlt.
      generalize dependent (d mod 4)%N. intros d4 Hdm Hm. lia. }
    all: cbn; tauto.
Qed.

(** X2. The identifier is determined by the high 96 bits of the draw, and by
    nothing else: two draws give the same identifier exactly when the
    generated UUIDs agree above their low 32 bits.  Draws that differ only
    in the low 32 bits therefore collide. *)
Theorem generate_uuid_collisions (r r' : N) :
  (uuid_token r = uuid_token r'
   <-> (uuid4_int r / 2 ^ 32 = uuid4_int r' / 2 ^ 32)%N)
  /\ (((r mod 2 ^ 128) / 2 ^ 32 = (r' mod 2 ^ 128) / 2 ^ 32)%N ->
      uuid_token r = uuid_token r').
Proof.
  assert (uuid_token r = uuid_token r'
          <-> (uuid4_int r / 2 ^ 32 = uuid4_int r' / 2 ^ 32)%N) as Hiff.
  { rewrite !uuid_token_high. split.
    - intros E. apply upper_hex_fixed_inj in E.
      change (16 ^ N.of_nat 24)%N with (2 ^ 96)%N in E.
      assert (forall x, (uuid4_int x / 2 ^ 32 < 2 ^ 96)%N) as Hb.
      { intros x. apply N.Div0.div_lt_upper_bound.
        change (2 ^ 32 * 2 ^ 96)%N with (2 ^ 128)%N. apply uuid4_int_bound. }
      rewrite !N.mod_small in E by apply Hb. exact E.
    - intros ->. reflexivity. }
  split; [exact Hiff|].
  intros H. apply Hiff, uuid4_int_high, H.
Qed.

Lemma generate_uuid_collisions_witness :
  ((5 mod 2 ^ 128) / 2 ^ 32 = (7 mod 2 ^ 128) / 2 ^ 32)%N
  /\ uuid_token 5 = uuid_token 7.
Proof.
  split; [reflexivity|].
  exact (proj2 (generate_uuid_collisions 5 7) eq_refl).
Defined.

(** ** More about the synthesizer *)

(** X3. [generate_project_pbxproj] never raises: the dictionary look-ups of
    its second and third loop always find the key the first loop stored, for
    every directory tree (even if a path were listed twice).  A run draws
    exactly two identifiers per discovered file and eighteen more. *)
Theorem generate_project_pbxproj_total (urandom : nat -> N)
    (project_name bundle_id : str) (tree : dir_tree) (st : nat) :
  exists out,
    generate_project_pbxproj urandom project_name bundle_id tree st
    = Ok (out, st + 2 * length (walk_swift [] tree) + 18).
Proof.
  unfold generate_project_pbxproj. eexists. apply assemble_pbxproj_run.
Qed.

(** X4. For pairwise different discovered files, every entry of the
    build-file section refers, as its [fileRef], to the identifier under
    which the file-reference section declares the same file; the section has
    one entry per file. *)
Theorem build_file_refs_closed (urandom : nat -> N)
    (project_name bundle_id : str) (swift_files : list str) (st : nat) :
  NoDup swift_files ->
  one_line project_name ->
  Forall one_line swift_files ->
  exists out st',
    assemble_pbxproj urandom project_name bundle_id swift_files st
      = Ok (out, st')
    /\ length (build_file_entries out) = length swift_files
    /\ forall entry,
         In entry (build_file_entries out) ->
         exists build_file file_ref f,
           In f swift_files
           /\ entry = build_file_line build_file file_ref f
           /\ In (file_ref_line file_ref f)
                 (section_lines "PBXFileReference" out).
Proof.
  intros Hnd Hname Hfiles. eexists _, _.
  split; [apply assemble_pbxproj_run|].
  rewrite synth_build_file_entries, synth_file_reference_section
    by assumption.
  split.
  { rewrite length_map.
    rewrite <- (minted_files urandom (st + 4) swift_files) at 2.
    symmetry. apply length_map. }
  intros entry Hentry. apply in_map_iff in Hentry as (m & <- & Hm).
  exists (m_first m), (m_second m), (m_file m).
  assert (In (m_file m) swift_files) as Hf.
  { rewrite <- (minted_files urandom (st + 4) swift_files).
    apply in_map, Hm. }
  split; [exact Hf|]. split; [reflexivity|].
  apply in_or_app. right. apply in_map_iff. exists (m_file m).
  split; [|exact Hf].
  rewrite (dict_value_NoDup urandom m_second (st + 4) swift_files m Hnd Hm).
  reflexivity.
Qed.

Lemma build_file_refs_closed_witness :
  let files := [txt "A.swift"; txt "sub/B.swift"] in
  NoDup files /\ one_line (txt "Demo") /\ Forall one_line files /\
  exists out st',
    assemble_pbxproj sample_urandom (txt "Demo") (txt "com.demo.app") files 0
      = Ok (out, st')
    /\ length (build_file_entries out) = length files
    /\ forall entry,
         In entry (build_file_entries out) ->
         exists build_file file_ref f,
           In f files
           /\ entry = build_file_line build_file file_ref f
           /\ In (file_ref_line file_ref f)
                 (section_lines "PBXFileReference" out).
Proof.
  assert (NoDup [txt "A.swift"; txt "sub/B.swift"]) as Hnd by compute_done.
  assert (one_line (txt "Demo")) as Hname by compute_done.
  assert (Forall one_line [txt "A.swift"; txt "sub/B.swift"]) as Hfiles.
  { repeat constructor; compute_done. }
  split; [exact Hnd|]. split; [exact Hname|]. split; [exact Hfiles|].
  exact (build_file_refs_closed sample_urandom (txt "Demo")
           (txt "com.demo.app") _ 0 Hnd Hname Hfiles).
Defined.

Ltac head_is_slash := eexists _, _; split; reflexivity.

Ltac fixed_lines_differ :=
  repeat (apply List.Forall_cons; [vm_compute; reflexivity|]);
  apply List.Forall_nil.

Section GroupSection.

Variables (project_name bundle_id : str) (fixed_id : nat -> str).
Variables (build_file_lines file_ref_lines source_lines : list str).

Hypothesis Hname : one_line project_name.
Hypothesis Hid : forall k, token (fixed_id k).
Hypothesis Hbfl : Forall tabbed build_file_lines.
Hypothesis Hfrl : Forall tabbed file_ref_lines.
Hypothesis Hsrcl : Forall entry_line source_lines.

Lemma pbx_group_section :
  section_lines "PBXGroup"
    (unlines (pbx_lines project_name bundle_id fixed_id build_file_lines
                file_ref_lines source_lines)) =
  [ tabs 2 ++ fixed_id 1 ++ txt " = {";
    L 3 "isa = PBXGroup;";
    L 3 "children = (";
    tabs 4 ++ fixed_id 7 ++ txt " /* " ++ project_name ++ txt " */,";
    tabs 4 ++ fixed_id 8 ++ txt " /* Products */,";
    L 3 ");";
    tabs 3 ++ txt "sourceTree = " ++ [dq] ++ txt "<group>" ++ [dq] ++ txt ";";
    L 2 "};" ].
Proof.
  unfold section_lines, lines_between.
  rewrite (pbx_text_lines project_name bundle_id fixed_id build_file_lines
             file_ref_lines source_lines Hname Hid Hbfl Hfrl Hsrcl).
  rewrite after_line_skip by (unfold pbx_header; fixed_lines_differ).
  rewrite after_line_skip
    by (apply tabbed_not_marker; [head_is_slash|exact Hbfl]).
  rewrite after_line_skip by (unfold build_file_section_end; fixed_lines_differ).
  rewrite (after_line_skip _ [_; _])
    by (unfold app_ref_line, info_plist_line; fixed_lines_differ).
  rewrite after_line_skip
    by (apply tabbed_not_marker; [head_is_slash|exact Hfrl]).
  rewrite after_line_skip by (unfold file_ref_section_end; fixed_lines_differ).
  rewrite after_line_found by (vm_compute; reflexivity).
  rewrite before_line_found by (vm_compute; reflexivity).
  vm_compute. reflexivity.
Qed.

End GroupSection.

(** X5. The group section of the synthesized project never lists a source
    file: for every list of discovered files it consists of the main group
    alone, whose two children are the two identifiers minted for them. *)
Theorem group_section_ignores_files (urandom : nat -> N)
    (project_name bundle_id : str) (swift_files : list str) (st : nat) :
  one_line project_name ->
  Forall one_line swift_files ->
  exists out st',
    assemble_pbxproj urandom project_name bundle_id swift_files st
      = Ok (out, st')
    /\ section_lines "PBXGroup" out
       = [ tabs 2 ++ uuid_at urandom (st + 1) ++ txt " = {";
           L 3 "isa = PBXGroup;";
           L 3 "children = (";
           tabs 4 ++ uuid_at urandom (st + 2 * length swift_files + 7)
           ++ txt " /* " ++ project_name ++ txt " */,";
           tabs 4 ++ uuid_at urandom (st + 2 * length swift_files + 8)
           ++ txt " /* Products */,";
           L 3 ");";
           tabs 3 ++ txt "sourceTree = " ++ [dq] ++ txt "<group>" ++ [dq]
           ++ txt ";";
           L 2 "};" ].
Proof.
  intros Hname Hfiles. eexists _, _.
  split; [apply assemble_pbxproj_run|].
  unfold synth_lines.
  rewrite pbx_group_section.
  - reflexivity.
  - exact Hname.
  - intros k. apply uuid_at_token.
  - apply build_file_lines_tabbed; assumption.
  - apply file_ref_lines_tabbed; assumption.
  - apply source_lines_entry; assumption.
Qed.

Lemma group_section_ignores_files_witness :
  let files := [txt "A.swift"; txt "sub/B.swift"] in
  one_line (txt "Demo") /\ Forall one_line files /\
  exists out st',
    assemble_pbxproj sample_urandom (txt "Demo") (txt "com.demo.app") files 0
      = Ok (out, st')
    /\ section_lines "PBXGroup" out
       = [ tabs 2 ++ uuid_at sample_urandom (0 + 1) ++ txt " = {";
           L 3 "isa = PBXGroup;";
           L 3 "children = (";
           tabs 4 ++ uuid_at sample_urandom (0 + 2 * length files + 7)
           ++ txt " /* " ++ txt "Demo" ++ txt " */,";
           tabs 4 ++ uuid_at sample_urandom (0 + 2 * length files + 8)
           ++ txt " /* Products */,";
           L 3 ");";
           tabs 3 ++ txt "sourceTree = " ++ [dq] ++ txt "<group>" ++ [dq]
           ++ txt ";";
           L 2 "};" ].
Proof.
  assert (one_line (txt "Demo")) as Hname by compute_done.
  assert (Forall one_line [txt "A.swift"; txt "sub/B.swift"]) as Hfiles.
  { repeat constructor; compute_done. }
  split; [exact Hname|]. split; [exact Hfiles|].
  exact (group_section_ignores_files sample_urandom (txt "Demo")
           (txt "com.demo.app") _ 0 Hname Hfiles).
Defined.

(** ** Discovery *)

(** Induction over a directory tree with its sub-directories. *)
Lemma dir_tree_rect' (P : dir_tree -> Prop) :
  (forall files dirs, Forall (fun d => P (snd d)) dirs -> P (Dir files dirs)) ->
  forall t, P t.
Proof.
  intros H. fix IH 1. intros [files dirs]. apply H.
  induction dirs as [|[d sub] dirs IHd]; constructor.
  - apply IH.
  - exact IHd.
Qed.

Lemma endswith_app (rel file suffix : str) :
  endswith file suffix = true -> endswith (rel ++ file) suffix = true.
Proof.
  unfold endswith. intros H. apply andb_true_iff in H as [H1 H2].
  apply Nat.leb_le in H2. apply andb_true_iff. split.
  - rewrite length_app.
    replace (length rel + length file - length suffix)
      with (length rel + (length file - length suffix)) by lia.
    rewrite drop_app_add'; [exact H1 | reflexivity].
  - apply Nat.leb_le. rewrite length_app. lia.
Qed.

Lemma walk_swift_unfold (rel : str) (files : list str)
    (dirs : list (str * dir_tree)) :
  walk_swift rel (Dir files dirs)
  = map (fun file => rel ++ file)
        (filter (fun file => endswith file (txt ".swift") = true) files)
    ++ flat_map (fun d => walk_swift (rel ++ fst d ++ txt "/") (snd d)) dirs.
Proof.
  cbn [walk_swift]. f_equal.
  induction dirs as [|[d sub] dirs IH]; [reflexivity|].
  cbn [flat_map fst snd]. rewrite IH. reflexivity.
Qed.

(** X6. Discovery keeps nothing but Swift sources, as relative paths: every
    collected path ends in [.swift], and walking below a prefix gives the
    paths of the walk from the root with that prefix in front, in the same
    order. *)
Theorem walk_swift_paths (rel : str) (t : dir_tree) :
  Forall (fun p => endswith p (txt ".swift") = true) (walk_swift rel t)
  /\ walk_swift rel t = map (fun p => rel ++ p) (walk_swift [] t).
Proof.
  revert rel. induction t as [files dirs IH] using dir_tree_rect'.
  intros rel. rewrite !walk_swift_unfold. split.
  - apply Forall_app. split.
    + apply Forall_forall. intros p Hp.
      apply list_elem_of_In, in_map_iff in Hp as (file & <- & Hfile).
      apply list_elem_of_In, list_elem_of_filter in Hfile as [Hfile _].
      apply endswith_app, Hfile.
    + apply Forall_forall. intros p Hp.
      apply list_elem_of_In, in_flat_map in Hp as (d & Hd & Hp).
      rewrite Forall_forall in IH.
      destruct (IH d (proj2 (list_elem_of_In _ _) Hd) (rel ++ fst d ++ txt "/"))
        as [Hall _].
      rewrite Forall_forall in Hall. apply Hall, list_elem_of_In, Hp.
  - rewrite map_app, map_map. f_equal.
    induction dirs as [|d dirs IHd]; [reflexivity|].
    apply Forall_cons in IH as [Hd IH].
    cbn [flat_map]. rewrite map_app, (IHd IH). f_equal.
    rewrite (proj2 (Hd (rel ++ fst d ++ txt "/"))).
    rewrite (proj2 (Hd ([] ++ fst d ++ txt "/"))).
    rewrite map_map. apply map_ext. intros p.
    cbn [app]. rewrite <- !app_assoc. reflexivity.
Qed.

(** ** The scheme *)

Lemma scheme_lines_one_line (project_name b1 b2 b3 : str) :
  one_line project_name -> token b1 -> token b2 -> token b3 ->
  Forall one_line (scheme_lines project_name b1 b2 b3).
Proof.
  intros Hname H1 H2 H3. unfold scheme_lines, quoted.
  repeat (apply List.Forall_cons;
          [repeat (first [ apply one_line_app
                         | change (?c :: ?s ++ ?r) with ([c] ++ s ++ r) ]);
           first [ assumption
                 | apply token_one_line; assumption
                 | apply one_line_forallb; vm_compute; reflexivity ]|]).
  apply List.Forall_nil.
Qed.

(** X7. [generate_scheme] draws three identifiers and never fails; for a
    project name without a line feed, the scheme text has exactly three
    [BlueprintIdentifier] attributes, and they carry the three draws in
    order: each reference to the one target gets an identifier of its
    own. *)
Theorem generate_scheme_blueprints (urandom : nat -> N) (project_name : str)
    (st : nat) :
  one_line project_name ->
  exists text,
    generate_scheme urandom project_name st = Ok (text, st + 3)
    /\ attribute_lines "BlueprintIdentifier" text
       = [ txt "BlueprintIdentifier = " ++ quoted (uuid_at urandom st);
           txt "BlueprintIdentifier = " ++ quoted (uuid_at urandom (st + 1));
           txt "BlueprintIdentifier = " ++ quoted (uuid_at urandom (st + 2)) ].
Proof.
  intros Hname. eexists. split.
  - unfold generate_scheme. do 3 run_uuid. unfold ret.
    replace (S (S (S st))) with (st + 3) by lia. reflexivity.
  - replace (S st) with (st + 1) by lia.
    replace (S (st + 1)) with (st + 2) by lia.
    unfold attribute_lines.
    rewrite <- (app_nil_r (unlines _)), lines_unlines_app
      by (apply scheme_lines_one_line;
          [exact Hname | apply uuid_at_token ..]).
    cbn [lines]. rewrite app_nil_r.
    generalize (uuid_at urandom st) (uuid_at urandom (st + 1))
      (uuid_at urandom (st + 2)).
    intros b1 b2 b3. vm_compute. reflexivity.
Qed.

Lemma generate_scheme_blueprints_witness :
  one_line (txt "Demo")
  /\ exists text,
       generate_scheme sample_urandom (txt "Demo") 0 = Ok (text, 0 + 3)
       /\ attribute_lines "BlueprintIdentifier" text
          = [ txt "BlueprintIdentifier = " ++ quoted (uuid_at sample_urandom 0);
              txt "BlueprintIdentifier = "
              ++ quoted (uuid_at sample_urandom (0 + 1));
              txt "BlueprintIdentifier = "
              ++ quoted (uuid_at sample_urandom (0 + 2)) ].
Proof.
  assert (one_line (txt "Demo")) as Hname by compute_done.
  split; [exact Hname|].
  exact (generate_scheme_blueprints sample_urandom (txt "Demo") 0 Hname).
Defined.

(** ** The scripts in their environment *)

Lemma new_events_app (w : world) (evs : list io_event) (d : nat) :
  new_events w {| history := history w ++ evs; draws := d |} = evs.
Proof. unfold new_events. cbn [history]. apply drop_app_length. Qed.

Lemma new_events_history (w w' : world) (evs : list io_event) :
  history w' = history w ++ evs -> new_events w w' = evs.
Proof. unfold new_events. intros ->. apply drop_app_length. Qed.

Lemma last_snoc_event (h : list io_event) (ev : io_event) :
  last (h ++ [ev]) = Some ev.
Proof. apply last_snoc. Qed.

(** *** What a computation adds to the history *)

Section AddsOnly.

Variable Q : io_event -> Prop.

Lemma adds_only_ret {A} (a : A) : adds_only Q (io_ret a).
Proof. intros w. exists []. rewrite app_nil_r. split; [reflexivity|constructor]. Qed.

Lemma adds_only_raise {A} (f : failure) : adds_only Q (@io_raise A f).
Proof. intros w. exists []. rewrite app_nil_r. split; [reflexivity|constructor]. Qed.

Lemma adds_only_bind {A B} (m : IO A) (k : A -> IO B) :
  adds_only Q m -> (forall a, adds_only Q (k a)) -> adds_only Q (io_bind m k).
Proof.
  intros Hm Hk w. unfold io_bind. destruct (Hm w) as (evs & E & Hevs).
  destruct (m w) as [[a|f] w1]; cbn [snd] in *.
  - destruct (Hk a w1) as (evs' & E' & Hevs').
    exists (evs ++ evs'). rewrite E', E, app_assoc.
    split; [reflexivity|]. apply Forall_app. split; assumption.
  - exists evs. split; assumption.
Qed.

Lemma adds_only_try {A} (body handler : IO A) :
  adds_only Q body -> adds_only Q handler ->
  adds_only Q (try_except body handler).
Proof.
  intros Hb Hh w. unfold try_except. destruct (Hb w) as (evs & E & Hevs).
  destruct (body w) as [[a|f] w1]; cbn [snd] in *.
  - exists evs. split; assumption.
  - destruct (Hh w1) as (evs' & E' & Hevs').
    exists (evs ++ evs'). rewrite E', E, app_assoc.
    split; [reflexivity|]. apply Forall_app. split; assumption.
Qed.

Lemma adds_only_attempt (ev : io_event) (ok : world -> bool) :
  Q ev -> adds_only Q (fun w => attempt ev (ok w) w).
Proof.
  intros Hev w. exists [ev]. split; [reflexivity|].
  constructor; [exact Hev|constructor].
Qed.

Lemma adds_only_draw {A} (m : M A) : adds_only Q (draw m).
Proof.
  intros w. exists []. rewrite app_nil_r. split; [|constructor].
  unfold draw. destruct (m (draws w)) as [[a st]|e]; reflexivity.
Qed.

Lemma adds_only_run (env : environment) (argv : list str) :
  Q (Ev_run argv) -> adds_only Q (subprocess_run env argv).
Proof.
  intros Hev w. exists [Ev_run argv]. split; [|constructor; [exact Hev|constructor]].
  unfold subprocess_run. destruct (run_result env (history w) argv); reflexivity.
Qed.

Lemma adds_only_walk (env : environment) (top : str) :
  Q (Ev_walk top) -> adds_only Q (os_walk env top).
Proof.
  intros Hev w. exists [Ev_walk top].
  split; [reflexivity|constructor; [exact Hev|constructor]].
Qed.

End AddsOnly.

(** *** How a computation raises *)

Section RaisesOnly.

Variable Q : io_event -> Prop.

Lemma raises_only_ret {A} (a : A) : raises_only Q (io_ret a).
Proof. intros w f w' H. discriminate H. Qed.

Lemma raises_only_bind {A B} (m : IO A) (k : A -> IO B) :
  raises_only Q m -> (forall a, raises_only Q (k a)) ->
  raises_only Q (io_bind m k).
Proof.
  intros Hm Hk w f w'. unfold io_bind. specialize (Hm w).
  destruct (m w) as [[a|f0] w1].
  - apply Hk.
  - intros [= <- <-]. apply Hm. reflexivity.
Qed.

Lemma raises_only_try {A} (body handler : IO A) :
  raises_only Q handler -> raises_only Q (try_except body handler).
Proof.
  intros Hh w f w'. unfold try_except.
  destruct (body w) as [[a|f0] w1]; [discriminate|]. apply Hh.
Qed.

Lemma raises_only_attempt (ev : io_event) (ok : world -> bool) :
  Q ev -> raises_only Q (fun w => attempt ev (ok w) w).
Proof.
  intros Hev w f w'. unfold attempt. destruct (ok w); [discriminate|].
  intros [= <- <-]. exists ev. split; [reflexivity|].
  split; [apply last_snoc|exact Hev].
Qed.

Lemma raises_only_walk (env : environment) (top : str) :
  raises_only Q (os_walk env top).
Proof. intros w f w' H. discriminate H. Qed.

Lemma raises_only_draw {A} (m : M A) :
  (forall st, exists a st', m st = Ok (a, st')) -> raises_only Q (draw m).
Proof.
  intros Hm w f w'. unfold draw. destruct (Hm (draws w)) as (a & st' & ->).
  discriminate.
Qed.

End RaisesOnly.

Lemma generate_scheme_run (urandom : nat -> N) (project_name : str) (st : nat) :
  generate_scheme urandom project_name st
  = Ok (unlines (scheme_lines project_name (uuid_at urandom st)
                   (uuid_at urandom (st + 1)) (uuid_at urandom (st + 2))),
        st + 3).
Proof.
  unfold generate_scheme. do 3 run_uuid. unfold ret.
  replace (S st) with (st + 1) by lia.
  replace (S (st + 1)) with (st + 2) by lia.
  replace (S (st + 2)) with (st + 3) by lia. reflexivity.
Qed.

Section CreateProject.

Variable env : environment.
Variable urandom : nat -> N.
Variables (project_name bundle_id : str).

Lemma create_basic_project_adds (Q : io_event -> Prop) :
  (forall ev, is_remove ev = false ->
              match ev with Ev_run _ | Ev_read _ => False | _ => True end ->
              Q ev) ->
  adds_only Q (create_basic_project env urandom project_name bundle_id).
Proof.
  intros HQ. unfold create_basic_project, generate_project_pbxproj_in.
  repeat first
    [ apply adds_only_bind; [|intros ?]
    | apply adds_only_draw
    | apply adds_only_walk; apply HQ; [reflexivity|exact I]
    | apply (adds_only_attempt Q (Ev_print _)); apply HQ; [reflexivity|exact I]
    | apply (adds_only_attempt Q (Ev_makedirs _)); apply HQ; [reflexivity|exact I]
    | apply (adds_only_attempt Q (Ev_write _ _)); apply HQ; [reflexivity|exact I] ].
Qed.

Lemma create_basic_project_raises :
  raises_only basic_project_step
    (create_basic_project env urandom project_name bundle_id).
Proof.
  unfold create_basic_project, generate_project_pbxproj_in.
  repeat first
    [ apply raises_only_bind; [|intros ?]
    | apply raises_only_walk
    | apply raises_only_draw; intros st; eexists _, _;
      first [ apply assemble_pbxproj_run | apply generate_scheme_run ]
    | apply (raises_only_attempt basic_project_step (Ev_print _)); exact I
    | apply (raises_only_attempt basic_project_step (Ev_makedirs _)); exact I
    | apply (raises_only_attempt basic_project_step (Ev_write _ _)); exact I ].
Qed.

Lemma create_manual_project_adds (Q : io_event -> Prop) :
  (forall ev, is_remove ev = false ->
              match ev with Ev_read _ => False | _ => True end -> Q ev) ->
  adds_only Q (create_manual_project env urandom project_name bundle_id).
Proof.
  intros HQ. unfold create_manual_project.
  apply adds_only_bind.
  { apply (adds_only_attempt Q (Ev_print _)). apply HQ; [reflexivity|exact I]. }
  intros _. apply adds_only_try.
  - apply adds_only_bind.
    { apply adds_only_run. apply HQ; [reflexivity|exact I]. }
    intros returncode. destruct (negb (returncode =? 0)%Z).
    + apply create_basic_project_adds. intros ev H1 H2. apply HQ; [exact H1|].
      destruct ev; try exact I; contradiction.
    + apply adds_only_ret.
  - apply create_basic_project_adds. intros ev H1 H2. apply HQ; [exact H1|].
    destruct ev; try exact I; contradiction.
Qed.

Lemma create_manual_project_raises :
  raises_only basic_project_step
    (create_manual_project env urandom project_name bundle_id).
Proof.
  unfold create_manual_project. apply raises_only_bind.
  { apply (raises_only_attempt basic_project_step (Ev_print _)). exact I. }
  intros _. apply raises_only_try, create_basic_project_raises.
Qed.

End CreateProject.

(** ** [create_project] and its fallbacks *)

Section Fallback.

Variable env : environment.
Variable urandom : nat -> N.
Variables (project_name bundle_id : str).

(** The fallback starts by announcing itself and never deletes a file. *)
Lemma create_manual_project_events (w0 : world) :
  exists evs,
    history (snd (create_manual_project env urandom project_name bundle_id w0))
    = history w0 ++ Ev_print creating_manually :: evs
    /\ Forall (fun ev => is_remove ev = false) evs.
Proof.
  unfold create_manual_project, io_bind, print, attempt.
  destruct (print_ok env (history w0) creating_manually).
  - match goal with
    | |- context [try_except ?b ?h ?w] =>
        assert (adds_only (fun ev => is_remove ev = false) (try_except b h))
          as Hadds
    end.
    { apply adds_only_try.
      - apply adds_only_bind; [apply adds_only_run; reflexivity|].
        intros returncode. destruct (negb (returncode =? 0)%Z).
        + apply create_basic_project_adds. auto.
        + apply adds_only_ret.
      - apply create_basic_project_adds. auto. }
    destruct (Hadds (record (Ev_print creating_manually) w0))
      as (evs & E & Hevs).
    exists evs. rewrite E. cbn [record history]. rewrite <- app_assoc.
    split; [reflexivity|exact Hevs].
  - exists []. split; [reflexivity|constructor].
Qed.

Lemma fallback_events (w w0 : world) (pre : list io_event) :
  history w0 = history w ++ pre ->
  exists evs,
    new_events w
      (snd (create_manual_project env urandom project_name bundle_id w0))
    = pre ++ Ev_print creating_manually :: evs
    /\ Forall (fun ev => is_remove ev = false) evs.
Proof.
  intros Hpre. destruct (create_manual_project_events w0) as (evs & E & Hevs).
  exists evs. split; [|exact Hevs].
  apply new_events_history. rewrite E, Hpre, <- app_assoc. reflexivity.
Qed.





End Fallback.


Section CreateProjectOutcome.

Variable env : environment.
Variable urandom : nat -> N.
Variables (project_name bundle_id : str).

Lemma create_with_xcodegen_adds :
  adds_only (fun _ => True) (create_with_xcodegen env project_name bundle_id).
Proof.
  unfold create_with_xcodegen.
  apply adds_only_bind;
    [apply (adds_only_attempt _ (Ev_write _ _)); exact I|intros _].
  apply adds_only_bind; [apply adds_only_run; exact I|intros returncode].
  destruct (returncode =? 0)%Z; [|apply adds_only_raise].
  apply adds_only_bind;
    [apply (adds_only_attempt _ (Ev_print _)); exact I|intros _].
  apply (adds_only_attempt _ (Ev_remove _)). exact I.
Qed.

(** The [xcodegen] attempt draws no identifier, creates no directory and
    writes no file other than [project.yml]. *)
Lemma create_with_xcodegen_world (w : world) :
  exists r pre,
    create_with_xcodegen env project_name bundle_id w
    = (r, {| history := history w ++ pre; draws := draws w |})
    /\ Forall (fun ev => match ev with
                         | Ev_write path _ => path = txt "project.yml"
                         | Ev_makedirs _ => False
                         | _ => True
                         end) pre.
Proof.
  unfold create_with_xcodegen, io_bind, write_file, subprocess_run, print,
    os_remove, io_raise, attempt, record.
  destruct (write_ok env _ _ _); cbn [history draws];
    [destruct (run_result env _ _) as [c|]; cbn [history draws];
     [destruct (c =? 0)%Z; cbn [history draws];
      [destruct (print_ok env _ _); cbn [history draws];
       [destruct (remove_ok env _ _); cbn [history draws]|]|]|]|];
    rewrite <- ?app_assoc; eexists _, _;
    (split; [reflexivity|repeat constructor]).
Qed.

(** X9. No exception of the [xcodegen] attempt leaves [create_project].
    Whenever [create_project] raises, the fallback had been entered (its
    announcement is in the history), and the exception is the failure of
    the operation recorded last: a [print], an [os.makedirs] or the writing
    of a file.  It is never the "xcodegen failed" exception, a failure to
    start a child process, or a [KeyError] of the synthesizer. *)
Theorem create_project_raises (w w' : world) (f : failure) :
  create_project env urandom project_name bundle_id w = (Raised f, w') ->
  In (Ev_print creating_manually) (new_events w w')
  /\ exists ev,
       f = Env_error ev
       /\ last (history w') = Some ev
       /\ basic_project_step ev.
Proof.
  intros H. split.
  - unfold create_project, try_except in H.
    destruct (create_with_xcodegen_adds w) as (pre & Hpre & _).
    destruct (create_with_xcodegen env project_name bundle_id w)
      as [[[]|f0] w0]; [discriminate H|]. cbn [snd] in Hpre.
    destruct (fallback_events env urandom project_name bundle_id w w0 pre Hpre)
      as (evs & E & _).
    rewrite H in E. cbn [snd] in E. rewrite E.
    apply in_or_app. right. left. reflexivity.
  - revert H. apply raises_only_try, create_manual_project_raises.
Qed.

(** X10. When the [xcodegen] attempt fails, whatever the reason, and
    [xcrun swift package init] then exits with [0], [create_project] returns
    normally without having synthesized anything: it draws no identifier,
    creates no directory and writes no file other than [project.yml]. *)
Theorem create_project_without_project (w w1 : world) (f0 : failure) :
  create_with_xcodegen env project_name bundle_id w = (Raised f0, w1) ->
  print_ok env (history w1) creating_manually = true ->
  run_result env (history w1 ++ [Ev_print creating_manually])
    (swift_package_init project_name) = Some 0%Z ->
  exists w',
    create_project env urandom project_name bundle_id w = (Returned tt, w')
    /\ history w'
       = history w1 ++ [ Ev_print creating_manually;
                         Ev_run (swift_package_init project_name) ]
    /\ draws w' = draws w
    /\ Forall (fun ev => match ev with
                         | Ev_write path _ => path = txt "project.yml"
                         | Ev_makedirs _ => False
                         | _ => True
                         end) (new_events w w').
Proof.
  intros Hx Hp Hr.
  destruct (create_with_xcodegen_world w) as (r & pre & E & Hpre).
  rewrite Hx in E. injection E as _ ->. cbn [history] in Hp, Hr.
  unfold create_project, try_except. rewrite Hx.
  unfold create_manual_project, try_except, io_bind, print, subprocess_run,
    attempt, record.
  cbn [history draws]. rewrite Hp. cbn [history draws]. rewrite Hr.
  cbn [Z.eqb negb].
  unfold io_ret. eexists. split; [reflexivity|].
  cbn [history draws]. rewrite <- !app_assoc. cbn [app].
  split; [reflexivity|]. split; [reflexivity|].
  rewrite new_events_app. apply Forall_app. split; [exact Hpre|].
  repeat constructor.
Qed.

End CreateProjectOutcome.

Lemma create_project_raises_witness :
  create_project failing_env sample_urandom (txt "Demo") (txt "com.demo.app")
    fresh_world
  = (Raised (Env_error (Ev_print creating_manually)),
     {| history := [ Ev_write (txt "project.yml")
                       (unlines (project_spec (txt "Demo")
                                   (txt "com.demo.app")));
                     Ev_print creating_manually ];
        draws := 0 |})
  /\ In (Ev_print creating_manually)
        [ Ev_write (txt "project.yml")
            (unlines (project_spec (txt "Demo") (txt "com.demo.app")));
          Ev_print creating_manually ]
  /\ exists ev,
       Env_error (Ev_print creating_manually) = Env_error ev
       /\ Some (Ev_print creating_manually) = Some ev
       /\ basic_project_step ev.
Proof.
  assert (create_project failing_env sample_urandom (txt "Demo")
            (txt "com.demo.app") fresh_world
          = (Raised (Env_error (Ev_print creating_manually)),
             {| history := [ Ev_write (txt "project.yml")
                               (unlines (project_spec (txt "Demo")
                                           (txt "com.demo.app")));
                             Ev_print creating_manually ];
                draws := 0 |})) as E by reflexivity.
  split; [exact E|].
  exact (create_project_raises failing_env sample_urandom (txt "Demo")
           (txt "com.demo.app") fresh_world _ _ E).
Defined.

Lemma create_project_without_project_witness :
  let w1 := {| history := [ Ev_write (txt "project.yml")
                              (unlines (project_spec (txt "Demo")
                                          (txt "com.demo.app")));
                            Ev_run [txt "xcodegen"; txt "generate"] ];
               draws := 0 |} in
  create_with_xcodegen swift_only_env (txt "Demo") (txt "com.demo.app")
    fresh_world = (Raised Xcodegen_failed, w1)
  /\ print_ok swift_only_env (history w1) creating_manually = true
  /\ run_result swift_only_env (history w1 ++ [Ev_print creating_manually])
       (swift_package_init (txt "Demo")) = Some 0%Z
  /\ exists w',
       create_project swift_only_env sample_urandom (txt "Demo")
         (txt "com.demo.app") fresh_world = (Returned tt, w')
       /\ history w'
          = history w1 ++ [ Ev_print creating_manually;
                            Ev_run (swift_package_init (txt "Demo")) ]
       /\ draws w' = draws fresh_world
       /\ Forall (fun ev => match ev with
                            | Ev_write path _ => path = txt "project.yml"
                            | Ev_makedirs _ => False
                            | _ => True
                            end) (new_events fresh_world w').
Proof.
  cbv zeta.
  split; [reflexivity|]. split; [reflexivity|]. split; [reflexivity|].
  exact (create_project_without_project swift_only_env sample_urandom
           (txt "Demo") (txt "com.demo.app") fresh_world _ Xcodegen_failed
           eq_refl eq_refl eq_refl).
Defined.

Section BasicProject.

Variable env : environment.
Variable urandom : nat -> N.
Variables (project_name bundle_id : str).

Hypothesis Hprint : forall h text, print_ok env h text = true.
Hypothesis Hwrite : forall h path content, write_ok env h path content = true.

Let xcodeproj_dir : str := project_name ++ txt ".xcodeproj".

(** A run of [create_basic_project] in which every directory is created. *)
Lemma create_basic_project_done (w : world) :
  (forall h path, makedirs_ok env h path = true) ->
  let files :=
    walk_swift []
      (walk_result env (history w ++ [Ev_print creating_basic]) project_name) in
  let n := length files in
  create_basic_project env urandom project_name bundle_id w
  = (Returned tt,
     {| history :=
          history w
          ++ [ Ev_print creating_basic;
               Ev_walk project_name;
               Ev_makedirs xcodeproj_dir;
               Ev_write (xcodeproj_dir ++ txt "/project.pbxproj")
                 (unlines (synth_lines urandom project_name bundle_id files
                             (draws w)));
               Ev_makedirs (xcodeproj_dir ++ txt "/xcshareddata/xcschemes");
               Ev_makedirs (xcodeproj_dir ++ txt "/xcuserdata");
               Ev_write
                 (xcodeproj_dir ++ txt "/xcshareddata/xcschemes/"
                  ++ project_name ++ txt ".xcscheme")
                 (unlines
                    (scheme_lines project_name
                       (uuid_at urandom (draws w + 2 * n + 18))
                       (uuid_at urandom (draws w + 2 * n + 19))
                       (uuid_at urandom (draws w + 2 * n + 20)))) ];
        draws := draws w + 2 * n + 21 |}).
Proof.
  intros Hdirs files n.
  unfold create_basic_project, generate_project_pbxproj_in, io_bind, print,
    os_walk, os_makedirs, write_file, attempt, draw, record,
    generate_project_pbxproj.
  fold xcodeproj_dir.
  rewrite Hprint. cbn [history draws]. fold files.
  rewrite assemble_pbxproj_run. fold n. cbn [history draws].
  rewrite ?Hdirs, ?Hwrite. cbn [history draws].
  rewrite generate_scheme_run. cbn [history draws].
  rewrite ?Hdirs, ?Hwrite. cbn [history draws].
  rewrite <- !app_assoc. cbn [app].
  replace (draws w + 2 * n + 18 + 1) with (draws w + 2 * n + 19) by lia.
  replace (draws w + 2 * n + 18 + 2) with (draws w + 2 * n + 20) by lia.
  replace (draws w + 2 * n + 18 + 3) with (draws w + 2 * n + 21) by lia.
  reflexivity.
Qed.

(** A run of [create_basic_project] in which no directory can be created. *)
Lemma create_basic_project_no_dir (w : world) :
  (forall h path, makedirs_ok env h path = false) ->
  let n :=
    length (walk_swift []
              (walk_result env (history w ++ [Ev_print creating_basic])
                 project_name)) in
  create_basic_project env urandom project_name bundle_id w
  = (Raised (Env_error (Ev_makedirs xcodeproj_dir)),
     {| history := history w ++ [ Ev_print creating_basic;
                                  Ev_walk project_name;
                                  Ev_makedirs xcodeproj_dir ];
        draws := draws w + 2 * n + 18 |}).
Proof.
  intros Hdirs n.
  unfold create_basic_project, generate_project_pbxproj_in, io_bind, print,
    os_walk, os_makedirs, write_file, attempt, draw, record,
    generate_project_pbxproj.
  fold xcodeproj_dir.
  rewrite Hprint. cbn [history draws].
  rewrite assemble_pbxproj_run. fold n. cbn [history draws].
  rewrite Hdirs. cbn [history draws].
  rewrite <- !app_assoc. reflexivity.
Qed.

Hypothesis Hxcodegen :
  forall h, run_result env h [txt "xcodegen"; txt "generate"] <> Some 0%Z.

Lemma create_with_xcodegen_fails (w : world) :
  exists f,
    create_with_xcodegen env project_name bundle_id w
    = (Raised f,
       {| history :=
            history w
            ++ [ Ev_write (txt "project.yml")
                   (unlines (project_spec project_name bundle_id));
                 Ev_run [txt "xcodegen"; txt "generate"] ];
          draws := draws w |}).
Proof.
  unfold create_with_xcodegen, io_bind, write_file, subprocess_run, io_raise,
    attempt, record.
  rewrite Hwrite. cbn [history draws].
  pose proof (Hxcodegen
                (history w
                 ++ [Ev_write (txt "project.yml")
                       (unlines (project_spec project_name bundle_id))]))
    as Hne.
  destruct (run_result env _ [txt "xcodegen"; txt "generate"]) as [c|];
    cbn [history draws].
  - destruct (c =? 0)%Z eqn:Hc.
    + apply Z.eqb_eq in Hc as ->. contradiction.
    + rewrite <- !app_assoc. eexists. reflexivity.
  - rewrite <- !app_assoc. eexists. reflexivity.
Qed.

(** X11. On a machine where [xcodegen] does not succeed and
    [swift package init] does not exit with [0], and where printing,
    creating directories and writing files work, [create_project] returns
    after these events, in this order: [project.yml] is written (and stays),
    the two tools are tried, the tree is walked, and the project file and
    the scheme are written below [<name>.xcodeproj].  The project file is
    the text of [generate_project_pbxproj] for the files found; the scheme
    carries the three draws that follow the [2 n + 18] draws of the project
    file, so none of its blueprint identifiers is the draw that names the
    target (the third of the run). *)
Theorem create_project_fallback_output (w : world) :
  (forall h, run_result env h (swift_package_init project_name) <> Some 0%Z) ->
  (forall h path, makedirs_ok env h path = true) ->
  let tools :=
    [ Ev_write (txt "project.yml")
        (unlines (project_spec project_name bundle_id));
      Ev_run [txt "xcodegen"; txt "generate"];
      Ev_print creating_manually;
      Ev_run (swift_package_init project_name) ] in
  let files :=
    walk_swift []
      (walk_result env (history w ++ tools ++ [Ev_print creating_basic])
         project_name) in
  let n := length files in
  create_project env urandom project_name bundle_id w
  = (Returned tt,
     {| history :=
          history w ++ tools
          ++ [ Ev_print creating_basic;
               Ev_walk project_name;
               Ev_makedirs xcodeproj_dir;
               Ev_write (xcodeproj_dir ++ txt "/project.pbxproj")
                 (unlines (synth_lines urandom project_name bundle_id files
                             (draws w)));
               Ev_makedirs (xcodeproj_dir ++ txt "/xcshareddata/xcschemes");
               Ev_makedirs (xcodeproj_dir ++ txt "/xcuserdata");
               Ev_write
                 (xcodeproj_dir ++ txt "/xcshareddata/xcschemes/"
                  ++ project_name ++ txt ".xcscheme")
                 (unlines
                    (scheme_lines project_name
                       (uuid_at urandom (draws w + 2 * n + 18))
                       (uuid_at urandom (draws w + 2 * n + 19))
                       (uuid_at urandom (draws w + 2 * n + 20)))) ];
        draws := draws w + 2 * n + 21 |}).
Proof.
  intros Hinit Hdirs tools files n.
  destruct (create_with_xcodegen_fails w) as (f & Ex).
  unfold create_project, try_except. rewrite Ex.
  unfold create_manual_project, io_bind, print, attempt, record.
  rewrite Hprint. cbn [history draws].
  set (w3 := {| history := _; draws := draws w |}).
  assert (history w3 ++ [Ev_run (swift_package_init project_name)]
          = history w ++ tools) as Hh.
  { subst w3 tools. cbn [history]. rewrite <- !app_assoc. reflexivity. }
  pose proof (Hinit (history w3)) as Hne.
  unfold try_except, io_bind, subprocess_run, record.
  destruct (run_result env (history w3) (swift_package_init project_name))
    as [c|].
  - destruct (c =? 0)%Z eqn:Hc.
    + apply Z.eqb_eq in Hc as ->. contradiction.
    + cbn [negb]. rewrite create_basic_project_done by exact Hdirs.
      cbn [history draws]. rewrite Hh, <- !app_assoc. reflexivity.
  - rewrite create_basic_project_done by exact Hdirs.
    cbn [history draws]. rewrite Hh, <- !app_assoc. reflexivity.
Qed.

(** X12. A non-zero exit code of [swift package init] makes the script run
    [create_basic_project] twice when the first run raises: the call inside
    the [try] block raises, and the [except] clause calls it again.  Where
    no directory can be created, the tree is walked twice, two sets of
    identifiers are drawn, and the exception of the second run leaves
    [create_project]. *)
Theorem create_basic_project_twice (w : world) (code : Z) :
  code <> 0%Z ->
  (forall h, run_result env h (swift_package_init project_name) = Some code) ->
  (forall h path, makedirs_ok env h path = false) ->
  let tools :=
    [ Ev_write (txt "project.yml")
        (unlines (project_spec project_name bundle_id));
      Ev_run [txt "xcodegen"; txt "generate"];
      Ev_print creating_manually;
      Ev_run (swift_package_init project_name) ] in
  let attempt_events :=
    [ Ev_print creating_basic; Ev_walk project_name;
      Ev_makedirs xcodeproj_dir ] in
  let n1 :=
    length (walk_swift []
              (walk_result env (history w ++ tools ++ [Ev_print creating_basic])
                 project_name)) in
  let n2 :=
    length (walk_swift []
              (walk_result env
                 (history w ++ tools ++ attempt_events
                  ++ [Ev_print creating_basic])
                 project_name)) in
  create_project env urandom project_name bundle_id w
  = (Raised (Env_error (Ev_makedirs xcodeproj_dir)),
     {| history := history w ++ tools ++ attempt_events ++ attempt_events;
        draws := draws w + 2 * n1 + 18 + 2 * n2 + 18 |}).
Proof.
  intros Hcode Hinit Hdirs tools attempt_events n1 n2.
  destruct (create_with_xcodegen_fails w) as (f & Ex).
  unfold create_project, try_except. rewrite Ex.
  unfold create_manual_project, io_bind, print, attempt, record.
  rewrite Hprint. cbn [history draws].
  unfold try_except, io_bind, subprocess_run, record.
  rewrite Hinit. cbn [history draws].
  apply Z.eqb_neq in Hcode. rewrite Hcode. cbn [negb].
  rewrite create_basic_project_no_dir by exact Hdirs.
  rewrite create_basic_project_no_dir by exact Hdirs.
  cbn [history draws]. subst n1 n2 tools attempt_events.
  rewrite <- !app_assoc. cbn [app]. reflexivity.
Qed.

End BasicProject.

Lemma create_project_fallback_output_witness :
  let env := no_tools_env None true in
  (forall h text, print_ok env h text = true)
  /\ (forall h path content, write_ok env h path content = true)
  /\ (forall h, run_result env h [txt "xcodegen"; txt "generate"] <> Some 0%Z)
  /\ (forall h, run_result env h (swift_package_init (txt "Demo"))
                <> Some 0%Z)
  /\ (forall h path, makedirs_ok env h path = true)
  /\ fst (create_project env sample_urandom (txt "Demo") (txt "com.demo.app")
            fresh_world) = Returned tt
  /\ draws (snd (create_project env sample_urandom (txt "Demo")
                   (txt "com.demo.app") fresh_world)) = 25.
Proof.
  cbv zeta.
  assert (forall h text, print_ok (no_tools_env None true) h text = true)
    as Hp by reflexivity.
  assert (forall h path content,
            write_ok (no_tools_env None true) h path content = true)
    as Hw by reflexivity.
  assert (forall h, run_result (no_tools_env None true) h
                      [txt "xcodegen"; txt "generate"] <> Some 0%Z)
    as Hx by discriminate.
  assert (forall h, run_result (no_tools_env None true) h
                      (swift_package_init (txt "Demo")) <> Some 0%Z)
    as Hi by discriminate.
  assert (forall h path, makedirs_ok (no_tools_env None true) h path = true)
    as Hd by reflexivity.
  split; [exact Hp|]. split; [exact Hw|]. split; [exact Hx|].
  split; [exact Hi|]. split; [exact Hd|].
  rewrite (create_project_fallback_output (no_tools_env None true)
             sample_urandom (txt "Demo") (txt "com.demo.app") Hp Hw Hx
             fresh_world Hi Hd).
  split; reflexivity.
Defined.

Lemma create_basic_project_twice_witness :
  let env := no_tools_env (Some 1%Z) false in
  (forall h text, print_ok env h text = true)
  /\ (forall h path content, write_ok env h path content = true)
  /\ (forall h, run_result env h [txt "xcodegen"; txt "generate"] <> Some 0%Z)
  /\ 1%Z <> 0%Z
  /\ (forall h, run_result env h (swift_package_init (txt "Demo"))
                = Some 1%Z)
  /\ (forall h path, makedirs_ok env h path = false)
  /\ fst (create_project env sample_urandom (txt "Demo") (txt "com.demo.app")
            fresh_world)
     = Raised (Env_error (Ev_makedirs (txt "Demo" ++ txt ".xcodeproj")))
  /\ draws (snd (create_project env sample_urandom (txt "Demo")
                   (txt "com.demo.app") fresh_world)) = 44.
Proof.
  cbv zeta.
  assert (forall h text, print_ok (no_tools_env (Some 1%Z) false) h text = true)
    as Hp by reflexivity.
  assert (forall h path content,
            write_ok (no_tools_env (Some 1%Z) false) h path content = true)
    as Hw by reflexivity.
  assert (forall h, run_result (no_tools_env (Some 1%Z) false) h
                      [txt "xcodegen"; txt "generate"] <> Some 0%Z)
    as Hx by discriminate.
  assert (1%Z <> 0%Z) as Hc by discriminate.
  assert (forall h, run_result (no_tools_env (Some 1%Z) false) h
                      (swift_package_init (txt "Demo")) = Some 1%Z)
    as Hi by reflexivity.
  assert (forall h path,
            makedirs_ok (no_tools_env (Some 1%Z) false) h path = false)
    as Hd by reflexivity.
  split; [exact Hp|]. split; [exact Hw|]. split; [exact Hx|].
  split; [exact Hc|]. split; [exact Hi|]. split; [exact Hd|].
  rewrite (create_basic_project_twice (no_tools_env (Some 1%Z) false)
             sample_urandom (txt "Demo") (txt "com.demo.app") Hp Hw Hx
             fresh_world 1%Z Hc Hi Hd).
  split; reflexivity.
Defined.

(** ** The patcher as a whole *)

Lemma print_run (env : environment) (text : str) (w : world) :
  print env text w
  = (if print_ok env (history w) text then Returned tt
     else Raised (Env_error (Ev_print text)),
     {| history := history w ++ [Ev_print text]; draws := draws w |}).
Proof. reflexivity. Qed.

Lemma io_for_each_prints (env : environment) (files : list file_info)
    (w : world) :
  exists r rest,
    io_for_each files
      (fun file_info => print env (txt "  - " ++ name file_info)) w
    = (r, {| history := history w ++ rest; draws := draws w |})
    /\ Forall (fun ev => is_print ev = true) rest.
Proof.
  revert w. induction files as [|fi files IH]; intros w.
  - exists (Returned tt), []. rewrite app_nil_r. destruct w.
    split; [reflexivity|constructor].
  - cbn [io_for_each]. unfold io_bind. rewrite print_run.
    destruct (print_ok env (history w) (txt "  - " ++ name fi)).
    + destruct (IH {| history := history w ++ [Ev_print (txt "  - " ++ name fi)];
                      draws := draws w |}) as (r & rest & E & Hrest).
      rewrite E. cbn [history draws]. rewrite <- app_assoc.
      eexists _, _. split; [reflexivity|].
      constructor; [reflexivity|exact Hrest].
    + eexists _, _. split; [reflexivity|]. repeat constructor.
Qed.

(** X13. The patcher reads the project file, and when that fails it raises
    the error of the read, draws no identifier and writes nothing.
    Otherwise it always draws ten identifiers and tries to write, to the
    path it read and before anything is printed, a text of which the text
    read is a subsequence; every later event is a [print].  A run that is
    interrupted after the write leaves the file patched. *)
Theorem add_autonomous_files_main_effect (env : environment)
    (urandom : nat -> N) (w : world) :
  match read_result env (history w) project_file with
  | None =>
      add_autonomous_files_main env urandom w
      = (Raised (Env_error (Ev_read project_file)),
         {| history := history w ++ [Ev_read project_file];
            draws := draws w |})
  | Some content =>
      exists out r rest,
        add_files_to_xcode_project urandom content (draws w)
        = Ok (out, draws w + 10)
        /\ sublist content out
        /\ add_autonomous_files_main env urandom w
           = (r, {| history := history w
                               ++ [ Ev_read project_file;
                                    Ev_write project_file out ] ++ rest;
                    draws := draws w + 10 |})
        /\ Forall (fun ev => is_print ev = true) rest
  end.
Proof.
  unfold add_autonomous_files_main, io_bind, read_file, record.
  destruct (read_result env (history w) project_file) as [content|];
    [|reflexivity].
  destruct (patch_text_insert_only urandom files_to_add (draws w)
              (draws w + 10) _ _ files_to_add_plain
              (mint_ids_run urandom files_to_add (draws w)) content)
    as (out & Hout & Hsub).
  exists out.
  unfold draw. cbn [history draws].
  unfold add_files_to_xcode_project. rewrite Hout. cbn [history draws].
  unfold write_file, attempt, record. cbn [history draws].
  destruct (write_ok env _ project_file out).
  - rewrite (print_run env files_added). cbn [history draws].
    destruct (print_ok env _ files_added); cbn [history draws].
    + rewrite (print_run env added_files_heading). cbn [history draws].
      destruct (print_ok env _ added_files_heading); cbn [history draws].
      * match goal with
        | |- context [io_for_each _ _ ?w0] =>
            destruct (io_for_each_prints env files_to_add w0)
              as (r & rest & E & Hrest)
        end.
        rewrite E. cbn [history draws]. rewrite <- !app_assoc. cbn [app].
        exists r, (Ev_print files_added :: Ev_print added_files_heading :: rest).
        split; [reflexivity|]. split; [exact Hsub|].
        split; [reflexivity|]. repeat constructor. exact Hrest.
      * rewrite <- !app_assoc. cbn [app]. eexists _, [_; _].
        split; [reflexivity|]. split; [exact Hsub|].
        split; [reflexivity|]. repeat constructor.
    + rewrite <- !app_assoc. cbn [app]. eexists _, [_].
      split; [reflexivity|]. split; [exact Hsub|].
      split; [reflexivity|]. repeat constructor.
  - rewrite <- !app_assoc. cbn [app]. eexists _, [].
    split; [reflexivity|]. split; [exact Hsub|].
    split; [reflexivity|]. constructor.
Qed.

(** ** Where the patcher inserts *)

Lemma strip_prefix_take (p s : str) :
  is_Some (strip_prefix p s) <-> take (length p) s = p.
Proof.
  split.
  - intros [r E]. apply strip_prefix_Some in E. subst s.
    apply take_app_length.
  - intros E. exists (drop (length p) s). apply strip_prefix_Some.
    rewrite <- E at 1. symmetry. apply take_drop.
Qed.

(** An occurrence that starts inside [a] ends before the last character of
    a following [sub0 ++ [z]]. *)
Lemma no_early_occurrence (sub0 : str) (z : ascii) (a rest : str) (i : nat) :
  contains (sub0 ++ [z]) (a ++ sub0) = false ->
  i < length a ->
  strip_prefix (sub0 ++ [z]) (drop i (a ++ (sub0 ++ [z]) ++ rest)) = None.
Proof.
  revert i. induction a as [|c a IH]; intros i Hc Hi; [cbn [length] in Hi; lia|].
  cbn [app] in Hc. apply contains_cons_false in Hc as [Hhere Hc].
  destruct i as [|i].
  - rewrite drop_0.
    destruct (strip_prefix (sub0 ++ [z]) ((c :: a) ++ (sub0 ++ [z]) ++ rest))
      as [r|] eqn:E; [|reflexivity].
    exfalso.
    assert (is_Some (strip_prefix (sub0 ++ [z]) (c :: a ++ sub0))) as [r' E'].
    { apply strip_prefix_take.
      assert (is_Some (strip_prefix (sub0 ++ [z])
                         ((c :: a) ++ (sub0 ++ [z]) ++ rest))) as Hs
        by (rewrite E; eauto).
      apply strip_prefix_take in Hs.
      assert (take (length (sub0 ++ [z])) (c :: a ++ sub0)
              = take (length (sub0 ++ [z]))
                  ((c :: a) ++ (sub0 ++ [z]) ++ rest)) as Ht.
      { rewrite <- (app_assoc sub0 [z] rest), (app_assoc (c :: a) sub0).
        symmetry. apply take_app_le.
        rewrite !length_app. cbn [length]. rewrite length_app. lia. }
      rewrite Ht. exact Hs. }
    rewrite Hhere in E'. discriminate E'.
  - cbn [drop app]. apply IH; [exact Hc|cbn [length] in Hi; lia].
Qed.

Lemma first_match_here (at_start : str -> option (str * str))
    (b t m x : str) :
  (forall i, i < length b -> at_start (drop i (b ++ t)) = None) ->
  at_start t = Some (m, x) ->
  first_match at_start (b ++ t) = Some (b, m, x).
Proof.
  induction b as [|c b IH]; intros Hb Ht.
  - cbn [app first_match]. destruct t; cbn [first_match]; rewrite Ht;
      reflexivity.
  - cbn [app first_match].
    pose proof (Hb 0 ltac:(cbn [length]; lia)) as H0.
    rewrite drop_0 in H0. cbn [app] in H0. rewrite H0.
    rewrite IH; [reflexivity| |exact Ht].
    intros i Hi. exact (Hb (S i) ltac:(cbn [length]; lia)).
Qed.

Lemma take_while_b_stop (p : ascii -> bool) (l : str) (x : ascii) (r : str) :
  p x = false -> take_while_b p (l ++ x :: r) = take_while_b p l.
Proof.
  intros Hx. induction l as [|c l IH]; cbn [app take_while_b].
  - rewrite Hx. reflexivity.
  - destruct (p c); [rewrite IH|]; reflexivity.
Qed.

Lemma drop_while_b_stop (p : ascii -> bool) (l : str) (x : ascii) (r : str) :
  p x = false -> drop_while_b p (l ++ x :: r) = drop_while_b p l ++ x :: r.
Proof.
  intros Hx. induction l as [|c l IH]; cbn [app drop_while_b].
  - rewrite Hx. reflexivity.
  - destruct (p c); [exact IH|reflexivity].
Qed.

Lemma take_while_b_all (p : ascii -> bool) (l : str) :
  forallb p l = true -> take_while_b p l = l /\ drop_while_b p l = [].
Proof.
  induction l as [|c l IH]; [split; reflexivity|]. cbn [forallb].
  intros H. apply andb_true_iff in H as [Hc Hl].
  cbn [take_while_b drop_while_b]. rewrite Hc.
  destruct (IH Hl) as [-> ->]. split; reflexivity.
Qed.

Lemma forallb_drop_while_b (p q : ascii -> bool) (l : str) :
  forallb q l = true -> forallb q (drop_while_b p l) = true.
Proof.
  induction l as [|c l IH]; [reflexivity|]. cbn [forallb drop_while_b].
  intros H. apply andb_true_iff in H as [Hc Hl].
  destruct (p c); [apply IH, Hl|].
  cbn [forallb]. rewrite Hc, Hl. reflexivity.
Qed.

(** A well-formed list: entries without [';'], closed by [");"]. *)
Lemma list_opening_at_closed_list (opening body rest : str) :
  forallb not_semicolon body = true ->
  exists more rest',
    rest = more ++ rest'
    /\ list_opening_at opening (opening ++ body ++ txt ");" ++ rest)
       = Some (opening ++ body ++ txt ");" ++ more, rest').
Proof.
  intros Hbody. unfold list_opening_at. rewrite strip_prefix_app.
  set (s' := body ++ txt ");" ++ rest).
  change (txt ");") with [")"%char; ";"%char] in *.
  assert (is_space ")" = false) as Hsp by reflexivity.
  assert (take_while_b is_space s' = take_while_b is_space body) as Ews.
  { subst s'. cbn [app]. apply take_while_b_stop, Hsp. }
  assert (drop_while_b is_space s'
          = (drop_while_b is_space body ++ [")"%char]) ++ ";"%char :: rest)
    as Eds.
  { subst s'. cbn [app]. rewrite drop_while_b_stop by exact Hsp.
    rewrite <- app_assoc. reflexivity. }
  rewrite Ews, Eds.
  remember (drop_while_b is_space body ++ [")"%char]) as chunk eqn:Echunk.
  assert (forallb not_semicolon chunk = true) as Hchunk.
  { subst chunk. rewrite forallb_app.
    rewrite (forallb_drop_while_b is_space not_semicolon body Hbody).
    reflexivity. }
  destruct (length s') as [|fuel] eqn:Hfuel.
  { exfalso. subst s'. rewrite length_app in Hfuel. cbn [length app] in Hfuel.
    lia. }
  cbn [scan_entries].
  rewrite (take_while_b_stop not_semicolon chunk ";" rest eq_refl).
  rewrite (drop_while_b_stop not_semicolon chunk ";" rest eq_refl).
  destruct (take_while_b_all not_semicolon chunk Hchunk) as [-> ->].
  destruct chunk as [|c0 chunk0].
  { destruct (drop_while_b is_space body); discriminate Echunk. }
  cbn [app fst snd].
  set (er := scan_entries fuel (drop_while_b is_space rest)).
  exists (take_while_b is_space rest ++ fst er), (snd er).
  split.
  - rewrite <- app_assoc. subst er. rewrite scan_entries_split.
    symmetry. apply take_drop_while_b.
  - f_equal. f_equal. f_equal.
    rewrite <- (take_drop_while_b is_space body) at 2.
    change (c0 :: chunk0 ++ ?x) with ((c0 :: chunk0) ++ x).
    rewrite Echunk, <- !app_assoc. reflexivity.
Qed.

Section InsertionPoints.

Variable urandom : nat -> N.
Variables (files : list file_info) (st0 st1 : nat).
Variables (file_refs build_files : gmap str str).

Hypothesis Hplain : plain_names files.
Hypothesis Hmint :
  mint_ids urandom files st0 = Ok ((file_refs, build_files), st1).

(** X14. Where the first [files = (] of the text opens a well-formed list
    (entries without a semicolon, closed by [");"]), the sources loop puts
    the new entry behind the closing [");"] of that list, never between its
    parentheses: the pattern takes the list, its closing and possibly more
    of the text as one entry. *)
Theorem sources_entry_behind_closed_list (file_info : file_info)
    (before body rest : str) (st : nat) :
  In file_info files ->
  contains (txt "files = (") (before ++ txt "files = ") = false ->
  forallb not_semicolon body = true ->
  exists more rest',
    rest = more ++ rest'
    /\ insert_source build_files
         (before ++ txt "files = (" ++ body ++ txt ");" ++ rest) file_info st
       = Ok (before ++ txt "files = (" ++ body ++ txt ");" ++ more
             ++ patch_sources_line (dict_value build_files (name file_info))
                  (name file_info)
             ++ nl :: rest', st).
Proof.
  intros Hfi Hfirst Hbody.
  destruct (list_opening_at_closed_list (txt "files = (") body rest Hbody)
    as (more & rest' & Hrest & Hat).
  exists more, rest'. split; [exact Hrest|].
  rewrite (insert_source_run urandom files st0 st1 file_refs build_files
             Hplain Hmint file_info _ st Hfi).
  unfold insert_after_first.
  rewrite (first_match_here (list_opening_at (txt "files = (")) before
             (txt "files = (" ++ body ++ txt ");" ++ rest)
             (txt "files = (" ++ body ++ txt ");" ++ more) rest');
    [| |exact Hat].
  - rewrite <- !app_assoc. reflexivity.
  - intros i Hi. apply list_opening_at_None.
    apply (no_early_occurrence (txt "files = ") "(" before _ i Hfirst Hi).
Qed.

End InsertionPoints.

Lemma sources_entry_behind_closed_list_witness :
  let file_info := {| name := txt "AutonomousSystemManager.swift";
                      path := txt "SignalAir/Core/Services/AutonomousSystemManager.swift" |} in
  let body := nl :: tabs 4 ++ txt "AA01 /* App.swift in Sources */," ++ nl :: tabs 3 in
  plain_names files_to_add
  /\ mint_ids sample_urandom files_to_add 0
     = Ok ((fst sample_ids, snd sample_ids), 10)
  /\ In file_info files_to_add
  /\ contains (txt "files = (") (tabs 3 ++ txt "files = ") = false
  /\ forallb not_semicolon body = true
  /\ exists more rest',
       nl :: tabs 2 ++ txt "};" ++ [nl] = more ++ rest'
       /\ insert_source (snd sample_ids)
            (tabs 3 ++ txt "files = (" ++ body ++ txt ");"
             ++ nl :: tabs 2 ++ txt "};" ++ [nl]) file_info 0
          = Ok (tabs 3 ++ txt "files = (" ++ body ++ txt ");" ++ more
                ++ patch_sources_line
                     (dict_value (snd sample_ids) (name file_info))
                     (name file_info)
                ++ nl :: rest', 0).
Proof.
  cbv zeta.
  split; [exact files_to_add_plain|]. split; [exact sample_mint|].
  assert (In {| name := txt "AutonomousSystemManager.swift";
                path := txt "SignalAir/Core/Services/AutonomousSystemManager.swift" |}
             files_to_add) as Hin by (left; reflexivity).
  split; [exact Hin|].
  assert (contains (txt "files = (") (tabs 3 ++ txt "files = ") = false)
    as Hfirst by (vm_compute; reflexivity).
  split; [exact Hfirst|].
  assert (forallb not_semicolon
            (nl :: tabs 4 ++ txt "AA01 /* App.swift in Sources */,"
             ++ nl :: tabs 3) = true) as Hbody by (vm_compute; reflexivity).
  split; [exact Hbody|].
  exact (sources_entry_behind_closed_list sample_urandom files_to_add 0 10
           (fst sample_ids) (snd sample_ids) files_to_add_plain sample_mint
           _ (tabs 3) _ (nl :: tabs 2 ++ txt "};" ++ [nl]) 0 Hin Hfirst Hbody).
Defined.

Lemma replace_snoc (sub0 : str) (z : ascii) (new s : str) :
  replace (sub0 ++ [z]) new s = replace_from (length s) (sub0 ++ [z]) new s.
Proof. destruct sub0; reflexivity. Qed.

Lemma replace_from_first (sub0 : str) (z : ascii) (new b : str) :
  forall a fuel,
    contains (sub0 ++ [z]) (a ++ sub0) = false ->
    length (a ++ (sub0 ++ [z]) ++ b) <= fuel ->
    replace_from fuel (sub0 ++ [z]) new (a ++ (sub0 ++ [z]) ++ b)
    = a ++ new ++ replace_from (length b) (sub0 ++ [z]) new b.
Proof.
  assert (sub0 ++ [z] <> []) as Hold by (destruct sub0; discriminate).
  induction a as [|c a IH]; intros fuel Hc Hfuel.
  - cbn [app] in *. destruct fuel as [|fuel].
    { rewrite !length_app in Hfuel. cbn [length] in Hfuel. lia. }
    cbn [replace_from]. rewrite strip_prefix_app. f_equal.
    apply replace_from_fuel; [exact Hold| |lia].
    rewrite !length_app in Hfuel. cbn [length] in Hfuel. lia.
  - destruct fuel as [|fuel]; [cbn [length app] in Hfuel; lia|].
    pose proof (no_early_occurrence sub0 z (c :: a) b 0 Hc
                  ltac:(cbn [length]; lia)) as Hnone.
    rewrite drop_0 in Hnone. cbn [replace_from]. rewrite Hnone.
    cbn [app]. f_equal. apply IH.
    + cbn [app] in Hc. apply contains_cons_false in Hc as [_ Hc]. exact Hc.
    + cbn [length app] in Hfuel. lia.
Qed.

Lemma replace_first (sub0 : str) (z : ascii) (new a b : str) :
  contains (sub0 ++ [z]) (a ++ sub0) = false ->
  replace (sub0 ++ [z]) new (a ++ (sub0 ++ [z]) ++ b)
  = a ++ new ++ replace (sub0 ++ [z]) new b.
Proof.
  intros Hc. rewrite !replace_snoc. apply replace_from_first; [exact Hc|].
  reflexivity.
Qed.

Section EveryMarker.

Variable urandom : nat -> N.
Variables (files : list file_info) (st0 st1 : nat).
Variables (file_refs build_files : gmap str str).

Hypothesis Hmint :
  mint_ids urandom files st0 = Ok ((file_refs, build_files), st1).

(** X15. The file-reference and the build-file lines are inserted before
    every occurrence of their end marker, not only before the first one
    ([str.replace] has no count): the text up to and including the first
    occurrence gets the lines, and the rest of the text is treated in the
    same way. *)
Theorem lines_before_every_marker (st : nat) :
  (forall a b,
     contains file_ref_section
       (a ++ txt "/* End PBXFileReference section *") = false ->
     exists out,
       insert_file_refs files file_refs b st = Ok (out, st)
       /\ insert_file_refs files file_refs (a ++ file_ref_section ++ b) st
          = Ok (a ++ (join [nl]
                        (map (fun fi => patch_file_ref_line
                                          (dict_value file_refs (name fi))
                                          (name fi)) files) ++ [nl])
                ++ file_ref_section ++ out, st))
  /\ (forall a b,
        contains build_file_section
          (a ++ txt "/* End PBXBuildFile section *") = false ->
        exists out,
          insert_build_files files file_refs build_files b st = Ok (out, st)
          /\ insert_build_files files file_refs build_files
               (a ++ build_file_section ++ b) st
             = Ok (a ++ (join [nl]
                           (map (fun fi => patch_build_file_line
                                             (dict_value build_files (name fi))
                                             (dict_value file_refs (name fi))
                                             (name fi)) files) ++ [nl])
                   ++ build_file_section ++ out, st)).
Proof.
  split; intros a b Hc; eexists.
  - rewrite !(insert_file_refs_run urandom files st0 st1 file_refs build_files
                Hmint).
    split; [reflexivity|]. f_equal. f_equal.
    change file_ref_section
      with (txt "/* End PBXFileReference section *" ++ ["/"%char]) in *.
    rewrite replace_first by exact Hc.
    rewrite <- !app_assoc. reflexivity.
  - rewrite !(insert_build_files_run urandom files st0 st1 file_refs
                build_files Hmint).
    split; [reflexivity|]. f_equal. f_equal.
    change build_file_section
      with (txt "/* End PBXBuildFile section *" ++ ["/"%char]) in *.
    rewrite replace_first by exact Hc.
    rewrite <- !app_assoc. reflexivity.
Qed.

End EveryMarker.

Lemma lines_before_every_marker_witness :
  mint_ids sample_urandom files_to_add 0
  = Ok ((fst sample_ids, snd sample_ids), 10)
  /\ contains file_ref_section
       (txt "A" ++ txt "/* End PBXFileReference section *") = false
  /\ exists out,
       insert_file_refs files_to_add (fst sample_ids) (txt "B") 0
       = Ok (out, 0)
       /\ insert_file_refs files_to_add (fst sample_ids)
            (txt "A" ++ file_ref_section ++ txt "B") 0
          = Ok (txt "A"
                ++ (join [nl]
                      (map (fun fi => patch_file_ref_line
                                        (dict_value (fst sample_ids) (name fi))
                                        (name fi)) files_to_add) ++ [nl])
                ++ file_ref_section ++ out, 0).
Proof.
  split; [exact sample_mint|].
  assert (contains file_ref_section
            (txt "A" ++ txt "/* End PBXFileReference section *") = false)
    as Hc by (vm_compute; reflexivity).
  split; [exact Hc|].
  exact (proj1 (lines_before_every_marker sample_urandom files_to_add 0 10
                  (fst sample_ids) (snd sample_ids) sample_mint 0)
           (txt "A") (txt "B") Hc).
Defined.

(** X16. The script reports success although nothing was synthesized: when
    the [xcodegen] attempt fails and [xcrun swift package init] exits with
    [0], the main program prints its success message (if printing works) and
    returns, having drawn no identifier, created no directory and written no
    file other than [project.yml]. *)
Theorem main_reports_success_without_project (env : environment)
    (urandom : nat -> N) (w w1 : world) (f0 : failure) :
  create_with_xcodegen env (txt "SignalAir") (txt "com.signalair.app") w
  = (Raised f0, w1) ->
  (forall h text, print_ok env h text = true) ->
  run_result env (history w1 ++ [Ev_print creating_manually])
    (swift_package_init (txt "SignalAir")) = Some 0%Z ->
  exists w',
    create_xcodeproj_main env urandom w = (Returned tt, w')
    /\ last (history w') = Some (Ev_print created_successfully)
    /\ draws w' = draws w
    /\ Forall (fun ev => match ev with
                         | Ev_write path _ => path = txt "project.yml"
                         | Ev_makedirs _ => False
                         | _ => True
                         end) (new_events w w').
Proof.
  intros Hx Hp Hr.
  destruct (create_with_xcodegen_world env (txt "SignalAir")
              (txt "com.signalair.app") w) as (r & pre & Ew & Hpre).
  rewrite Hx in Ew. injection Ew as _ ->. cbn [history] in Hr.
  unfold create_xcodeproj_main, io_bind, create_project, try_except.
  rewrite Hx.
  unfold create_manual_project, try_except, io_bind, subprocess_run, io_ret.
  rewrite !print_run, Hp. cbn [history draws]. rewrite Hr.
  cbn [Z.eqb negb]. unfold record. rewrite print_run, Hp.
  cbn [history draws]. rewrite <- !app_assoc. cbn [app].
  eexists. split; [reflexivity|]. cbn [history draws].
  split.
  { change [Ev_print creating_manually;
            Ev_run (swift_package_init (txt "SignalAir"));
            Ev_print created_successfully]
      with ([Ev_print creating_manually;
             Ev_run (swift_package_init (txt "SignalAir"))]
            ++ [Ev_print created_successfully]).
    rewrite !app_assoc. apply last_snoc. }
  split; [reflexivity|].
  rewrite new_events_app. apply Forall_app. split; [exact Hpre|].
  repeat constructor.
Qed.

Lemma main_reports_success_without_project_witness :
  let w1 := {| history := [ Ev_write (txt "project.yml")
                              (unlines (project_spec (txt "SignalAir")
                                          (txt "com.signalair.app")));
                            Ev_run [txt "xcodegen"; txt "generate"] ];
               draws := 0 |} in
  create_with_xcodegen swift_only_env (txt "SignalAir")
    (txt "com.signalair.app") fresh_world = (Raised Xcodegen_failed, w1)
  /\ (forall h text, print_ok swift_only_env h text = true)
  /\ run_result swift_only_env (history w1 ++ [Ev_print creating_manually])
       (swift_package_init (txt "SignalAir")) = Some 0%Z
  /\ exists w',
       create_xcodeproj_main swift_only_env sample_urandom fresh_world
       = (Returned tt, w')
       /\ last (history w') = Some (Ev_print created_successfully)
       /\ draws w' = draws fresh_world
       /\ Forall (fun ev => match ev with
                            | Ev_write path _ => path = txt "project.yml"
                            | Ev_makedirs _ => False
                            | _ => True
                            end) (new_events fresh_world w').
Proof.
  cbv zeta.
  split; [reflexivity|]. split; [reflexivity|]. split; [reflexivity|].
  exact (main_reports_success_without_project swift_only_env sample_urandom
           fresh_world _ Xcodegen_failed eq_refl (fun _ _ => eq_refl) eq_refl).
Defined.

(** ** Identifiers of the declared files *)

Section DistinctIds.

Variable urandom : nat -> N.
Variables (lo hi : nat).

Hypothesis Hinj :
  forall i j, lo <= i < hi -> lo <= j < hi ->
    uuid_at urandom i = uuid_at urandom j -> i = j.

Lemma minted_ids_NoDup (files : list str) :
  forall st, lo <= st -> st + 2 * length files <= hi ->
    NoDup (map m_first (minted urandom st files)
           ++ map m_second (minted urandom st files))
    /\ forall x,
         In x (map m_first (minted urandom st files)
               ++ map m_second (minted urandom st files)) ->
         exists i, st <= i < st + 2 * length files /\ x = uuid_at urandom i.
Proof.
  induction files as [|f files IH]; intros st Hlo Hhi.
  - cbn [minted map app]. split; [constructor|]. intros x [].
  - cbn [length] in Hhi. cbn [minted map m_first m_second fst snd].
    destruct (IH (S (S st)) ltac:(lia) ltac:(lia)) as [Hnd Hin].
    set (F := map m_first (minted urandom (S (S st)) files)) in *.
    set (S2 := map m_second (minted urandom (S (S st)) files)) in *.
    assert (forall k x, (k = st \/ k = S st) -> In x (F ++ S2) ->
                        x <> uuid_at urandom k) as Hfresh.
    { intros k x Hk Hx ->. destruct (Hin _ Hx) as (i & Hi & E).
      apply Hinj in E; lia. }
    split.
    + change ((uuid_at urandom st :: F) ++ uuid_at urandom (S st) :: S2)
        with (uuid_at urandom st :: F ++ uuid_at urandom (S st) :: S2).
      rewrite <- Permutation_middle.
      apply NoDup_cons. split.
      * rewrite list_elem_of_In. intros [E|Hx].
        -- apply Hinj in E; lia.
        -- exact (Hfresh st _ (or_introl eq_refl) Hx eq_refl).
      * apply NoDup_cons. split; [|exact Hnd].
        rewrite list_elem_of_In. intros Hx.
        exact (Hfresh (S st) _ (or_intror eq_refl) Hx eq_refl).
    + intros x Hx.
      change ((uuid_at urandom st :: F) ++ uuid_at urandom (S st) :: S2)
        with (uuid_at urandom st :: F ++ uuid_at urandom (S st) :: S2) in Hx.
      destruct Hx as [<-|Hx]; [exists st; split; [cbn [length]; lia|reflexivity]|].
      apply in_app_or in Hx as [Hx|[<-|Hx]].
      * destruct (Hin x (in_or_app _ _ _ (or_introl Hx))) as (i & Hi & E).
        exists i. split; [cbn [length]; lia|exact E].
      * exists (S st). split; [cbn [length]; lia|reflexivity].
      * destruct (Hin x (in_or_app _ _ _ (or_intror Hx))) as (i & Hi & E).
        exists i. split; [cbn [length]; lia|exact E].
Qed.

End DistinctIds.

(** X17. Each discovered file and the two fixed file references get
    identifiers of their own: for pairwise different files, the
    [2 n + 2] identifiers under which the build-file section and the
    file-reference section declare their objects are pairwise different
    whenever the draws of the run are. *)
Theorem declared_file_ids_distinct (urandom : nat -> N)
    (project_name bundle_id : str) (swift_files : list str) (st : nat) :
  NoDup swift_files ->
  one_line project_name ->
  Forall one_line swift_files ->
  (forall i j,
     st <= i < st + 2 * length swift_files + 18 ->
     st <= j < st + 2 * length swift_files + 18 ->
     uuid_at urandom i = uuid_at urandom j -> i = j) ->
  exists out,
    assemble_pbxproj urandom project_name bundle_id swift_files st
      = Ok (out, st + 2 * length swift_files + 18)
    /\ length (declared_file_ids out) = 2 * length swift_files + 2
    /\ NoDup (declared_file_ids out).
Proof.
  intros Hnd Hname Hfiles Hinj. eexists.
  split; [apply assemble_pbxproj_run|].
  unfold declared_file_ids.
  rewrite synth_build_file_entries, synth_file_reference_section
    by assumption.
  set (n := length swift_files) in *.
  set (ms := minted urandom (st + 4) swift_files).
  assert (map (fun f => file_ref_line
                          (dict_value (dict_of m_second ms ∅) f) f) swift_files
          = map (fun m => file_ref_line (m_second m) (m_file m)) ms) as ->.
  { rewrite <- (minted_files urandom (st + 4) swift_files) at 1.
    fold ms. rewrite map_map. apply map_ext_in. intros m Hm.
    subst ms. rewrite (dict_value_NoDup urandom m_second (st + 4) swift_files
                         m Hnd Hm). reflexivity. }
  rewrite !map_app, !map_map. cbn [map].
  assert (forall m, In m ms -> token (m_first m) /\ token (m_second m)) as Htok.
  { intros m Hm. destruct (minted_In urandom _ _ _ Hm) as (i & _ & -> & ->).
    split; apply uuid_at_token. }
  assert (map (fun m => entry_id (build_file_line (m_first m) (m_second m)
                                    (m_file m))) ms = map m_first ms) as ->.
  { apply map_ext_in. intros m Hm. apply entry_id_build_file_line.
    apply (Htok m Hm). }
  assert (map (fun m => entry_id (file_ref_line (m_second m) (m_file m))) ms
          = map m_second ms) as ->.
  { apply map_ext_in. intros m Hm. unfold file_ref_line.
    apply (entry_id_token 2). apply (Htok m Hm). }
  assert (forall name u, token u -> entry_id (app_ref_line name u) = u)
    as Happ.
  { intros name u Hu. unfold app_ref_line. apply (entry_id_token 2), Hu. }
  assert (forall u, token u -> entry_id (info_plist_line u) = u) as Hplist.
  { intros u Hu. unfold info_plist_line. apply (entry_id_token 2), Hu. }
  rewrite Happ, Hplist by apply uuid_at_token.
  unfold fixed_draw. cbn [Nat.ltb Nat.leb]. fold n.
  split.
  { assert (length ms = n) as Hlen.
    { subst ms n. rewrite <- (length_map m_file), minted_files.
      reflexivity. }
    rewrite !length_app, !length_map. cbn [length]. lia. }
  destruct (minted_ids_NoDup urandom st (st + 2 * n + 18) Hinj swift_files
              (st + 4) ltac:(lia) ltac:(fold n; lia)) as [Hnd2 Hin].
  fold ms in Hnd2, Hin. fold n in Hin.
  set (a := uuid_at urandom (st + 2 * n + 4)).
  set (b := uuid_at urandom (st + 2 * n + 5)).
  assert (map m_first ms ++ [a; b] ++ map m_second ms
          ≡ₚ a :: b :: map m_first ms ++ map m_second ms) as ->.
  { rewrite app_assoc, (Permutation_app_comm (map m_first ms)).
    reflexivity. }
  apply NoDup_cons. split.
  - rewrite list_elem_of_In. intros [E|Hx].
    + subst a b. apply Hinj in E; lia.
    + destruct (Hin _ Hx) as (i & Hi & E). subst a. apply Hinj in E; lia.
  - apply NoDup_cons. split; [|exact Hnd2].
    rewrite list_elem_of_In. intros Hx.
    destruct (Hin _ Hx) as (i & Hi & E). subst b. apply Hinj in E; lia.
Qed.

Lemma sample_draws_distinct (n : nat) :
  NoDup (map (uuid_at sample_urandom) (seq 0 n)) ->
  forall i j, 0 <= i < 0 + n -> 0 <= j < 0 + n ->
    uuid_at sample_urandom i = uuid_at sample_urandom j -> i = j.
Proof.
  intros Hnd i j Hi Hj E.
  apply (proj1 (NoDup_alt _) Hnd i j (uuid_at sample_urandom i)).
  - rewrite list_lookup_fmap, lookup_seq_lt by lia. reflexivity.
  - rewrite list_lookup_fmap, lookup_seq_lt by lia. cbn. rewrite E.
    reflexivity.
Qed.

Lemma declared_file_ids_distinct_witness :
  let files := [txt "A.swift"; txt "sub/B.swift"] in
  NoDup files /\ one_line (txt "Demo") /\ Forall one_line files
  /\ (forall i j,
        0 <= i < 0 + 2 * length files + 18 ->
        0 <= j < 0 + 2 * length files + 18 ->
        uuid_at sample_urandom i = uuid_at sample_urandom j -> i = j)
  /\ exists out,
       assemble_pbxproj sample_urandom (txt "Demo") (txt "com.demo.app")
         files 0 = Ok (out, 0 + 2 * length files + 18)
       /\ length (declared_file_ids out) = 2 * length files + 2
       /\ NoDup (declared_file_ids out).
Proof.
  assert (NoDup [txt "A.swift"; txt "sub/B.swift"]) as Hnd by compute_done.
  assert (one_line (txt "Demo")) as Hname by compute_done.
  assert (Forall one_line [txt "A.swift"; txt "sub/B.swift"]) as Hfiles.
  { repeat constructor; compute_done. }
  assert (NoDup (map (uuid_at sample_urandom) (seq 0 22))) as Hdraws.
  { apply (bool_decide_unpack _). vm_compute. exact I. }
  pose proof (sample_draws_distinct 22 Hdraws) as Hinj.
  split; [exact Hnd|]. split; [exact Hname|]. split; [exact Hfiles|].
  split; [exact Hinj|].
  exact (declared_file_ids_distinct sample_urandom (txt "Demo")
           (txt "com.demo.app") _ 0 Hnd Hname Hfiles Hinj).
Defined.
